(** * Smart-Tourist-Safety: the hybrid detection pipeline

    A shallow embedding of the Python back end (feature engineering, rule
    engine, isolation-forest scorer, hybrid fusion and the periodic
    analysis driver) together with the properties its specification
    states about it.

    Numbers.  Python's [float] and [int] are both embedded as exact
    rationals [Q]; NaN, the infinities and binary rounding are outside
    the model.  Library functions that have no rational counterpart
    ([math.sin], [numpy.exp], [float(str)], [datetime.fromisoformat], ...)
    are the fields of the class [Platform]; every theorem holds for every
    platform.

    Dynamic typing.  The rows and events handed over by the Event Store
    are JSON objects, so their fields are embedded as [pyval] (null, bool,
    number or string) and every operation that Python can refuse on them
    returns in the exception monad [py]. *)

From Stdlib Require Import QArith Qminmax Qround Qabs Lqa Ascii String List.
From stdpp Require Import gmap strings list fin_maps sorting pretty.

Open Scope Q_scope.
Open Scope string_scope.

(* ===================================================================== *)
(** * Python values and exceptions                                        *)
(* ===================================================================== *)

Module Py.

(** The built-in exceptions the pipeline can meet. *)
Inductive exn : Type :=
| KeyError
| TypeError
| ValueError
| UnpicklingError.

(** A computation either returns or raises. *)
Inductive py (A : Type) : Type :=
| Ok (a : A)
| Raise (e : exn).
Arguments Ok {A} a.
Arguments Raise {A} e.

Definition bind {A B} (m : py A) (k : A -> py B) : py B :=
  match m with
  | Ok a => k a
  | Raise e => Raise e
  end.

(** [try: m  except (e1, e2, ...): h] *)
Definition try_except {A} (m : py A) (caught : exn -> bool) (h : py A) : py A :=
  match m with
  | Ok a => Ok a
  | Raise e => if caught e then h else Raise e
  end.

Definition returns {A} (m : py A) : Prop := exists a, m = Ok a.

(** A JSON scalar as Python sees it after decoding. *)
Inductive pyval : Type :=
| PNone
| PBool (b : bool)
| PNum (q : Q)
| PStr (s : string).

(** Comparisons on numbers, as booleans. *)
Definition Qleb (a b : Q) : bool := Qle_bool a b.
Definition Qltb (a b : Q) : bool := negb (Qle_bool b a).
Definition Qgeb (a b : Q) : bool := Qle_bool b a.
Definition Qgtb (a b : Q) : bool := negb (Qle_bool a b).

(** [min(a, b)] and [max(a, b)]: the first argument wins a tie. *)
Definition py_min (a b : Q) : Q := if Qltb b a then b else a.
Definition py_max (a b : Q) : Q := if Qgtb b a then b else a.

(** [bool(v)] *)
Definition truthy (v : pyval) : bool :=
  match v with
  | PNone => false
  | PBool b => b
  | PNum q => negb (Qeq_bool q 0)
  | PStr s => negb (String.eqb s "")
  end.

(** [a or b] *)
Definition py_or (a b : pyval) : pyval := if truthy a then a else b.

(** The numeric reading of a value in arithmetic and ordering: [bool] is
    a subtype of [int]; [None] and [str] are not numbers. *)
Definition as_number (v : pyval) : option Q :=
  match v with
  | PBool b => Some (if b then 1 else 0)
  | PNum q => Some q
  | PNone | PStr _ => None
  end.

(** [v == "literal"] *)
Definition eq_str (v : pyval) (s : string) : bool :=
  match v with
  | PStr s' => String.eqb s' s
  | _ => false
  end.

(** [v >= c], [v > c] against a numeric literal: [TypeError] unless [v]
    is a number. *)
Definition ge_num (v : pyval) (c : Q) : py bool :=
  match as_number v with
  | Some q => Ok (Qgeb q c)
  | None => Raise TypeError
  end.

Definition gt_num (v : pyval) (c : Q) : py bool :=
  match as_number v with
  | Some q => Ok (Qgtb q c)
  | None => Raise TypeError
  end.

(** [a < b] between two values, as [sorted] uses it on keys: numbers
    compare with numbers and strings with strings (by code point);
    every other pairing raises [TypeError]. *)
Definition lt (a b : pyval) : py bool :=
  match a, b with
  | PStr s, PStr t => Ok (String.ltb s t)
  | _, _ =>
      match as_number a, as_number b with
      | Some x, Some y => Ok (Qltb x y)
      | _, _ => Raise TypeError
      end
  end.

(** [list.index(x)] *)
Fixpoint index (x : string) (l : list string) : py nat :=
  match l with
  | [] => Raise ValueError
  | y :: l' => if String.eqb y x then Ok 0%nat
               else bind (index x l') (fun i => Ok (S i))
  end.

(** [sorted(xs, key=key)]: a stable sort that only ever asks [<] of two
    keys.  Each element is put behind the elements already placed whose
    key is not greater.  A comparison that raises aborts the sort; with
    two or more elements that happens exactly when the keys are not all
    numbers or all strings, as for the built-in. *)
Section Sorted.
Context {A : Type} (key : A -> pyval).

Fixpoint insert_by (x : A) (placed : list A) : py (list A) :=
  match placed with
  | [] => Ok [x]
  | y :: rest =>
      bind (lt (key x) (key y)) (fun before =>
      if before then Ok (x :: y :: rest)
      else bind (insert_by x rest) (fun rest' => Ok (y :: rest')))
  end.

Fixpoint sort_onto (placed : list A) (xs : list A) : py (list A) :=
  match xs with
  | [] => Ok placed
  | x :: xs' => bind (insert_by x placed) (fun placed' => sort_onto placed' xs')
  end.

Definition sorted (xs : list A) : py (list A) := sort_onto [] xs.
End Sorted.

(** [round(x, ndigits)]: to the nearest multiple of [10^-ndigits], ties
    to the even one. *)
Definition round (x : Q) (ndigits : nat) : Q :=
  let scale := inject_Z (10 ^ Z.of_nat ndigits) in
  let s := x * scale in
  let f := Qfloor s in
  let r := s - inject_Z f in
  let n := if Qltb r (1 # 2) then f
           else if Qltb (1 # 2) r then (f + 1)%Z
           else if Z.even f then f else (f + 1)%Z in
  inject_Z n / scale.

End Py.

Export Py.

Notation "'let*' x := m 'in' k" := (Py.bind m (fun x => k))
  (at level 10, x name, m at level 200, k at level 200,
   format "'[v' 'let*'  x  :=  m  'in' '/' k ']'").

(** Library functions outside the repository.  [float_of_str s] is
    [float(s)] on a string and [fromisoformat_timestamp s] is
    [datetime.fromisoformat(s).timestamp()]; both answer [None] where
    Python raises [ValueError]. *)
Class Platform : Type := {
  math_radians : Q -> Q;
  math_sin : Q -> Q;
  math_cos : Q -> Q;
  math_sqrt : Q -> Q;
  math_atan2 : Q -> Q -> Q;
  np_exp : Q -> Q;
  float_of_str : string -> option Q;
  str_of_num : Q -> string;
  fromisoformat_timestamp : string -> option Q
}.

(* ===================================================================== *)
(** * engine/hybrid_fusion.py                                             *)
(* ===================================================================== *)

Module HybridFusion.

Record FusionResult : Type := {
  hybrid_score : Q;
  severity : string;
  rule_score : Q;
  anomaly_score : Q;
  concordance : string;
  should_alert : bool
}.

Definition SEVERITY_LEVELS : list string := ["LOW"; "MEDIUM"; "HIGH"; "CRITICAL"].

Definition classify_severity (score : Q) : string :=
  if Qgeb score 0.8 then "CRITICAL"
  else if Qgeb score 0.6 then "HIGH"
  else if Qgeb score 0.3 then "MEDIUM"
  else "LOW".

Definition severity_meets_threshold (severity threshold : string) : py bool :=
  let* i := Py.index severity SEVERITY_LEVELS in
  let* j := Py.index threshold SEVERITY_LEVELS in
  Ok (j <=? i)%nat.

Definition _determine_concordance (rule_score anomaly_score : Q) : string :=
  if Qgtb rule_score 0.5 && Qgtb anomaly_score 0.5 then "AGREE_HIGH"
  else if Qltb rule_score 0.2 && Qltb anomaly_score 0.3 then "AGREE_LOW"
  else if Qgtb rule_score 0.5 && Qltb anomaly_score 0.3 then "RULE_ONLY"
  else if Qltb rule_score 0.2 && Qgtb anomaly_score 0.7 then "ML_ONLY"
  else "CONFLICT".

Definition compute_hybrid_score
    (rule_score anomaly_score rule_weight ml_weight : Q)
    (alert_threshold : string) : py FusionResult :=
  let hybrid := rule_weight * rule_score + ml_weight * anomaly_score in
  let concordance := _determine_concordance rule_score anomaly_score in
  let hybrid :=
    if String.eqb concordance "AGREE_HIGH" then py_min 1.0 (hybrid + 0.1)
    else if String.eqb concordance "ML_ONLY" then hybrid * 0.7
    else hybrid in
  let hybrid := py_max 0.0 (py_min 1.0 hybrid) in
  let severity := classify_severity hybrid in
  let* should_alert := severity_meets_threshold severity alert_threshold in
  Ok {| hybrid_score := hybrid;
        severity := severity;
        rule_score := rule_score;
        anomaly_score := anomaly_score;
        concordance := concordance;
        should_alert := should_alert |}.

End HybridFusion.

(** A JSON object: an aggregated row, an event, or a feature mapping as
    the rule engine receives it. *)
Abbreviation pydict := (gmap string pyval).

(** [d.get(k, dflt)] and [d[k]] *)
Definition dict_get (d : pydict) (k : string) (dflt : pyval) : pyval :=
  default dflt (d !! k).

Definition dict_item (d : pydict) (k : string) : py pyval :=
  match d !! k with
  | Some v => Ok v
  | None => Raise KeyError
  end.

(** The sort key of both event scans: [lambda e: e.get("timestamp", "")]. *)
Definition timestamp_key (e : pydict) : pyval := dict_get e "timestamp" (PStr "").

(* ===================================================================== *)
(** * engine/rule_engine.py                                               *)
(* ===================================================================== *)

Module RuleEngine.

Record RuleResult : Type := {
  rule_id : string;
  triggered : bool;
  score : Q;
  description : string
}.

Record RuleEngineOutput : Type := {
  rule_score : Q;
  triggered_rules : list string;
  details : list RuleResult;
  severity : string
}.

Definition classify_severity (score : Q) : string :=
  if Qgeb score 0.8 then "CRITICAL"
  else if Qgeb score 0.6 then "HIGH"
  else if Qgeb score 0.3 then "MEDIUM"
  else "LOW".

Section Rules.
Context `{Platform}.

Definition _rule_r1_sustained_danger (features : pydict) : py RuleResult :=
  let* a := ge_num (dict_get features "max_risk_timer" (PNum 0)) 60 in
  let* triggered :=
    if a : bool then gt_num (dict_get features "danger_ratio" (PNum 0)) 0.5
    else Ok false in
  Ok {| rule_id := "R1";
        triggered := triggered;
        score := if triggered : bool then 0.8 else 0.0;
        description := "Sustained danger zone exposure (≥60s)" |}.

Definition _rule_r2_panic (features : pydict) : py RuleResult :=
  let* triggered := gt_num (dict_get features "panic_count" (PNum 0)) 0 in
  Ok {| rule_id := "R2";
        triggered := triggered;
        score := if triggered : bool then 1.0 else 0.0;
        description := "Panic button activated" |}.

(** [str(v)] *)
Definition py_str (v : pyval) : string :=
  match v with
  | PNone => "None"
  | PBool true => "True"
  | PBool false => "False"
  | PNum q => str_of_num q
  | PStr s => s
  end.

(** [s.replace("Z", "+00:00")] *)
Fixpoint replace_Z (s : string) : string :=
  match s with
  | EmptyString => EmptyString
  | String c rest =>
      if Ascii.eqb c "Z"%char then "+00:00" ++ replace_Z rest
      else String c (replace_Z rest)
  end.

(** The body of the [try] in the scan; [None] is the [continue] of
    its [except (ValueError, TypeError)]. *)
Definition event_timestamp (event : pydict) : option Q :=
  fromisoformat_timestamp (replace_Z (py_str (dict_get event "timestamp" (PStr "")))).

(** The loop of [_has_rapid_transition] over the sorted events, with
    [safe_ts] as its state. *)
Fixpoint rapid_scan (threshold_seconds : Q) (safe_ts : option Q)
    (events : list pydict) : bool :=
  match events with
  | [] => false
  | event :: rest =>
      let zone := dict_get event "zone_state" (PStr "") in
      match event_timestamp event with
      | None => rapid_scan threshold_seconds safe_ts rest
      | Some ts =>
          if eq_str zone "SAFE" then rapid_scan threshold_seconds (Some ts) rest
          else if eq_str zone "IN_DANGER" then
            match safe_ts with
            | Some s =>
                if Qleb (ts - s) threshold_seconds then true
                else rapid_scan threshold_seconds safe_ts rest
            | None => rapid_scan threshold_seconds safe_ts rest
            end
          else rapid_scan threshold_seconds safe_ts rest
      end
  end.

Definition _has_rapid_transition (events : list pydict)
    (threshold_seconds : Q) : py bool :=
  let* ordered := Py.sorted timestamp_key events in
  Ok (rapid_scan threshold_seconds None ordered).

Definition _rule_r3_rapid_transition (features : pydict)
    (events : list pydict) : py RuleResult :=
  let* triggered := _has_rapid_transition events 10 in
  Ok {| rule_id := "R3";
        triggered := triggered;
        score := if triggered : bool then 0.7 else 0.0;
        description := "Rapid safe-to-danger transition (≤10s)" |}.

Definition _rule_r4_erratic_movement (features : pydict) : py RuleResult :=
  let* triggered := ge_num (dict_get features "zone_transitions" (PNum 0)) 3 in
  Ok {| rule_id := "R4";
        triggered := triggered;
        score := if triggered : bool then 0.6 else 0.0;
        description := "Erratic zone transitions (≥3 in 2 min)" |}.

Definition _rule_r5_extended_danger (features : pydict) : py RuleResult :=
  let* triggered := ge_num (dict_get features "max_risk_timer" (PNum 0)) 120 in
  Ok {| rule_id := "R5";
        triggered := triggered;
        score := if triggered : bool then 0.9 else 0.0;
        description := "Extended danger exposure (≥120s cumulative)" |}.

Definition _rule_r6_danger_no_exit (features : pydict)
    (events : list pydict) : py RuleResult :=
  let latest_zone := dict_get features "latest_zone_state" (PStr "") in
  let risk_timer := dict_get features "max_risk_timer" (PNum 0) in
  let has_exit :=
    existsb (fun e => eq_str (dict_get e "event_type" PNone) "ZONE_EXIT") events in
  let* triggered :=
    if eq_str latest_zone "IN_DANGER" then
      let* b := ge_num risk_timer 30 in
      Ok (if b : bool then negb has_exit else false)
    else Ok false in
  Ok {| rule_id := "R6";
        triggered := triggered;
        score := if triggered : bool then 0.75 else 0.0;
        description := "In danger zone ≥30s with no exit" |}.

(** A rule evaluator and its arity: the engine hands the raw events
    to R3 and R6 only. *)
Inductive rule_fn : Type :=
| OnFeatures (f : pydict -> py RuleResult)
| OnFeaturesAndEvents (f : pydict -> list pydict -> py RuleResult).

Definition ALL_RULES : list rule_fn :=
  [ OnFeatures _rule_r1_sustained_danger;
    OnFeatures _rule_r2_panic;
    OnFeaturesAndEvents _rule_r3_rapid_transition;
    OnFeatures _rule_r4_erratic_movement;
    OnFeatures _rule_r5_extended_danger;
    OnFeaturesAndEvents _rule_r6_danger_no_exit ].

Definition call_rule (rule : rule_fn) (features : pydict)
    (events : list pydict) : py RuleResult :=
  match rule with
  | OnFeatures f => f features
  | OnFeaturesAndEvents f => f features events
  end.

(** The [for rule_fn in ALL_RULES] loop: a rule that raises is logged
    and leaves no result. *)
Fixpoint run_rules (rules : list rule_fn) (features : pydict)
    (events : list pydict) (results : list RuleResult) : list RuleResult :=
  match rules with
  | [] => results
  | rule :: rules' =>
      match call_rule rule features events with
      | Ok result => run_rules rules' features events (results ++ [result])
      | Raise _ => run_rules rules' features events results
      end
  end.

(** [max(xs)] of a non-empty sequence, seeded with its first element. *)
Definition max_of (first : Q) (others : list Q) : Q :=
  foldl py_max first others.

Definition evaluate_rules (features : pydict)
    (events : option (list pydict)) : RuleEngineOutput :=
  let events := default [] events in
  let results := run_rules ALL_RULES features events [] in
  let triggered := List.filter (fun r => r.(triggered)) results in
  match triggered with
  | [] => {| rule_score := 0.0;
             triggered_rules := [];
             details := results;
             severity := "LOW" |}
  | first :: others =>
      let score := max_of first.(score) (List.map score others) in
      let score :=
        if (2 <=? length triggered)%nat
        then py_min 1.0 (score + 0.1 * inject_Z (Z.of_nat (length triggered) - 1))
        else score in
      let severity := classify_severity score in
      {| rule_score := score;
         triggered_rules := List.map rule_id triggered;
         details := results;
         severity := severity |}
  end.

End Rules.

End RuleEngine.

(* ===================================================================== *)
(** * engine/feature_engineer.py                                          *)
(* ===================================================================== *)

Module FeatureEngineer.

Definition FEATURE_COLUMNS : list string :=
  [ "event_count";
    "unique_zones";
    "danger_ratio";
    "caution_ratio";
    "panic_count";
    "zone_transitions";
    "max_risk_timer";
    "avg_risk_timer";
    "lat_std";
    "lng_std";
    "distance_traveled";
    "speed_estimate" ].

Section Features.
Context `{Platform}.

(** A numeric operand of [math.radians] or of [-]: anything else is a
    [TypeError]. *)
Definition number (v : pyval) : py Q :=
  match as_number v with
  | Some q => Ok q
  | None => Raise TypeError
  end.

Definition py_sub (a b : pyval) : py Q :=
  let* x := number a in
  let* y := number b in
  Ok (x - y).

Definition radians (v : pyval) : py Q :=
  let* x := number v in
  Ok (math_radians x).

Definition haversine_meters (lat1 lng1 lat2 lng2 : pyval) : py Q :=
  let R := 6371000 in
  let* phi1 := radians lat1 in
  let* phi2 := radians lat2 in
  let* dlat := py_sub lat2 lat1 in
  let dphi := math_radians dlat in
  let* dlng := py_sub lng2 lng1 in
  let dlam := math_radians dlng in
  let a := math_sin (dphi / 2) ^ 2
           + math_cos phi1 * math_cos phi2 * math_sin (dlam / 2) ^ 2 in
  Ok (R * 2 * math_atan2 (math_sqrt a) (math_sqrt (1 - a))).

(** One turn of the loop in [compute_distance_traveled]: the [try]
    adds the segment, [except (KeyError, TypeError): continue] leaves
    the total as it was. *)
Definition segment (prev curr : pydict) : py Q :=
  let* lat1 := dict_item prev "latitude" in
  let* lng1 := dict_item prev "longitude" in
  let* lat2 := dict_item curr "latitude" in
  let* lng2 := dict_item curr "longitude" in
  haversine_meters lat1 lng1 lat2 lng2.

Definition key_or_type_error (e : exn) : bool :=
  match e with
  | KeyError | TypeError => true
  | _ => false
  end.

Fixpoint add_segments (total : Q) (prev : pydict) (rest : list pydict) : py Q :=
  match rest with
  | [] => Ok total
  | curr :: rest' =>
      let* total' :=
        try_except
          (let* d := segment prev curr in Ok (total + d))
          key_or_type_error
          (Ok total) in
      add_segments total' curr rest'
  end.

Definition compute_distance_traveled (events : list pydict) : py Q :=
  let* sorted_events := Py.sorted timestamp_key events in
  match sorted_events with
  | [] => Ok 0.0
  | first :: rest => add_segments 0.0 first rest
  end.

(** [float(v)] *)
Definition py_float (v : pyval) : py Q :=
  match v with
  | PNone => Raise TypeError
  | PBool b => Ok (if b then 1 else 0)
  | PNum q => Ok q
  | PStr s =>
      match float_of_str s with
      | Some q => Ok q
      | None => Raise ValueError
      end
  end.

(** The [for col in FEATURE_COLUMNS] loop of [enrich_features]. *)
Fixpoint fill_features (agg_row : pydict) (distance speed : Q)
    (cols : list string) (features : gmap string Q) : py (gmap string Q) :=
  match cols with
  | [] => Ok features
  | col :: cols' =>
      let* value :=
        if String.eqb col "distance_traveled" then Ok distance
        else if String.eqb col "speed_estimate" then Ok speed
        else py_float (py_or (dict_get agg_row col (PNum 0)) (PNum 0)) in
      fill_features agg_row distance speed cols' (<[col := value]> features)
  end.

Definition enrich_features (agg_row : pydict) (raw_events : list pydict)
    (window_seconds : Q) : py (gmap string Q) :=
  let* distance := compute_distance_traveled raw_events in
  let speed := if Qgtb window_seconds 0 then distance / window_seconds else 0.0 in
  fill_features agg_row distance speed FEATURE_COLUMNS ∅.

End Features.

End FeatureEngineer.

(* ===================================================================== *)
(** * engine/isolation_forest.py                                          *)
(* ===================================================================== *)

Module IsolationForest.

(** The trained estimator, known to the service only through its
    decision function on one row of features. *)
Record Estimator : Type := {
  decision_function : list Q -> Q
}.

(** The dictionary inside a bundle file; a field is [None] when its key
    is absent. *)
Record Bundle : Type := {
  bundle_model : option Estimator;
  bundle_threshold : option Q;
  bundle_feature_columns : option (list string);
  bundle_model_version : option string;
  bundle_training_samples : option Z
}.

(** What [joblib.load] finds in a file: a dictionary, some other
    object, or bytes it cannot deserialize. *)
Inductive file : Type :=
| Pickled (b : Bundle)
| PickledOther
| Corrupt (e : exn).

Record AnomalyDetector : Type := {
  model : option Estimator;
  threshold : Q;
  feature_columns : list string;
  model_version : string;
  training_samples : Z;
  _model_path : string
}.

(** Statements of a method body: they read and assign the fields of
    [self], and an exception leaves the assignments made so far. *)
Definition method (A : Type) : Type := AnomalyDetector -> py A * AnomalyDetector.

Definition ret {A} (a : A) : method A := fun self => (Ok a, self).

Definition lift {A} (m : py A) : method A := fun self => (m, self).

Definition seq {A B} (m : method A) (k : A -> method B) : method B :=
  fun self =>
    match m self with
    | (Ok a, self') => k a self'
    | (Raise e, self') => (Raise e, self')
    end.

Definition set_model (m : option Estimator) : method unit :=
  fun self => (Ok tt, {| model := m;
                         threshold := self.(threshold);
                         feature_columns := self.(feature_columns);
                         model_version := self.(model_version);
                         training_samples := self.(training_samples);
                         _model_path := self.(_model_path) |}).

Definition set_threshold (t : Q) : method unit :=
  fun self => (Ok tt, {| model := self.(model);
                         threshold := t;
                         feature_columns := self.(feature_columns);
                         model_version := self.(model_version);
                         training_samples := self.(training_samples);
                         _model_path := self.(_model_path) |}).

Definition set_feature_columns (c : list string) : method unit :=
  fun self => (Ok tt, {| model := self.(model);
                         threshold := self.(threshold);
                         feature_columns := c;
                         model_version := self.(model_version);
                         training_samples := self.(training_samples);
                         _model_path := self.(_model_path) |}).

Definition set_model_version (v : string) : method unit :=
  fun self => (Ok tt, {| model := self.(model);
                         threshold := self.(threshold);
                         feature_columns := self.(feature_columns);
                         model_version := v;
                         training_samples := self.(training_samples);
                         _model_path := self.(_model_path) |}).

Definition set_training_samples (n : Z) : method unit :=
  fun self => (Ok tt, {| model := self.(model);
                         threshold := self.(threshold);
                         feature_columns := self.(feature_columns);
                         model_version := self.(model_version);
                         training_samples := n;
                         _model_path := self.(_model_path) |}).

(** [joblib.load(p)] and [bundle["model"]] *)
Definition joblib_load (f : file) : py (option Bundle) :=
  match f with
  | Pickled b => Ok (Some b)
  | PickledOther => Ok None
  | Corrupt e => Raise e
  end.

Definition bundle_item_model (bundle : option Bundle) : py Estimator :=
  match bundle with
  | None => Raise TypeError
  | Some b =>
      match b.(bundle_model) with
      | Some m => Ok m
      | None => Raise KeyError
      end
  end.

Definition bundle_get {A} (bundle : option Bundle) (field : Bundle -> option A)
    (dflt : A) : A :=
  match bundle with
  | Some b => default dflt (field b)
  | None => dflt
  end.

(** The [try] block of [load_model]. *)
Definition load_model_body (f : file) : method bool :=
  seq (lift (joblib_load f)) (fun bundle =>
  seq (lift (bundle_item_model bundle)) (fun m =>
  seq (set_model (Some m)) (fun _ =>
  seq (set_threshold (bundle_get bundle bundle_threshold 0.0)) (fun _ =>
  seq (set_feature_columns
         (bundle_get bundle bundle_feature_columns FeatureEngineer.FEATURE_COLUMNS)) (fun _ =>
  seq (set_model_version (bundle_get bundle bundle_model_version "v1")) (fun _ =>
  seq (set_training_samples (bundle_get bundle bundle_training_samples 0%Z)) (fun _ =>
  ret true))))))).

(** [load_model]: [fs] is the file system, a path without an entry is
    a file that does not exist; [except Exception] answers [False]. *)
Definition load_model (fs : gmap string file) (path : string) : method bool :=
  fun self =>
    match fs !! path with
    | None => (Ok false, self)
    | Some f =>
        match load_model_body f self with
        | (Ok b, self') => (Ok b, self')
        | (Raise _, self') => (Ok false, self')
        end
    end.

Definition reload (fs : gmap string file) : method bool :=
  fun self => load_model fs self.(_model_path) self.

(** [AnomalyDetector(model_path)] *)
Definition __init__ (fs : gmap string file) (model_path : string) : AnomalyDetector :=
  snd (load_model fs model_path
         {| model := None;
            threshold := 0.0;
            feature_columns := FeatureEngineer.FEATURE_COLUMNS;
            model_version := "none";
            training_samples := 0%Z;
            _model_path := model_path |}).

Definition is_loaded (self : AnomalyDetector) : bool :=
  match self.(model) with Some _ => true | None => false end.

Section Inference.
Context `{Platform}.

(** [numpy.clip(x, lo, hi)] *)
Definition np_clip (x lo hi : Q) : Q :=
  if Qltb x lo then lo else if Qltb hi x then hi else x.

Definition _sigmoid_normalise (raw_score steepness : Q) : Q :=
  np_clip (1.0 / (1.0 + np_exp (steepness * raw_score))) 0.0 1.0.

Definition predict (self : AnomalyDetector) (features : gmap string Q) : Q :=
  match self.(model) with
  | None => 0.0
  | Some m =>
      let X := List.map (fun col => default 0.0 (features !! col))
                        self.(feature_columns) in
      let raw_score := m.(decision_function) X in
      _sigmoid_normalise raw_score 5.0
  end.

End Inference.

End IsolationForest.

(* ===================================================================== *)
(** * main.py                                                             *)
(* ===================================================================== *)

Module Main.

(** The options of [config.Settings] the pipeline reads. *)
Record Settings : Type := {
  feature_window_minutes : Z;
  rule_weight : Q;
  ml_weight : Q;
  alert_severity_threshold : string
}.

Definition settings : Settings :=
  {| feature_window_minutes := 2;
     rule_weight := 0.6;
     ml_weight := 0.4;
     alert_severity_threshold := "MEDIUM" |}.

(** The two reads of [SupabaseService].  Each wraps its query in
    [try/except Exception] and answers [[]] on failure, so a read is a
    list whatever happens. *)
Record SupabaseService : Type := {
  get_aggregated_features : list pydict;
  get_recent_events : pyval -> Z -> list pydict
}.

(** The dictionary written to [incident_alerts]. *)
Record Alert : Type := {
  tourist_id : pyval;
  timestamp : string;
  rule_score : Q;
  anomaly_score : Q;
  hybrid_score : Q;
  severity : string;
  triggered_rules : list string;
  feature_vector : gmap string Q;
  latitude : pyval;
  longitude : pyval;
  zone_state : pyval;
  model_version : string
}.

Section Driver.
Context `{Platform}.
(** The process-wide singletons and the clock. *)
Context (anomaly_detector : option IsolationForest.AnomalyDetector).
Context (settings : Settings).

Definition _analyze_single_tourist (now : string) (agg_row : pydict)
    (raw_events : list pydict) : py (option Alert) :=
  let* tourist_id := dict_item agg_row "tourist_id" in
  let* features := FeatureEngineer.enrich_features agg_row raw_events 120.0 in
  let rule_output := RuleEngine.evaluate_rules (PNum <$> features) (Some raw_events) in
  let ml_score :=
    match anomaly_detector with
    | Some d => IsolationForest.predict d features
    | None => 0.0
    end in
  let* fusion :=
    HybridFusion.compute_hybrid_score
      rule_output.(RuleEngine.rule_score) ml_score
      settings.(rule_weight) settings.(ml_weight)
      settings.(alert_severity_threshold) in
  if negb fusion.(HybridFusion.should_alert) then Ok None
  else Ok (Some
    {| tourist_id := tourist_id;
       timestamp := now;
       rule_score := Py.round fusion.(HybridFusion.rule_score) 4;
       anomaly_score := Py.round fusion.(HybridFusion.anomaly_score) 4;
       hybrid_score := Py.round fusion.(HybridFusion.hybrid_score) 4;
       severity := fusion.(HybridFusion.severity);
       triggered_rules := rule_output.(RuleEngine.triggered_rules);
       feature_vector := (fun v => Py.round v 6) <$> features;
       latitude := dict_get agg_row "latest_latitude" PNone;
       longitude := dict_get agg_row "latest_longitude" PNone;
       zone_state := dict_get agg_row "latest_zone_state" PNone;
       model_version :=
         match anomaly_detector with
         | Some d => d.(IsolationForest.model_version)
         | None => "none"
         end |}).

(** The [for agg_row in agg_rows] loop.  [inserted] is what the cycle
    has written to [incident_alerts] so far and [clock i] the time
    read while row [i] is analysed; an exception ends the loop with
    the rows written before it. *)
Fixpoint analyze_rows (svc : SupabaseService) (clock : nat -> string) (i : nat)
    (agg_rows : list pydict) (inserted : list Alert) : py unit * list Alert :=
  match agg_rows with
  | [] => (Ok tt, inserted)
  | agg_row :: rest =>
      let tourist_id := dict_get agg_row "tourist_id" PNone in
      if negb (truthy tourist_id) then analyze_rows svc clock (S i) rest inserted
      else
        let raw_events :=
          svc.(get_recent_events) tourist_id settings.(feature_window_minutes) in
        match _analyze_single_tourist (clock i) agg_row raw_events with
        | Raise e => (Raise e, inserted)
        | Ok None => analyze_rows svc clock (S i) rest inserted
        | Ok (Some alert) => analyze_rows svc clock (S i) rest (inserted ++ [alert])
        end
  end.

Definition analyze_all_tourists (supabase_svc : option SupabaseService)
    (clock : nat -> string) : py unit * list Alert :=
  match supabase_svc with
  | None => (Ok tt, [])
  | Some svc =>
      let agg_rows := svc.(get_aggregated_features) in
      match agg_rows with
      | [] => (Ok tt, [])
      | _ => analyze_rows svc clock 0 agg_rows []
      end
  end.

End Driver.

End Main.

(* ===================================================================== *)
(** * engine/isolation_forest.py: batch inference                         *)
(* ===================================================================== *)

Module IsolationForestBatch.
Import IsolationForest.

Section Batch.
Context `{Platform}.

(** [predict_batch]: [feature_matrix] holds one row per tourist.
    Without a model the answer is [np.zeros(feature_matrix.shape[0])].
    With one, the estimator scores every row and
    [np.vectorize(self._sigmoid_normalise)] maps the scores one by one,
    with the default steepness; on a matrix without rows scikit-learn's
    validation of the input and [np.vectorize] both raise [ValueError]. *)
Definition predict_batch (self : AnomalyDetector) (feature_matrix : list (list Q))
    : py (list Q) :=
  match self.(model) with
  | None => Ok (List.map (fun _ => 0.0) feature_matrix)
  | Some m =>
      match feature_matrix with
      | [] => Raise ValueError
      | _ =>
          let raw_scores := List.map m.(decision_function) feature_matrix in
          Ok (List.map (fun raw_score => _sigmoid_normalise raw_score 5.0) raw_scores)
      end
  end.

End Batch.

End IsolationForestBatch.

(* ===================================================================== *)
(** * main.py: the endpoints                                              *)
(* ===================================================================== *)

Module Endpoints.

(** What a handler hands to the framework: the body of the answer, an
    [HTTPException] with its status code, or an exception of the
    pipeline that the handler does not catch. *)
Inductive response (A : Type) : Type :=
| Returned (body : A)
| HTTPException (status_code : Z)
| Uncaught (e : exn).
Arguments Returned {A} body.
Arguments HTTPException {A} status_code.
Arguments Uncaught {A} e.

(** The body of [POST /analyze/{tourist_id}]. *)
Record Analysis : Type := {
  tourist_id : string;
  features : gmap string Q;
  rule_score : Q;
  anomaly_score : Q;
  hybrid_score : Q;
  severity : string;
  triggered_rules : list string;
  concordance : string;
  should_alert : bool
}.

(** The body of [GET /model/info]. *)
Inductive ModelInfo : Type :=
| NoModel
| Metadata (model_version : string) (training_samples : Z) (threshold : Q)
    (feature_columns : list string).

Section Handlers.
Context `{Platform}.
Context (anomaly_detector : option IsolationForest.AnomalyDetector).
Context (settings : Main.Settings).

Definition analyze_tourist (supabase_svc : option Main.SupabaseService)
    (tourist_id : string) : response Analysis :=
  match supabase_svc with
  | None => HTTPException 503
  | Some svc =>
      let agg_rows := svc.(Main.get_aggregated_features) in
      let agg_row :=
        List.find (fun r => eq_str (dict_get r "tourist_id" PNone) tourist_id) agg_rows in
      match agg_row with
      | None => HTTPException 404
      | Some agg_row =>
          if bool_decide (agg_row = ∅) then HTTPException 404
          else
            let raw_events := svc.(Main.get_recent_events) (PStr tourist_id) 2 in
            let answer :=
              let* features := FeatureEngineer.enrich_features agg_row raw_events 120.0 in
              let rule_output :=
                RuleEngine.evaluate_rules (PNum <$> features) (Some raw_events) in
              let ml_score :=
                match anomaly_detector with
                | Some d => IsolationForest.predict d features
                | None => 0.0
                end in
              let* fusion :=
                HybridFusion.compute_hybrid_score
                  rule_output.(RuleEngine.rule_score) ml_score
                  settings.(Main.rule_weight) settings.(Main.ml_weight)
                  settings.(Main.alert_severity_threshold) in
              Ok {| tourist_id := tourist_id;
                    features := (fun v => Py.round v 6) <$> features;
                    rule_score := Py.round fusion.(HybridFusion.rule_score) 4;
                    anomaly_score := Py.round fusion.(HybridFusion.anomaly_score) 4;
                    hybrid_score := Py.round fusion.(HybridFusion.hybrid_score) 4;
                    severity := fusion.(HybridFusion.severity);
                    triggered_rules := rule_output.(RuleEngine.triggered_rules);
                    concordance := fusion.(HybridFusion.concordance);
                    should_alert := fusion.(HybridFusion.should_alert) |} in
            match answer with
            | Ok body => Returned body
            | Raise e => Uncaught e
            end
      end
  end.

Definition model_info : ModelInfo :=
  match anomaly_detector with
  | None => NoModel
  | Some d =>
      if negb (IsolationForest.is_loaded d) then NoModel
      else Metadata d.(IsolationForest.model_version)
                    d.(IsolationForest.training_samples)
                    d.(IsolationForest.threshold)
                    d.(IsolationForest.feature_columns)
  end.

End Handlers.

End Endpoints.

(* ===================================================================== *)
(** * The training path                                                   *)
(* ===================================================================== *)

(** [build_feature_dataframe] and [_aggregate_window] of
    engine/feature_engineer.py, [train_and_save] of
    engine/isolation_forest.py, [train] of training/train_model.py and
    [_retrain_background] of main.py.

    Frames.  A frame of events is the list of its rows, each with the
    seven columns the functions read, the timestamp as the instant
    [pd.to_datetime] makes of it, in nanoseconds.  A frame of features
    is the list of its rows, a tourist and the dictionary of the row;
    the one without rows is [pd.DataFrame(columns=...)].  Cells that are
    null or no number are outside the model. *)
Module Training.

Record EventRow : Type := {
  tourist_id : string;
  timestamp : Z;
  zone_state : string;
  event_type : string;
  risk_timer_value : Q;
  latitude : Q;
  longitude : Q
}.

Definition FeatureRow : Type := string * gmap string Q.

(** How a run of the training code can end without a value: a built-in
    exception of [Py.exn], a division by zero, an index out of range, a
    cell that is no number (outside the model), or a loop that was not
    given enough turns. *)
Inductive failure : Type :=
| Exception (e : exn)
| ZeroDivisionError
| IndexError
| NotANumber
| OutOfFuel.

Inductive run (A : Type) : Type :=
| Value (a : A)
| Fails (f : failure).
Arguments Value {A} a.
Arguments Fails {A} f.

Definition run_bind {A B} (m : run A) (k : A -> run B) : run B :=
  match m with
  | Value a => k a
  | Fails f => Fails f
  end.

Definition of_py {A} (m : py A) : run A :=
  match m with
  | Ok a => Value a
  | Raise e => Fails (Exception e)
  end.

Notation "'let!' x := m 'in' k" := (run_bind m (fun x => k))
  (at level 10, x name, m at level 200, k at level 200,
   format "'[v' 'let!'  x  :=  m  'in' '/' k ']'").

(** The result of [train_and_save]. *)
Record TrainingResult : Type := {
  result_model_version : string;
  result_training_samples : Z;
  result_threshold : Q;
  result_output_path : string
}.

(** scikit-learn and NumPy as the training uses them: [fit] is
    [IsolationForest(n_estimators, contamination, random_state=42).fit(X)]
    on valid arguments and [np_percentile] is [numpy.percentile]. *)
Class Learner : Type := {
  fit : Z -> Q -> list (list Q) -> IsolationForest.Estimator;
  np_percentile : list Q -> Q -> Q
}.

(** ** [events_df.sort_values(["tourist_id", "timestamp"])]

    A stable sort on the two keys, tourists by code point. *)
Definition row_le (a b : EventRow) : bool :=
  match String.compare a.(tourist_id) b.(tourist_id) with
  | Lt => true
  | Eq => (a.(timestamp) <=? b.(timestamp))%Z
  | Gt => false
  end.

Fixpoint insert_row (x : EventRow) (frame : list EventRow) : list EventRow :=
  match frame with
  | [] => [x]
  | y :: frame' => if row_le x y then x :: frame else y :: insert_row x frame'
  end.

Definition sort_values (frame : list EventRow) : list EventRow :=
  fold_right insert_row [] frame.

(** ** [events_df.groupby("tourist_id")]

    The groups come in ascending order of the key; each holds the rows
    of its tourist in the order of the frame. *)
Fixpoint insert_key (key : string) (keys : list string) : list string :=
  match keys with
  | [] => [key]
  | key' :: keys' =>
      match String.compare key key' with
      | Lt => key :: keys
      | Eq => keys
      | Gt => key' :: insert_key key keys'
      end
  end.

Definition group_keys (frame : list EventRow) : list string :=
  fold_right insert_key [] (List.map tourist_id frame).

Definition groupby (frame : list EventRow) : list (string * list EventRow) :=
  List.map (fun key => (key, List.filter (fun r => String.eqb r.(tourist_id) key) frame))
           (group_keys frame).

(** ** [_aggregate_window] *)

Definition danger_states : list string := ["IN_DANGER"; "NEAR_DANGER"].
Definition caution_states : list string := ["IN_CAUTION"; "NEAR_CAUTION"].
Definition transition_types : list string := ["ZONE_ENTER"; "ZONE_EXIT"].

(** [series.isin(values)] on one cell, and [mask.sum()] *)
Definition isin (values : list string) (v : string) : bool :=
  existsb (String.eqb v) values.

Definition count (mask : EventRow -> bool) (window_df : list EventRow) : Z :=
  Z.of_nat (length (List.filter mask window_df)).

(** [series.nunique()] *)
Definition nunique (series : list string) : Z :=
  Z.of_nat (length (remove_dups series)).

Definition series_sum (series : list Q) : Q := fold_right Qplus 0 series.

(** [series.max()] and [series.mean()] of a series with a first cell *)
Definition series_max (first : Q) (rest : list Q) : Q := fold_left Qmax rest first.

Definition series_mean (series : list Q) : Q :=
  series_sum series / inject_Z (Z.of_nat (length series)).

Section Aggregation.
Context `{Platform}.

(** [series.std()]: the sample deviation, with [n - 1] below the bar. *)
Definition series_std (series : list Q) : Q :=
  let mean := series_mean series in
  let squares := List.map (fun x => (x - mean) ^ 2) series in
  math_sqrt (series_sum squares / inject_Z (Z.of_nat (length series) - 1)).

Definition value_or_type_error (e : exn) : bool :=
  match e with
  | ValueError | TypeError => true
  | _ => false
  end.

(** The [for i in range(1, len(lats))] loop: [except (ValueError,
    TypeError): pass] leaves the distance as it was. *)
Fixpoint add_distances (distance : Q) (prev : EventRow) (rest : list EventRow) : py Q :=
  match rest with
  | [] => Ok distance
  | curr :: rest' =>
      let* distance' :=
        try_except
          (let* d := FeatureEngineer.haversine_meters
                       (PNum prev.(latitude)) (PNum prev.(longitude))
                       (PNum curr.(latitude)) (PNum curr.(longitude)) in
           Ok (distance + d))
          value_or_type_error
          (Ok distance) in
      add_distances distance' curr rest'
  end.

(** [float(x or 0)] *)
Definition float_or_0 (x : Q) : Q := if Qeq_bool x 0 then 0 else x.

(** The dictionary is built entry by entry: on a window without rows
    the third entry divides by zero, and on one row the sample
    deviation is no number. *)
Definition _aggregate_window (window_df : list EventRow) : run (gmap string Q) :=
  let n := Z.of_nat (length window_df) in
  let danger_count := count (fun r => isin danger_states r.(zone_state)) window_df in
  let caution_count := count (fun r => isin caution_states r.(zone_state)) window_df in
  let panic_count := count (fun r => String.eqb r.(event_type) "PANIC") window_df in
  let zone_transitions :=
    count (fun r => isin transition_types r.(event_type)) window_df in
  let! distance :=
    of_py match window_df with
          | [] => Ok 0.0
          | first :: rest => add_distances 0.0 first rest
          end in
  match List.map risk_timer_value window_df with
  | [] => Fails ZeroDivisionError
  | [_] => Fails NotANumber
  | first_timer :: timers =>
      Value {[ "event_count" := inject_Z n;
               "unique_zones" := inject_Z (nunique (List.map zone_state window_df));
               "danger_ratio" := inject_Z danger_count / inject_Z n;
               "caution_ratio" := inject_Z caution_count / inject_Z n;
               "panic_count" := inject_Z panic_count;
               "zone_transitions" := inject_Z zone_transitions;
               "max_risk_timer" := series_max first_timer timers;
               "avg_risk_timer" := series_mean (first_timer :: timers);
               "lat_std" := float_or_0 (series_std (List.map latitude window_df));
               "lng_std" := float_or_0 (series_std (List.map longitude window_df));
               "distance_traveled" := distance;
               "speed_estimate" := distance / 120.0 ]}
  end.

(** ** [build_feature_dataframe] *)

Definition nanoseconds (seconds : Z) : Z := (seconds * 1000000000)%Z.

(** The [while current <= end] loop over one tourist's rows. *)
Fixpoint slide (fuel : nat) (tourist : string) (group : list EventRow)
    (window_ns end_ current : Z) (rows : list FeatureRow) : run (list FeatureRow) :=
  if (current <=? end_)%Z then
    match fuel with
    | O => Fails OutOfFuel
    | S fuel' =>
        let window_end := (current + window_ns)%Z in
        let window_df :=
          List.filter (fun r => (current <=? r.(timestamp))%Z
                                && (r.(timestamp) <? window_end)%Z) group in
        let! rows' :=
          if (3 <=? length window_df)%nat
          then let! agg := _aggregate_window window_df in
               Value (rows ++ [(tourist, agg)])%list
          else Value rows in
        slide fuel' tourist group window_ns end_ (current + nanoseconds 30)%Z rows'
    end
  else Value rows.

(** The [for tourist_id, group in ...] loop; every [while] loop gets
    [fuel] turns. *)
Fixpoint each_group (fuel : nat) (groups : list (string * list EventRow))
    (window_ns : Z) (rows : list FeatureRow) : run (list FeatureRow) :=
  match groups with
  | [] => Value rows
  | (tourist, group) :: groups' =>
      match head group, last group with
      | Some first, Some final =>
          let! rows' :=
            slide fuel tourist group window_ns final.(timestamp) first.(timestamp) rows in
          each_group fuel groups' window_ns rows'
      | _, _ => Fails IndexError
      end
  end.

(** [frame[columns]]: a column that no row has is a [KeyError]; a row
    without a cell that other rows have holds no number there. *)
Definition select_row (columns : list string) (row : FeatureRow) : run FeatureRow :=
  let! cells :=
    fold_right (fun column cells =>
                  let! cells := cells in
                  match row.2 !! column with
                  | Some v => Value ((column, v) :: cells)
                  | None => Fails NotANumber
                  end)
               (Value []) columns in
  Value (row.1, list_to_map cells).

Fixpoint select_rows (columns : list string) (frame : list FeatureRow)
    : run (list FeatureRow) :=
  match frame with
  | [] => Value []
  | row :: frame' =>
      let! row' := select_row columns row in
      let! frame'' := select_rows columns frame' in
      Value (row' :: frame'')
  end.

Definition has_column (frame : list FeatureRow) (column : string) : bool :=
  existsb (fun row : FeatureRow => bool_decide (is_Some (row.2 !! column))) frame.

Definition select_columns (columns : list string) (frame : list FeatureRow)
    : run (list FeatureRow) :=
  match frame with
  | [] => Value []
  | _ =>
      if forallb (has_column frame) columns then select_rows columns frame
      else Fails (Exception KeyError)
  end.

Definition build_feature_dataframe (fuel : nat) (events_df : list EventRow)
    (window_seconds : Z) : run (list FeatureRow) :=
  match events_df with
  | [] => Value []
  | _ =>
      let events_df := sort_values events_df in
      let! rows := each_group fuel (groupby events_df) (nanoseconds window_seconds) [] in
      match rows with
      | [] => Value []
      | _ => select_columns FeatureEngineer.FEATURE_COLUMNS rows
      end
  end.

End Aggregation.

(** ** [train_and_save], [train] and [_retrain_background] *)

Section Train.
Context `{Platform} `{Learner}.
(** [settings.model_path] *)
Context (model_path : string).

(** [feature_df[FEATURE_COLUMNS].values] *)
Definition feature_matrix (feature_df : list FeatureRow) : run (list (list Q)) :=
  let! selected := select_columns FeatureEngineer.FEATURE_COLUMNS feature_df in
  Value (List.map (fun row : FeatureRow =>
                     List.map (fun column => default 0 (row.2 !! column))
                              FeatureEngineer.FEATURE_COLUMNS)
                  selected).

(** scikit-learn checks the parameters and the matrix when [fit]
    begins: the number of trees is at least one, the contamination is
    in (0, 0.5] and there is a sample; otherwise [ValueError]. *)
Definition model_fit (n_estimators : Z) (contamination : Q) (X : list (list Q))
    : run IsolationForest.Estimator :=
  if (n_estimators <? 1)%Z || Qleb contamination 0 || Qltb 0.5 contamination
  then Fails (Exception ValueError)
  else match X with
       | [] => Fails (Exception ValueError)
       | _ => Value (fit n_estimators contamination X)
       end.

(** [fs] is the file system of [IsolationForest.load_model]; it takes
    every write. *)
Definition train_and_save (fs : gmap string IsolationForest.file)
    (feature_df : list FeatureRow) (output_path : string) (n_estimators : Z)
    (contamination : Q) (version : string)
    : run TrainingResult * gmap string IsolationForest.file :=
  match (let! X := feature_matrix feature_df in
         let! model := model_fit n_estimators contamination X in
         Value (X, model)) with
  | Fails f => (Fails f, fs)
  | Value (X, model) =>
      let scores := List.map model.(IsolationForest.decision_function) X in
      let threshold := np_percentile scores 5 in
      let bundle :=
        {| IsolationForest.bundle_model := Some model;
           IsolationForest.bundle_threshold := Some threshold;
           IsolationForest.bundle_feature_columns := Some FeatureEngineer.FEATURE_COLUMNS;
           IsolationForest.bundle_model_version := Some version;
           IsolationForest.bundle_training_samples := Some (Z.of_nat (length X)) |} in
      (Value {| result_model_version := version;
                result_training_samples := Z.of_nat (length X);
                result_threshold := threshold;
                result_output_path := output_path |},
       <[output_path := IsolationForest.Pickled bundle]> fs)
  end.

(** [train]: [training_data] is what [get_safe_training_data] answers. *)
Definition train (fuel : nat) (fs : gmap string IsolationForest.file)
    (training_data : list EventRow) (n_estimators : Z) (contamination : Q)
    (version : string) (output_path : option string)
    : run TrainingResult * gmap string IsolationForest.file :=
  let output_path := default model_path output_path in
  match training_data with
  | [] => (Fails (Exception ValueError), fs)
  | _ =>
      match build_feature_dataframe fuel training_data 120 with
      | Fails f => (Fails f, fs)
      | Value feature_df =>
          if (length feature_df <? 10)%nat then (Fails (Exception ValueError), fs)
          else train_and_save fs feature_df output_path n_estimators contamination version
      end
  end.

(** [_retrain_background]: the new file system and the detector of the
    service afterwards; [except Exception] ends the task quietly. *)
Definition _retrain_background (fuel : nat) (fs : gmap string IsolationForest.file)
    (anomaly_detector : option IsolationForest.AnomalyDetector)
    (training_data : list EventRow)
    : gmap string IsolationForest.file * option IsolationForest.AnomalyDetector :=
  match train fuel fs training_data 200 0.02 "v1" None with
  | (Value _, fs') =>
      (fs', match anomaly_detector with
            | Some d => Some (snd (IsolationForest.reload fs' d))
            | None => None
            end)
  | (Fails _, fs') => (fs', anomaly_detector)
  end.

End Train.

End Training.

(* ===================================================================== *)
(** * A platform to run the definitions on                                *)
(* ===================================================================== *)

(** Rational stand-ins for the library functions, enough to evaluate the
    pipeline on concrete rows and events.  Decimal literals are read by
    [float_of_str]; timestamps of the shape [YYYY-MM-DDTHH:MM:SS[.f]+00:00]
    are read by [fromisoformat_timestamp]; the transcendental functions
    are their first Taylor terms.  No theorem below depends on these
    choices. *)
Module Reference.

Definition digit (c : ascii) : option Z :=
  let n := nat_of_ascii c in
  if (48 <=? n)%nat && (n <=? 57)%nat then Some (Z.of_nat (n - 48)) else None.

(** The leading digits of [s]: their value, their number, the rest. *)
Fixpoint digits (s : string) (value : Z) (count : nat) : Z * nat * string :=
  match s with
  | EmptyString => (value, count, s)
  | String c rest =>
      match digit c with
      | Some d => digits rest (10 * value + d)%Z (S count)
      | None => (value, count, s)
      end
  end.

Definition unsigned_decimal (s : string) : option Q :=
  let '(whole, n, rest) := digits s 0 0 in
  if (n =? 0)%nat then None
  else match rest with
       | EmptyString => Some (inject_Z whole)
       | String "."%char fraction =>
           let '(part, m, rest') := digits fraction 0 0 in
           match rest' with
           | EmptyString =>
               Some (inject_Z whole + inject_Z part / inject_Z (10 ^ Z.of_nat m))
           | _ => None
           end
       | _ => None
       end.

Definition decimal (s : string) : option Q :=
  match s with
  | String "-"%char rest => Qopp <$> unsigned_decimal rest
  | String "+"%char rest => unsigned_decimal rest
  | _ => unsigned_decimal s
  end.

(** Exactly [n] digits, then the rest. *)
Definition fixed_digits (n : nat) (s : string) : option (Z * string) :=
  let '(value, count, _) := digits (substring 0 n s) 0 0 in
  if (count =? n)%nat
  then Some (value, substring n (String.length s - n) s)
  else None.

Definition expect (c : ascii) (s : string) : option string :=
  match s with
  | String c' rest => if Ascii.eqb c c' then Some rest else None
  | EmptyString => None
  end.

(** Days from 1970-01-01 to a date of the proleptic Gregorian calendar. *)
Definition days_from_civil (y m d : Z) : Z :=
  let y := if (m <=? 2)%Z then (y - 1)%Z else y in
  let era := (y / 400)%Z in
  let yoe := (y - era * 400)%Z in
  let mp := ((m + 9) mod 12)%Z in
  let doy := ((153 * mp + 2) / 5 + d - 1)%Z in
  let doe := (yoe * 365 + yoe / 4 - yoe / 100 + doy)%Z in
  (era * 146097 + doe - 719468)%Z.

Definition utc_timestamp (s : string) : option Q :=
  '(year, s) ← fixed_digits 4 s;
  s ← expect "-" s;
  '(month, s) ← fixed_digits 2 s;
  s ← expect "-" s;
  '(day, s) ← fixed_digits 2 s;
  s ← expect "T" s;
  '(hour, s) ← fixed_digits 2 s;
  s ← expect ":" s;
  '(minute, s) ← fixed_digits 2 s;
  s ← expect ":" s;
  '(second, s) ← fixed_digits 2 s;
  let whole :=
    (days_from_civil year month day * 86400 + hour * 3600 + minute * 60 + second)%Z in
  match s with
  | String "."%char s' =>
      let '(part, m, rest) := digits s' 0 0 in
      if (0 <? m)%nat && (m <=? 6)%nat && String.eqb rest "+00:00"
      then Some (inject_Z whole + inject_Z part / inject_Z (10 ^ Z.of_nat m))
      else None
  | _ => if String.eqb s "+00:00" then Some (inject_Z whole) else None
  end.

Definition show_number (q : Q) : string :=
  let whole := Qfloor (Qabs q) in
  let sign := if Qltb q 0 then "-" else "" in
  let fraction := Qfloor ((Qabs q - inject_Z whole) * 1000000) in
  sign ++ pretty whole ++ (if (fraction =? 0)%Z then "" else "." ++ pretty fraction).

Definition newton_sqrt (x : Q) : Q :=
  if Qleb x 0 then 0
  else
    let step g := Qred ((g + x / g) / 2) in
    step (step (step (step ((1 + x) / 2)))).

Definition platform : Platform :=
  {| math_radians x := x * (355 # 113) / 180;
     math_sin x := x - x ^ 3 / 6;
     math_cos x := 1 - x ^ 2 / 2;
     math_sqrt := newton_sqrt;
     math_atan2 y x := if Qeq_bool x 0 then (if Qeq_bool y 0 then 0 else 355 # 226) else y / x;
     np_exp x := 1 + x + x ^ 2 / 2;
     float_of_str := decimal;
     str_of_num := show_number;
     fromisoformat_timestamp := utc_timestamp |}.

End Reference.

(** Rows and events of the repository's unit tests and of section 8,
    used to run the definitions. *)
Module Sample.

Definition safe_at_noon : pydict :=
  {[ "zone_state" := PStr "SAFE";
     "timestamp" := PStr "2026-01-01T12:00:00Z";
     "event_type" := PStr "MOVE" ]}.

Definition danger_after (seconds : string) : pydict :=
  {[ "zone_state" := PStr "IN_DANGER";
     "timestamp" := PStr ("2026-01-01T12:00:" ++ seconds ++ "Z");
     "event_type" := PStr "ZONE_ENTER" ]}.

Definition rapid_events : list pydict := [safe_at_noon; danger_after "08"].

(** [TestEnrichFeatures.test_all_columns_present], with one more event
    whose latitude is null. *)
Definition aggregated_row : pydict :=
  {[ "tourist_id" := PStr "t1";
     "event_count" := PNum 10;
     "unique_zones" := PNum 2;
     "danger_ratio" := PNum 0.1;
     "caution_ratio" := PNum 0.2;
     "panic_count" := PNum 0;
     "zone_transitions" := PNum 1;
     "max_risk_timer" := PNum 5;
     "avg_risk_timer" := PNum 2.5;
     "lat_std" := PNum 0.001;
     "lng_std" := PNum 0.002 ]}.

Definition located (lat lng : pyval) (time : string) : pydict :=
  {[ "latitude" := lat; "longitude" := lng; "timestamp" := PStr time ]}.

Definition walk : list pydict :=
  [ located (PNum 12.97) (PNum 77.59) "2026-01-01T00:00:00Z";
    located PNone (PNum 77.60) "2026-01-01T00:00:30Z";
    located (PNum 12.97) (PNum 77.60) "2026-01-01T00:01:00Z" ].

(** [TestRuleEngine.test_r6_danger_no_exit]: the features of the test
    carry [latest_zone_state]; the same fields as an aggregated row. *)
Definition trapped_row : pydict :=
  {[ "tourist_id" := PStr "t6";
     "latest_zone_state" := PStr "IN_DANGER";
     "max_risk_timer" := PNum 35;
     "panic_count" := PNum 0;
     "zone_transitions" := PNum 0;
     "danger_ratio" := PNum 0.0 ]}.

Definition trapped_events : list pydict :=
  [ {[ "zone_state" := PStr "IN_DANGER";
       "timestamp" := PStr "2026-01-01T12:00:00Z";
       "event_type" := PStr "MOVE" ]};
    {[ "zone_state" := PStr "IN_DANGER";
       "timestamp" := PStr "2026-01-01T12:00:30Z";
       "event_type" := PStr "MOVE" ]} ].

(** A model that finds every row 0.1 inside the normal region, a bundle
    that holds it, and a file system with that bundle and a corrupt
    file. *)
Definition estimator : IsolationForest.Estimator :=
  {| IsolationForest.decision_function := fun _ => 0.1 |}.

Definition bundle : IsolationForest.Bundle :=
  {| IsolationForest.bundle_model := Some estimator;
     IsolationForest.bundle_threshold := Some (-0.05);
     IsolationForest.bundle_feature_columns := Some FeatureEngineer.FEATURE_COLUMNS;
     IsolationForest.bundle_model_version := Some "v2";
     IsolationForest.bundle_training_samples := Some 480%Z |}.

Definition disk : gmap string IsolationForest.file :=
  {[ "models/isolation_forest_v1.joblib" := IsolationForest.Pickled bundle;
     "models/broken.joblib" := IsolationForest.Corrupt UnpicklingError ]}.

(** Two tourists of one cycle: the aggregated row of the first has a
    text that is no number where a ratio belongs; the second pressed the
    panic button.  No raw events, no model. *)
Definition malformed_row : pydict :=
  {[ "tourist_id" := PStr "t1"; "danger_ratio" := PStr "n/a" ]}.

Definition panic_row : pydict :=
  {[ "tourist_id" := PStr "t2"; "panic_count" := PNum 1 ]}.

Definition store (rows : list pydict) : Main.SupabaseService :=
  {| Main.get_aggregated_features := rows;
     Main.get_recent_events := fun _ _ => [] |}.

Definition clock (i : nat) : string := "2026-01-01T12:00:30+00:00".

Definition cycle (rows : list pydict) : py unit * list Main.Alert :=
  Main.analyze_all_tourists (H := Reference.platform) None Main.settings
    (Some (store rows)) clock.

(** [TestRuleEngine.test_multi_rule_boost] *)
Definition boosted_features : pydict :=
  {[ "panic_count" := PNum 1;
     "max_risk_timer" := PNum 130;
     "zone_transitions" := PNum 5;
     "danger_ratio" := PNum 0.8 ]}.

End Sample.

(** A learner to run the training on, and a week of SAFE-mode events in
    miniature.  No theorem below depends on these choices. *)
Module Archive.

Fixpoint insert_score (x : Q) (scores : list Q) : list Q :=
  match scores with
  | [] => [x]
  | y :: scores' => if Qleb x y then x :: scores else y :: insert_score x scores'
  end.

(** [numpy.percentile] with its default linear interpolation. *)
Definition percentile (scores : list Q) (q : Q) : Q :=
  let ordered := fold_right insert_score [] scores in
  let position := inject_Z (Z.of_nat (length ordered) - 1) * q / 100 in
  let below := Z.to_nat (Qfloor position) in
  let part := position - inject_Z (Qfloor position) in
  let low := nth below ordered 0 in
  let high := nth (S below) ordered low in
  low + part * (high - low).

(** A forest that scores a row by how far its number of events is from
    the mean of the training rows. *)
Definition centred_forest (X : list (list Q)) : IsolationForest.Estimator :=
  let counts := List.map (fun row => nth 0 row 0) X in
  let mean := Training.series_mean counts in
  {| IsolationForest.decision_function :=
       fun row => (1 # 10) - Qabs (nth 0 row 0 - mean) / 100 |}.

Definition learner : Training.Learner :=
  {| Training.fit := fun _ _ X => centred_forest X;
     Training.np_percentile := percentile |}.

Definition second : Z := 1000000000.

(** One event of tourist [who], [k] times ten seconds after midnight. *)
Definition ping (who state kind : string) (k : nat) : Training.EventRow :=
  {| Training.tourist_id := who;
     Training.timestamp := (1767225600 * second + Z.of_nat k * 10 * second)%Z;
     Training.zone_state := state;
     Training.event_type := kind;
     Training.risk_timer_value := 0;
     Training.latitude := 12.97;
     Training.longitude := 77.59 |}.

(** Five and a half minutes of tourist "t1", an event every ten
    seconds, and two events of tourist "t0". *)
Definition stroll : list Training.EventRow :=
  List.map (fun k => ping "t1" (if (k mod 7 =? 0)%nat then "NEAR_CAUTION" else "SAFE")
                          (if (k mod 20 =? 0)%nat then "ZONE_ENTER" else "LOCATION") k)
           (seq 0 34)
  ++ [ping "t0" "SAFE" "LOCATION" 3; ping "t0" "SAFE" "LOCATION" 1].

(** One minute of the same. *)
Definition glimpse : list Training.EventRow := firstn 7 stroll.

End Archive.

(* ===================================================================== *)
(** * The specification's own definitions                                 *)
(* ===================================================================== *)

Module Spec.

(** Section 4.E step 2: the first row whose condition holds decides. *)
Fixpoint first_match (rows : list (bool * string)) (otherwise : string) : string :=
  match rows with
  | [] => otherwise
  | (condition, label) :: rows' => if condition then label else first_match rows' otherwise
  end.

Definition concordance (rule_score anomaly_score : Q) : string :=
  first_match
    [ (Qgtb rule_score 0.5 && Qgtb anomaly_score 0.5, "AGREE_HIGH");
      (Qltb rule_score 0.2 && Qltb anomaly_score 0.3, "AGREE_LOW");
      (Qgtb rule_score 0.5 && Qltb anomaly_score 0.3, "RULE_ONLY");
      (Qltb rule_score 0.2 && Qgtb anomaly_score 0.7, "ML_ONLY") ]
    "CONFLICT".

(** Step 3 and step 4. *)
Definition adjust (label : string) (h : Q) : Q :=
  if String.eqb label "AGREE_HIGH" then Qmin 1 (h + 0.1)
  else if String.eqb label "ML_ONLY" then h * 0.7
  else h.

Definition clamp (h : Q) : Q := Qmax 0 (Qmin 1 h).

(** Step 5: the band a score falls in. *)
Definition in_band (h : Q) (label : string) : Prop :=
  (0.8 <= h /\ label = "CRITICAL")
  \/ (0.6 <= h /\ h < 0.8 /\ label = "HIGH")
  \/ (0.3 <= h /\ h < 0.6 /\ label = "MEDIUM")
  \/ (h < 0.3 /\ label = "LOW").

(** LOW < MEDIUM < HIGH < CRITICAL *)
Definition rank (label : string) : option nat :=
  if String.eqb label "LOW" then Some 0%nat
  else if String.eqb label "MEDIUM" then Some 1%nat
  else if String.eqb label "HIGH" then Some 2%nat
  else if String.eqb label "CRITICAL" then Some 3%nat
  else None.

Definition at_or_above (label threshold : string) : Prop :=
  exists i j, rank label = Some i /\ rank threshold = Some j /\ (j <= i)%nat.

Definition below_or_equal (label1 label2 : string) : Prop :=
  exists i j, rank label1 = Some i /\ rank label2 = Some j /\ (i <= j)%nat.

(** Section 4.C: the rule identifiers in definition order. *)
Definition RULE_ORDER : list string := ["R1"; "R2"; "R3"; "R4"; "R5"; "R6"].

(** [m] is the maximum of [scores]. *)
Definition is_max (m : Q) (scores : list Q) : Prop :=
  In m scores /\ forall s, In s scores -> s <= m.

(** Section 4.C, rule R3.  [time e] is the parsed timestamp of an event,
    if it parses.  The most recent SAFE timestamp among the events seen so
    far, and the rule firing on an IN_DANGER event at most [threshold]
    seconds after it. *)
Definition zone_is (e : pydict) (zone : string) : bool :=
  eq_str (dict_get e "zone_state" (PStr "")) zone.

Definition safe_time (time : pydict -> option Q) (e : pydict) : option Q :=
  if zone_is e "SAFE" then time e else None.

Definition last_safe (time : pydict -> option Q) (seen : list pydict) : option Q :=
  last (omap (safe_time time) seen).

Definition rapid_transition (time : pydict -> option Q) (threshold : Q)
    (ordered : list pydict) : Prop :=
  exists seen ev rest t s,
    ordered = (seen ++ ev :: rest)%list
    /\ zone_is ev "IN_DANGER" = true
    /\ time ev = Some t
    /\ last_safe time seen = Some s
    /\ t - s <= threshold.

(** Events in ascending order of their timestamp text. *)
Definition has_text_timestamp (e : pydict) : Prop :=
  exists s, timestamp_key e = PStr s.

Definition timestamp_text (e : pydict) : string :=
  match timestamp_key e with
  | PStr s => s
  | _ => ""
  end.

Definition ascending (events : list pydict) : Prop :=
  Sorted (fun a b => String.leb (timestamp_text a) (timestamp_text b) = true) events.

(** Section 4.A and 4.B: the Haversine formula on numbers, the
    coordinates of an event when both are numbers, and the length of a
    path that counts the segments between two such events only. *)
Definition haversine `{Platform} (lat1 lng1 lat2 lng2 : Q) : Q :=
  let a := math_sin (math_radians (lat2 - lat1) / 2) ^ 2
           + math_cos (math_radians lat1) * math_cos (math_radians lat2)
             * math_sin (math_radians (lng2 - lng1) / 2) ^ 2 in
  6371000 * 2 * math_atan2 (math_sqrt a) (math_sqrt (1 - a)).

Definition coordinates (e : pydict) : option (Q * Q) :=
  match e !! "latitude", e !! "longitude" with
  | Some lat, Some lng =>
      match as_number lat, as_number lng with
      | Some x, Some y => Some (x, y)
      | _, _ => None
      end
  | _, _ => None
  end.

Definition segment_length `{Platform} (a b : pydict) : Q :=
  match coordinates a, coordinates b with
  | Some (lat1, lng1), Some (lat2, lng2) => haversine lat1 lng1 lat2 lng2
  | _, _ => 0
  end.

Fixpoint path_length `{Platform} (ordered : list pydict) : Q :=
  match ordered with
  | a :: (b :: _) as rest => segment_length a b + path_length rest
  | _ => 0
  end.

(** Section 3: the aggregated inputs of the feature vector, and a row
    whose aggregated inputs are numbers, null or absent. *)
Definition AGGREGATED : list string :=
  [ "event_count"; "unique_zones"; "danger_ratio"; "caution_ratio"; "panic_count";
    "zone_transitions"; "max_risk_timer"; "avg_risk_timer"; "lat_std"; "lng_std" ].

Definition numeric_or_null (v : pyval) : Prop :=
  match v with
  | PStr _ => False
  | _ => True
  end.

Definition well_typed_row (agg_row : pydict) : Prop :=
  forall col v, In col AGGREGATED -> agg_row !! col = Some v -> numeric_or_null v.

(** Section 4.D: [sigmoid_normalize(r) = clip(1 / (1 + exp(5 r)), 0, 1)]. *)
Definition clip (x lo hi : Q) : Q := Qmax lo (Qmin hi x).

Definition sigmoid_normalize `{Platform} (r : Q) : Q :=
  clip (1 / (1 + np_exp (5.0 * r))) 0 1.

End Spec.


(* ===================================================================== *)
(** * Auxiliary notions of the proofs                                     *)
(* ===================================================================== *)

Section Auxiliary.
Context `{Platform}.
Import RuleEngine.

(** What a rule answers when it answers: its own identifier and a score
    of at most 1. *)
Definition answers_as (features : pydict) (events : list pydict)
    (rule : rule_fn) (id : string) : Prop :=
  forall r, call_rule rule features events = Ok r ->
            r.(rule_id) = id /\ r.(score) <= 1.

(** The timestamp of the event parses. *)
Definition parses (e : pydict) : bool :=
  match event_timestamp e with
  | Some _ => true
  | None => false
  end.

(** The SAFE timestamp the scan holds after [seen], having started with
    [safe_ts]. *)
Definition remembered (safe_ts : option Q) (seen : list pydict) : option Q :=
  match Spec.last_safe event_timestamp seen with
  | Some s => Some s
  | None => safe_ts
  end.

(** The value the loop of [enrich_features] gives to one column. *)
Definition column_value (agg_row : pydict) (distance speed : Q) (col : string) : py Q :=
  if String.eqb col "distance_traveled" then Ok distance
  else if String.eqb col "speed_estimate" then Ok speed
  else FeatureEngineer.py_float (py_or (dict_get agg_row col (PNum 0)) (PNum 0)).

End Auxiliary.

(* ===================================================================== *)
(** * Auxiliary notions of the further properties                         *)
(* ===================================================================== *)

Section MoreAuxiliary.
Context `{Platform}.
Import RuleEngine.

(** [features.get(key, 0)] read as a number, when it is one. *)
Definition number_at (features : pydict) (key : string) : option Q :=
  as_number (dict_get features key (PNum 0)).

(** The identifier and the score of each rule, in the order of
    [ALL_RULES]. *)
Definition RULE_TABLE : list (string * Q) :=
  [ ("R1", 0.8); ("R2", 1.0); ("R3", 0.7); ("R4", 0.6); ("R5", 0.9); ("R6", 0.75) ].

(** A rule answers under its identifier, with its score when triggered
    and 0.0 when not. *)
Definition scores_as (features : pydict) (events : list pydict)
    (rule : rule_fn) (entry : string * Q) : Prop :=
  forall r, call_rule rule features events = Ok r ->
            r.(rule_id) = fst entry
            /\ r.(score) = (if r.(triggered) then snd entry else 0.0).

(** A rule returns and is triggered. *)
Definition fires (features : pydict) (events : list pydict) (rule : rule_fn) : Prop :=
  exists r, call_rule rule features events = Ok r /\ r.(triggered) = true.

(** The triggered results of a run, as [evaluate_rules] selects them. *)
Definition triggered_results (features : pydict) (events : list pydict) : list RuleResult :=
  List.filter (fun r => r.(triggered)) (run_rules ALL_RULES features events []).

(** The row passes the [if not tourist_id: continue] of the driver. *)
Definition has_tourist_id (agg_row : pydict) : bool :=
  truthy (dict_get agg_row "tourist_id" PNone).

(** The row of the matrix that [predict] builds from a dictionary of
    features. *)
Definition feature_row (columns : list string) (features : gmap string Q) : list Q :=
  List.map (fun col => default 0.0 (features !! col)) columns.

(** The row is the one of the tourist named in the request. *)
Definition row_of_tourist (tourist : string) (agg_row : pydict) : Prop :=
  agg_row !! "tourist_id" = Some (PStr tourist).

End MoreAuxiliary.

(* ===================================================================== *)
(** * Auxiliary notions of the training path                              *)
(* ===================================================================== *)

Section TrainingAuxiliary.
Context `{Platform}.
Import Training.

(** A cell of a row of features. *)
Definition cell (row : FeatureRow) (column : string) : Q := default 0 (row.2 !! column).

(** The events of one tourist, in the order of the frame. *)
Definition events_of (tourist : string) (events_df : list EventRow) : list EventRow :=
  List.filter (fun r => String.eqb r.(tourist_id) tourist) events_df.

(** The rows of a group inside the window that opens at [current]. *)
Definition window_at (group : list EventRow) (window_ns current : Z) : list EventRow :=
  List.filter (fun r => (current <=? r.(timestamp))%Z
                        && (r.(timestamp) <? current + window_ns)%Z) group.

(** The number of windows the loop opens between the first and the last
    event of a group, and the instants at which it opens them. *)
Definition turns (start end_ : Z) : nat :=
  if (start <=? end_)%Z then S (Z.to_nat ((end_ - start) / nanoseconds 30)) else 0%nat.

Definition instants (start : Z) (n : nat) : list Z :=
  List.map (fun i => (start + nanoseconds 30 * Z.of_nat i)%Z) (seq 0 n).

(** The row, if any, that the window opening at [current] adds. *)
Definition window_rows (tourist : string) (group : list EventRow) (window_ns current : Z)
    : list FeatureRow :=
  let window_df := window_at group window_ns current in
  if (3 <=? length window_df)%nat
  then match _aggregate_window window_df with
       | Value agg => [(tourist, agg)]
       | Fails _ => []
       end
  else [].

Definition group_rows (window_ns : Z) (g : string * list EventRow) : list FeatureRow :=
  match head g.2, last g.2 with
  | Some first, Some final =>
      flat_map (window_rows g.1 g.2 window_ns)
               (instants first.(timestamp) (turns first.(timestamp) final.(timestamp)))
  | _, _ => []
  end.

(** The training frame without the loops: for each tourist in ascending
    order, for each instant from the tourist's first event in steps of
    30 s up to the last, the aggregate of the window that opens there
    when it holds three events or more. *)
Definition training_windows (events_df : list EventRow) (window_seconds : Z)
    : list FeatureRow :=
  flat_map (group_rows (nanoseconds window_seconds)) (groupby (sort_values events_df)).

(** The turns the loop of one group takes, and turns that are enough
    for every group. *)
Definition group_turns (g : string * list EventRow) : nat :=
  match head g.2, last g.2 with
  | Some first, Some final => turns first.(timestamp) final.(timestamp)
  | _, _ => 0%nat
  end.

Definition turns_needed (events_df : list EventRow) : nat :=
  fold_right Nat.max 0%nat (List.map group_turns (groupby (sort_values events_df))).

(** What holds of every row of a training frame. *)
Definition well_formed (row : FeatureRow) : Prop :=
  (forall column, is_Some (row.2 !! column) <-> In column FeatureEngineer.FEATURE_COLUMNS)
  /\ 3 <= cell row "event_count"
  /\ 1 <= cell row "unique_zones"
  /\ cell row "unique_zones" <= cell row "event_count"
  /\ 0 <= cell row "danger_ratio"
  /\ 0 <= cell row "caution_ratio"
  /\ cell row "danger_ratio" + cell row "caution_ratio" <= 1
  /\ 0 <= cell row "panic_count"
  /\ 0 <= cell row "zone_transitions"
  /\ cell row "panic_count" + cell row "zone_transitions" <= cell row "event_count"
  /\ cell row "avg_risk_timer" <= cell row "max_risk_timer"
  /\ cell row "speed_estimate" * 120 == cell row "distance_traveled".

(** The matrix of a frame of features under the canonical columns. *)
Definition matrix_of (feature_df : list FeatureRow) : list (list Q) :=
  List.map (fun row => List.map (cell row) FeatureEngineer.FEATURE_COLUMNS) feature_df.

End TrainingAuxiliary.
(* ===================================================================== *)
(** * Numbers                                                             *)
(* ===================================================================== *)

Lemma Qleb_spec (a b : Q) : reflect (a <= b) (Qleb a b).
Proof.
  unfold Qleb. destruct (Qle_bool a b) eqn:E; constructor.
  - by apply Qle_bool_iff.
  - intros Hle. apply Qle_bool_iff in Hle. congruence.
Qed.

Lemma Qgeb_spec (a b : Q) : reflect (b <= a) (Qgeb a b).
Proof. apply Qleb_spec. Qed.

Lemma Qltb_spec (a b : Q) : reflect (a < b) (Qltb a b).
Proof.
  unfold Qltb. change (Qle_bool b a) with (Qleb b a).
  destruct (Qleb_spec b a) as [Hle | Hnle]; constructor.
  - by apply Qle_not_lt.
  - by apply Qnot_le_lt.
Qed.

Lemma Qgtb_spec (a b : Q) : reflect (b < a) (Qgtb a b).
Proof. apply Qltb_spec. Qed.

(** Case analysis on every comparison in the goal, leaving linear facts. *)
Ltac compare_numbers :=
  repeat match goal with
  | |- context [Qgeb ?a ?b] => destruct (Qgeb_spec a b)
  | |- context [Qgtb ?a ?b] => destruct (Qgtb_spec a b)
  | |- context [Qltb ?a ?b] => destruct (Qltb_spec a b)
  | |- context [Qleb ?a ?b] => destruct (Qleb_spec a b)
  end.

Lemma py_min_Qmin (a b : Q) : py_min a b == Qmin a b.
Proof.
  unfold py_min. destruct (Qltb_spec b a).
  - symmetry. apply Q.min_r. lra.
  - symmetry. apply Q.min_l. lra.
Qed.

Lemma py_max_Qmax (a b : Q) : py_max a b == Qmax a b.
Proof.
  unfold py_max. destruct (Qgtb_spec b a).
  - symmetry. apply Q.max_r. lra.
  - symmetry. apply Q.max_l. lra.
Qed.

Lemma clamp_is_spec_clamp (x y : Q) :
  x == y -> py_max 0.0 (py_min 1.0 x) == Spec.clamp y.
Proof.
  intros Hxy. rewrite py_max_Qmax, py_min_Qmin. unfold Spec.clamp.
  destruct (Q.min_spec 1.0 x) as [[? E1] | [? E1]]; rewrite E1;
  destruct (Q.min_spec 1 y) as [[? E2] | [? E2]]; rewrite E2;
  destruct (Q.max_spec 0.0 1.0) as [[? E3] | [? E3]]; try rewrite E3;
  destruct (Q.max_spec 0 1) as [[? E4] | [? E4]]; try rewrite E4;
  destruct (Q.max_spec 0.0 x) as [[? E5] | [? E5]]; try rewrite E5;
  destruct (Q.max_spec 0 y) as [[? E6] | [? E6]]; try rewrite E6; lra.
Qed.

Lemma py_min_le_l (a b : Q) : py_min a b <= a.
Proof. unfold py_min. compare_numbers; lra. Qed.

Lemma py_max_ge_l (a b : Q) : a <= py_max a b.
Proof. unfold py_max. compare_numbers; lra. Qed.

Lemma py_max_ge_r (a b : Q) : b <= py_max a b.
Proof. unfold py_max. compare_numbers; lra. Qed.

(* ===================================================================== *)
(** * Severity and fusion                                                 *)
(* ===================================================================== *)

Lemma fusion_classify_in_band (h : Q) :
  Spec.in_band h (HybridFusion.classify_severity h).
Proof.
  unfold Spec.in_band, HybridFusion.classify_severity.
  compare_numbers; try (left; split; [lra | reflexivity]).
  - right; left. repeat split; lra.
  - right; right; left. repeat split; lra.
  - right; right; right. split; [lra | reflexivity].
Qed.

Lemma rule_engine_classify_agrees (h : Q) :
  RuleEngine.classify_severity h = HybridFusion.classify_severity h.
Proof. reflexivity. Qed.

Lemma classify_is_level (h : Q) :
  HybridFusion.classify_severity h ∈ HybridFusion.SEVERITY_LEVELS.
Proof.
  unfold HybridFusion.classify_severity, HybridFusion.SEVERITY_LEVELS.
  compare_numbers; apply list_elem_of_In; simpl; tauto.
Qed.

Lemma level_cases (s : string) :
  s ∈ HybridFusion.SEVERITY_LEVELS ->
  s = "LOW" \/ s = "MEDIUM" \/ s = "HIGH" \/ s = "CRITICAL".
Proof.
  unfold HybridFusion.SEVERITY_LEVELS. rewrite list_elem_of_In. simpl.
  intuition auto.
Qed.

(** [SEVERITY_LEVELS.index] is the rank of the specification. *)
Lemma index_is_rank (s : string) :
  s ∈ HybridFusion.SEVERITY_LEVELS ->
  exists i, Py.index s HybridFusion.SEVERITY_LEVELS = Ok i /\ Spec.rank s = Some i.
Proof.
  intros Hs. destruct (level_cases s Hs) as [-> | [-> | [-> | ->]]];
    eexists; split; reflexivity.
Qed.

Lemma meets_threshold_spec (s t : string) :
  s ∈ HybridFusion.SEVERITY_LEVELS -> t ∈ HybridFusion.SEVERITY_LEVELS ->
  exists b, HybridFusion.severity_meets_threshold s t = Ok b
            /\ (b = true <-> Spec.at_or_above s t).
Proof.
  intros Hs Ht.
  destruct (index_is_rank s Hs) as (i & Hi & Ri).
  destruct (index_is_rank t Ht) as (j & Hj & Rj).
  exists (j <=? i)%nat. split.
  - unfold HybridFusion.severity_meets_threshold. rewrite Hi. cbn [Py.bind].
    rewrite Hj. reflexivity.
  - rewrite Nat.leb_le. split.
    + intros Hle. exists i, j. auto.
    + intros (i' & j' & Ri' & Rj' & Hle). congruence.
Qed.

(** C1.  The fusion operation follows the algorithm of section 4.E: the
    weighted sum [w_r * rule_score + w_m * anomaly_score], the concordance
    found by first match, the adjustment ([min(1, h + 0.1)] for AGREE_HIGH,
    [h * 0.7] for ML_ONLY, nothing otherwise), the clamp to [0, 1], the
    severity band of the result, and [should_alert] exactly when the
    severity ranks at or above [alert_threshold].  It holds for all scores
    and weights, in particular for scores in [0, 1]. *)
Theorem fusion_follows_algorithm (rule_score anomaly_score w_r w_m : Q) (alert_threshold : string) :
  alert_threshold ∈ HybridFusion.SEVERITY_LEVELS ->
  exists r,
    HybridFusion.compute_hybrid_score rule_score anomaly_score w_r w_m alert_threshold = Ok r
    /\ r.(HybridFusion.rule_score) = rule_score
    /\ r.(HybridFusion.anomaly_score) = anomaly_score
    /\ r.(HybridFusion.concordance) = Spec.concordance rule_score anomaly_score
    /\ r.(HybridFusion.hybrid_score) ==
         Spec.clamp (Spec.adjust (Spec.concordance rule_score anomaly_score)
                                 (w_r * rule_score + w_m * anomaly_score))
    /\ (0 <= r.(HybridFusion.hybrid_score) /\ r.(HybridFusion.hybrid_score) <= 1)
    /\ Spec.in_band r.(HybridFusion.hybrid_score) r.(HybridFusion.severity)
    /\ (r.(HybridFusion.should_alert) = true
        <-> Spec.at_or_above r.(HybridFusion.severity) alert_threshold).
Proof.
  intros Ht. unfold HybridFusion.compute_hybrid_score.
  set (h0 := w_r * rule_score + w_m * anomaly_score).
  set (c := HybridFusion._determine_concordance rule_score anomaly_score).
  set (h1 := if String.eqb c "AGREE_HIGH" then py_min 1.0 (h0 + 0.1)
             else if String.eqb c "ML_ONLY" then h0 * 0.7 else h0).
  set (h := py_max 0.0 (py_min 1.0 h1)).
  destruct (meets_threshold_spec (HybridFusion.classify_severity h) alert_threshold
              (classify_is_level h) Ht) as (b & Hb & Hiff).
  rewrite Hb. simpl. eexists. split; [reflexivity |]. simpl.
  assert (Hc : c = Spec.concordance rule_score anomaly_score) by reflexivity.
  repeat split; try assumption; try apply Hiff.
  - subst h. apply clamp_is_spec_clamp.
    subst h1. rewrite <- Hc. unfold Spec.adjust.
    destruct (String.eqb c "AGREE_HIGH").
    + rewrite py_min_Qmin.
      destruct (Q.min_spec 1.0 (h0 + 0.1)) as [[? E1] | [? E1]]; rewrite E1;
      destruct (Q.min_spec 1 (h0 + 0.1)) as [[? E2] | [? E2]]; rewrite E2; lra.
    + destruct (String.eqb c "ML_ONLY"); reflexivity.
  - subst h. unfold py_max, py_min. compare_numbers; lra.
  - subst h. unfold py_max, py_min. compare_numbers; lra.
  - apply fusion_classify_in_band.
Qed.

Lemma fusion_follows_algorithm_witness :
  "MEDIUM" ∈ HybridFusion.SEVERITY_LEVELS
  /\ exists r, HybridFusion.compute_hybrid_score 0.7 0.7 0.6 0.4 "MEDIUM" = Ok r
               /\ r.(HybridFusion.concordance) = "AGREE_HIGH"
               /\ r.(HybridFusion.hybrid_score) == 0.8.
Proof.
  assert (Hm : "MEDIUM" ∈ HybridFusion.SEVERITY_LEVELS)
    by (apply list_elem_of_In; simpl; tauto).
  split; [exact Hm |].
  destruct (fusion_follows_algorithm 0.7 0.7 0.6 0.4 "MEDIUM" Hm)
    as (r & Hr & _ & _ & Hc & Hh & _).
  exists r. split; [exact Hr |]. split; [exact Hc |].
  rewrite Hh. reflexivity.
Defined.

Lemma index_rank_iff (t : string) (j : nat) :
  Py.index t HybridFusion.SEVERITY_LEVELS = Ok j <-> Spec.rank t = Some j.
Proof.
  unfold Spec.rank, HybridFusion.SEVERITY_LEVELS. cbn [Py.index].
  rewrite (String.eqb_sym "LOW" t), (String.eqb_sym "MEDIUM" t),
    (String.eqb_sym "HIGH" t), (String.eqb_sym "CRITICAL" t).
  destruct (String.eqb t "LOW"); [split; congruence |].
  destruct (String.eqb t "MEDIUM"); [cbn [Py.bind]; split; congruence |].
  destruct (String.eqb t "HIGH"); [cbn [Py.bind]; split; congruence |].
  destruct (String.eqb t "CRITICAL"); cbn [Py.bind]; split; congruence.
Qed.

Lemma meets_threshold_iff (s t : string) :
  HybridFusion.severity_meets_threshold s t = Ok true <-> Spec.at_or_above s t.
Proof.
  unfold HybridFusion.severity_meets_threshold, Spec.at_or_above. split.
  - destruct (Py.index s _) as [i |] eqn:Hi; [| discriminate]. cbn [Py.bind].
    destruct (Py.index t _) as [j |] eqn:Hj; [| discriminate]. cbn [Py.bind].
    intros [= Hle]. apply Nat.leb_le in Hle.
    exists i, j. rewrite <- !index_rank_iff. auto.
  - intros (i & j & Hi & Hj & Hle).
    apply index_rank_iff in Hi, Hj. rewrite Hi. cbn [Py.bind]. rewrite Hj. cbn [Py.bind].
    f_equal. by apply Nat.leb_le.
Qed.

Lemma classify_monotone (a b : Q) :
  a <= b ->
  Spec.below_or_equal (HybridFusion.classify_severity a) (HybridFusion.classify_severity b).
Proof.
  intros Hab. unfold Spec.below_or_equal, HybridFusion.classify_severity.
  compare_numbers; try lra;
    (eexists _, _; split; [reflexivity | split; [reflexivity | lia]]).
Qed.

(** C8.  Severity classification is monotone in the score, in the rule
    engine and in the fusion module alike; the bands have inclusive lower
    bounds 0.8, 0.6 and 0.3; and for a fixed threshold a severity that
    alerts keeps alerting when it is replaced by a higher one. *)
Theorem severity_classification_monotone (a b : Q) :
  a <= b ->
  Spec.below_or_equal (HybridFusion.classify_severity a) (HybridFusion.classify_severity b)
  /\ Spec.below_or_equal (RuleEngine.classify_severity a) (RuleEngine.classify_severity b)
  /\ Spec.in_band a (HybridFusion.classify_severity a)
  /\ Spec.in_band a (RuleEngine.classify_severity a)
  /\ (forall s1 s2 t : string,
        Spec.below_or_equal s1 s2 ->
        HybridFusion.severity_meets_threshold s1 t = Ok true ->
        HybridFusion.severity_meets_threshold s2 t = Ok true)
  /\ (forall t : string,
        HybridFusion.severity_meets_threshold (HybridFusion.classify_severity a) t = Ok true ->
        HybridFusion.severity_meets_threshold (HybridFusion.classify_severity b) t = Ok true).
Proof.
  intros Hab.
  assert (Hmono : forall s1 s2 t : string,
             Spec.below_or_equal s1 s2 ->
             HybridFusion.severity_meets_threshold s1 t = Ok true ->
             HybridFusion.severity_meets_threshold s2 t = Ok true).
  { intros s1 s2 t (i1 & i2 & H1 & H2 & Hle) Hmeets.
    apply meets_threshold_iff in Hmeets. apply meets_threshold_iff.
    destruct Hmeets as (i & j & Hi & Hj & Hji).
    exists i2, j. repeat split; try assumption.
    assert (i = i1) by congruence. lia. }
  repeat split.
  - by apply classify_monotone.
  - rewrite !rule_engine_classify_agrees. by apply classify_monotone.
  - apply fusion_classify_in_band.
  - rewrite rule_engine_classify_agrees. apply fusion_classify_in_band.
  - exact Hmono.
  - intros t. apply Hmono. by apply classify_monotone.
Qed.

Lemma severity_classification_monotone_witness :
  0.59 <= 0.6
  /\ HybridFusion.classify_severity 0.59 = "MEDIUM"
  /\ HybridFusion.classify_severity 0.6 = "HIGH"
  /\ Spec.below_or_equal (HybridFusion.classify_severity 0.59)
                         (HybridFusion.classify_severity 0.6).
Proof.
  assert (Hle : 0.59 <= 0.6) by (vm_compute; discriminate).
  split; [exact Hle |]. split; [reflexivity |]. split; [reflexivity |].
  exact (proj1 (severity_classification_monotone 0.59 0.6 Hle)).
Defined.

(* ===================================================================== *)
(** * The rule engine                                                     *)
(* ===================================================================== *)

Lemma bind_Ok {A B} (m : py A) (k : A -> py B) (b : B) :
  Py.bind m k = Ok b -> exists a, m = Ok a /\ k a = Ok b.
Proof. destruct m as [a | e]; simpl; [eauto | discriminate]. Qed.

(** Peel the binds off a hypothesis [... = Ok r]. *)
Ltac invert_Ok H :=
  repeat match type of H with
  | Py.bind _ _ = Ok _ =>
      let a := fresh "a" in
      let Ha := fresh "Ha" in
      apply bind_Ok in H; destruct H as (a & Ha & H)
  | (if ?b then _ else _) = Ok _ => destruct b eqn:?
  end;
  try match type of H with
  | Ok _ = Ok _ => injection H as <-
  end.

Section RuleEngineFacts.
Context `{Platform}.
Import RuleEngine.

Lemma run_rules_acc (rules : list rule_fn) (features : pydict)
    (events : list pydict) (acc : list RuleResult) :
  run_rules rules features events acc = (acc ++ run_rules rules features events [])%list.
Proof.
  revert acc. induction rules as [| rule rules IH]; intros acc; simpl.
  - by rewrite app_nil_r.
  - destruct (call_rule rule features events) as [r | e]; [| apply IH].
    rewrite (IH (acc ++ [r])%list), (IH [r]). by rewrite <- app_assoc.
Qed.

Lemma all_rules_answer (features : pydict) (events : list pydict) :
  Forall2 (answers_as features events) ALL_RULES Spec.RULE_ORDER.
Proof.
  unfold ALL_RULES, Spec.RULE_ORDER.
  repeat match goal with
         | |- Forall2 _ (_ :: _) (_ :: _) => constructor
         | |- Forall2 _ [] [] => constructor
         end;
    unfold answers_as; intros r Hr; cbn [call_rule] in Hr.
  - unfold _rule_r1_sustained_danger in Hr. invert_Ok Hr.
    simpl. split; [reflexivity | destruct a0; lra].
  - unfold _rule_r2_panic in Hr. invert_Ok Hr.
    simpl. split; [reflexivity | destruct a; lra].
  - unfold _rule_r3_rapid_transition in Hr. invert_Ok Hr.
    simpl. split; [reflexivity | destruct a; lra].
  - unfold _rule_r4_erratic_movement in Hr. invert_Ok Hr.
    simpl. split; [reflexivity | destruct a; lra].
  - unfold _rule_r5_extended_danger in Hr. invert_Ok Hr.
    simpl. split; [reflexivity | destruct a; lra].
  - unfold _rule_r6_danger_no_exit in Hr. invert_Ok Hr.
    simpl. split; [reflexivity | destruct a; lra].
Qed.

Lemma run_rules_in_order (features : pydict) (events : list pydict)
    (rules : list rule_fn) (ids : list string) :
  Forall2 (answers_as features events) rules ids ->
  sublist (List.map rule_id (run_rules rules features events [])) ids
  /\ Forall (fun r => r.(score) <= 1) (run_rules rules features events []).
Proof.
  induction 1 as [| rule id rules ids Hrule _ [IHs IHb]]; simpl.
  - split; constructor.
  - destruct (call_rule rule features events) as [r | e] eqn:Hcall.
    + destruct (Hrule r Hcall) as [<- Hle].
      rewrite run_rules_acc. simpl. split.
      * by apply sublist_skip.
      * by constructor.
    + split; [by apply sublist_cons | exact IHb].
Qed.

Lemma filter_map_sublist {A B} (f : A -> B) (p : A -> bool) (l : list A) :
  sublist (List.map f (List.filter p l)) (List.map f l).
Proof.
  induction l as [| x l IH]; simpl; [constructor |].
  destruct (p x); simpl; [by apply sublist_skip | by apply sublist_cons].
Qed.

Lemma max_of_is_max (first : Q) (others : list Q) :
  Spec.is_max (max_of first others) (first :: others).
Proof.
  unfold max_of. revert first.
  induction others as [| x others IH]; intros first; simpl.
  - split; [by left |]. intros s [<- | []]. lra.
  - destruct (IH (py_max first x)) as [Hin Hub]. split.
    + destruct Hin as [Hin | Hin]; [| by right; right].
      rewrite <- Hin. unfold py_max. destruct (Qgtb x first); [right; by left | by left].
    + intros s [Hs | [Hs | Hs]].
      * subst s. pose proof (py_max_ge_l first x).
        specialize (Hub (py_max first x) (or_introl eq_refl)). lra.
      * subst s. pose proof (py_max_ge_r first x).
        specialize (Hub (py_max first x) (or_introl eq_refl)). lra.
      * apply Hub. by right.
Qed.

(** C2.  Let [T] be the triggered results among the details the rule
    engine returns.  With [T] empty the score is 0 and the severity LOW.
    Otherwise the score is [min(1, m + 0.1 * (|T| - 1))] for [m] the
    largest score in [T].  In both cases [triggered_rules] is the list of
    identifiers of [T], which follows the definition order R1..R6. *)
Theorem rule_engine_composite_score (features : pydict)
    (events : option (list pydict)) :
  let out := evaluate_rules features events in
  let T := List.filter (fun r => r.(triggered)) out.(details) in
  (T = [] -> out.(rule_score) == 0 /\ out.(severity) = "LOW")
  /\ (T <> [] ->
      exists m, Spec.is_max m (List.map score T)
                /\ out.(rule_score) ==
                     Qmin 1 (m + 0.1 * (inject_Z (Z.of_nat (length T)) - 1)))
  /\ out.(triggered_rules) = List.map rule_id T
  /\ sublist out.(triggered_rules) Spec.RULE_ORDER.
Proof.
  unfold evaluate_rules.
  set (evs := default [] events).
  set (results := run_rules ALL_RULES features evs []).
  destruct (run_rules_in_order features evs _ _ (all_rules_answer features evs))
    as [Horder Hbound]. fold results in Horder, Hbound.
  destruct (List.filter (fun r => r.(triggered)) results)
    as [| first others] eqn:HT; cbn zeta; cbn [details rule_score severity triggered_rules];
    rewrite HT.
  - repeat split; try reflexivity; [congruence | apply sublist_nil_l].
  - split; [discriminate |]. split; [| split; [reflexivity |]].
    + intros _. exists (max_of first.(score) (List.map score others)).
      split; [apply max_of_is_max |].
      assert (Hfirst : first.(score) <= 1).
      { assert (Hin : In first (List.filter (fun r => r.(triggered)) results))
          by (rewrite HT; by left).
        apply filter_In in Hin as [Hin _].
        rewrite Forall_forall in Hbound. apply Hbound. by apply list_elem_of_In. }
      destruct others as [| second others]; cbn [length Nat.leb].
      * unfold max_of. simpl.
        destruct (Q.min_spec 1 (first.(score) + 0.1 * (inject_Z 1 - 1)))
          as [[? E] | [? E]]; rewrite E; unfold inject_Z in *; lra.
      * cbn [Nat.leb]. rewrite py_min_Qmin.
        set (m := max_of _ _).
        assert (E : inject_Z (Z.of_nat (S (S (length others))) - 1)
                    == inject_Z (Z.of_nat (S (S (length others)))) - 1).
        { unfold Z.sub. rewrite inject_Z_plus, inject_Z_opp. reflexivity. }
        rewrite E.
        destruct (Q.min_spec 1.0 (m + 0.1 * (inject_Z (Z.of_nat (S (S (length others)))) - 1)))
          as [[? E1] | [? E1]]; rewrite E1;
        destruct (Q.min_spec 1 (m + 0.1 * (inject_Z (Z.of_nat (S (S (length others)))) - 1)))
          as [[? E2] | [? E2]]; rewrite E2; lra.
    + rewrite <- HT. etrans; [apply filter_map_sublist | exact Horder].
Qed.

End RuleEngineFacts.

(** [TestRuleEngine]: nothing triggers on all-safe features; the panic
    button alone scores 1.0, CRITICAL; four concurrent rules are capped
    at 1.0. *)
Example no_rule_triggered :
  let out := RuleEngine.evaluate_rules (H := Reference.platform)
               {[ "event_count" := PNum 10; "max_risk_timer" := PNum 0 ]} None in
  (out.(RuleEngine.triggered_rules), out.(RuleEngine.severity)) = ([], "LOW")
  /\ out.(RuleEngine.rule_score) == 0.
Proof. split; vm_compute; reflexivity. Qed.

Example multi_rule_boost :
  let out := RuleEngine.evaluate_rules (H := Reference.platform) Sample.boosted_features None in
  (out.(RuleEngine.triggered_rules), out.(RuleEngine.severity))
    = (["R1"; "R2"; "R4"; "R5"], "CRITICAL")
  /\ out.(RuleEngine.rule_score) == 1.
Proof. split; vm_compute; reflexivity. Qed.

Lemma rule_engine_composite_score_witness :
  let out := RuleEngine.evaluate_rules (H := Reference.platform) Sample.boosted_features None in
  let T := List.filter (fun r => r.(RuleEngine.triggered)) out.(RuleEngine.details) in
  T <> []
  /\ exists m, Spec.is_max m (List.map RuleEngine.score T)
               /\ out.(RuleEngine.rule_score) ==
                    Qmin 1 (m + 0.1 * (inject_Z (Z.of_nat (length T)) - 1)).
Proof.
  intros out T.
  assert (Hsome : T <> []) by (vm_compute; discriminate).
  split; [exact Hsome |].
  destruct (rule_engine_composite_score (H := Reference.platform)
              Sample.boosted_features None) as (_ & Hscore & _).
  exact (Hscore Hsome).
Defined.


(* ===================================================================== *)
(** * [sorted] on timestamp keys                                          *)
(* ===================================================================== *)

Lemma ltb_false_leb (s t : string) : String.ltb s t = false <-> String.leb t s = true.
Proof.
  unfold String.ltb, String.leb. rewrite (String.compare_antisym s t).
  destruct (String.compare t s); simpl; split; congruence.
Qed.

Lemma ltb_true_leb (s t : string) : String.ltb s t = true -> String.leb s t = true.
Proof.
  unfold String.ltb, String.leb. destruct (String.compare s t); congruence.
Qed.

Section TimestampOrder.
Import Spec.

Let before (a b : pydict) : Prop :=
  String.leb (timestamp_text a) (timestamp_text b) = true.

Lemma lt_text (a b : pydict) :
  has_text_timestamp a -> has_text_timestamp b ->
  Py.lt (timestamp_key a) (timestamp_key b)
  = Ok (String.ltb (timestamp_text a) (timestamp_text b)).
Proof.
  intros [s Hs] [t Ht]. unfold timestamp_text. by rewrite Hs, Ht.
Qed.

(** Placing one more event keeps the events, their order and the
    ascending keys. *)
Lemma insert_by_text (x : pydict) (placed : list pydict) :
  has_text_timestamp x -> Forall has_text_timestamp placed ->
  exists l, Py.insert_by timestamp_key x placed = Ok l
            /\ l ≡ₚ x :: placed
            /\ (forall z, before z x -> HdRel before z placed -> HdRel before z l)
            /\ (Sorted before placed -> Sorted before l).
Proof.
  intros Hx. induction 1 as [| y rest Hy Hrest IH]; cbn [Py.insert_by].
  - exists [x]. repeat split; auto.
  - rewrite (lt_text x y Hx Hy). cbn [Py.bind].
    destruct (String.ltb (timestamp_text x) (timestamp_text y)) eqn:Hlt.
    + exists (x :: y :: rest). repeat split; auto.
      intros Hs. constructor; [exact Hs |]. constructor. by apply ltb_true_leb.
    + destruct IH as (l & -> & Hperm & Hhd & Hsorted). cbn [Py.bind].
      exists (y :: l). repeat split.
      * rewrite Hperm. apply Permutation_swap.
      * intros z _ Hz. constructor. by inversion Hz.
      * intros Hs. apply Sorted_inv in Hs as [Hs Hy']. constructor; [by apply Hsorted |].
        apply Hhd; [| exact Hy']. by apply ltb_false_leb.
Qed.

Lemma sort_onto_text (xs placed : list pydict) :
  Forall has_text_timestamp xs -> Forall has_text_timestamp placed ->
  Sorted before placed ->
  exists l, Py.sort_onto timestamp_key placed xs = Ok l
            /\ l ≡ₚ placed ++ xs
            /\ Sorted before l.
Proof.
  intros Hxs. revert placed.
  induction Hxs as [| x xs Hx Hxs IH]; intros placed Hplaced Hsorted; cbn [Py.sort_onto].
  - exists placed. by rewrite app_nil_r.
  - destruct (insert_by_text x placed Hx Hplaced) as (l & -> & Hperm & _ & Hs).
    cbn [Py.bind].
    destruct (IH l) as (l' & Hl' & Hperm' & Hs').
    + rewrite Hperm. by constructor.
    + by apply Hs.
    + exists l'. repeat split; [exact Hl' | | exact Hs'].
      rewrite Hperm', Hperm. simpl. apply Permutation_middle.
Qed.

(** On events whose timestamp is text or missing, [sorted] returns, and
    returns the same events in ascending order of that text. *)
Lemma sorted_by_timestamp (events : list pydict) :
  Forall has_text_timestamp events ->
  exists ordered, Py.sorted timestamp_key events = Ok ordered
                  /\ ordered ≡ₚ events
                  /\ ascending ordered.
Proof.
  intros Hev. destruct (sort_onto_text events [] Hev) as (l & Hl & Hperm & Hs).
  - constructor.
  - constructor.
  - exists l. auto.
Qed.

End TimestampOrder.

(* ===================================================================== *)
(** * Rule R3: the rapid-transition scan                                  *)
(* ===================================================================== *)

Section RapidTransition.
Context `{Platform}.
Import RuleEngine Spec.

Lemma zone_safe_not_danger (e : pydict) :
  zone_is e "SAFE" = true -> zone_is e "IN_DANGER" = false.
Proof.
  unfold zone_is, eq_str. destruct (dict_get e "zone_state" (PStr "")); try discriminate.
  intros Hs. apply String.eqb_eq in Hs. by subst.
Qed.

Lemma remembered_one (safe_ts : option Q) (e : pydict) :
  remembered safe_ts [e]
  = match safe_time event_timestamp e with
    | Some t => Some t
    | None => safe_ts
    end.
Proof.
  unfold remembered, last_safe. simpl.
  by destruct (safe_time event_timestamp e).
Qed.

Lemma omap_cons_safe (e : pydict) (seen : list pydict) :
  omap (safe_time event_timestamp) (e :: seen)
  = match safe_time event_timestamp e with
    | Some t => t :: omap (safe_time event_timestamp) seen
    | None => omap (safe_time event_timestamp) seen
    end.
Proof. reflexivity. Qed.

(** One turn of the loop: it fires, or goes on with the SAFE timestamp
    it now remembers. *)
Lemma rapid_scan_step (thr : Q) (safe_ts : option Q) (e : pydict) (l : list pydict) :
  rapid_scan thr safe_ts (e :: l)
  = match event_timestamp e, safe_ts with
    | Some t, Some s =>
        if zone_is e "IN_DANGER" && Qleb (t - s) thr then true
        else rapid_scan thr (remembered safe_ts [e]) l
    | _, _ => rapid_scan thr (remembered safe_ts [e]) l
    end.
Proof.
  cbn [rapid_scan]. rewrite remembered_one. unfold safe_time.
  fold (zone_is e "SAFE"). fold (zone_is e "IN_DANGER").
  destruct (event_timestamp e) as [t |] eqn:Ht; rewrite ?Ht.
  - destruct (zone_is e "SAFE") eqn:Hsafe.
    + rewrite (zone_safe_not_danger e Hsafe). by destruct safe_ts.
    + by destruct (zone_is e "IN_DANGER"), safe_ts as [s |].
  - by destruct (zone_is e "SAFE"), safe_ts.
Qed.

Lemma remembered_cons (safe_ts : option Q) (e : pydict) (seen : list pydict) :
  remembered safe_ts (e :: seen) = remembered (remembered safe_ts [e]) seen.
Proof.
  rewrite remembered_one. unfold remembered, last_safe. rewrite omap_cons_safe.
  destruct (safe_time event_timestamp e) as [t |]; [| reflexivity].
  rewrite last_cons. by destruct (last (omap _ seen)).
Qed.

Lemma remembered_fires (safe_ts : option Q) (e : pydict) :
  zone_is e "IN_DANGER" = true -> remembered safe_ts [e] = safe_ts.
Proof.
  intros Hd. rewrite remembered_one. unfold safe_time.
  destruct (zone_is e "SAFE") eqn:Hs; [| reflexivity].
  apply zone_safe_not_danger in Hs. congruence.
Qed.

(** The scan answers [true] exactly when some IN_DANGER event with a
    readable timestamp comes at most [thr] seconds after the SAFE
    timestamp remembered at that point. *)
Lemma rapid_scan_spec (thr : Q) (l : list pydict) (safe_ts : option Q) :
  rapid_scan thr safe_ts l = true
  <-> exists seen ev rest t s,
        l = (seen ++ ev :: rest)%list
        /\ zone_is ev "IN_DANGER" = true
        /\ event_timestamp ev = Some t
        /\ remembered safe_ts seen = Some s
        /\ t - s <= thr.
Proof.
  revert safe_ts. induction l as [| e l IH]; intros safe_ts.
  - split; [discriminate |]. intros (seen & ev & rest & t & s & Hl & _).
    by destruct seen.
  - rewrite rapid_scan_step. split.
    + intros Hscan.
      assert (Hcases :
        (exists t s, event_timestamp e = Some t /\ safe_ts = Some s
                     /\ zone_is e "IN_DANGER" = true /\ Qleb (t - s) thr = true)
        \/ rapid_scan thr (remembered safe_ts [e]) l = true).
      { destruct (event_timestamp e) as [t |], safe_ts as [s |]; auto.
        destruct (zone_is e "IN_DANGER") eqn:Hd; auto.
        destruct (Qleb (t - s) thr) eqn:Hle; auto.
        left. by exists t, s. }
      destruct Hcases as [(t & s & Ht & -> & Hd & Hle) | Hrest].
      * exists [], e, l, t, s. repeat split; auto.
        by destruct (Qleb_spec (t - s) thr).
      * apply IH in Hrest as (seen & ev & rest & t & s & -> & Hd & Ht & Hs & Hle).
        exists (e :: seen), ev, rest, t, s. repeat split; auto.
        by rewrite remembered_cons.
    + intros (seen & ev & rest & t & s & Hl & Hd & Ht & Hs & Hle).
      destruct seen as [| e' seen]; simpl in Hl; injection Hl as <- ->.
      * unfold remembered in Hs. simpl in Hs. subst safe_ts. rewrite Ht, Hd.
        destruct (Qleb_spec (t - s) thr); [reflexivity | contradiction].
      * assert (Hrest : rapid_scan thr (remembered safe_ts [e]) (seen ++ ev :: rest) = true).
        { apply IH. exists seen, ev, rest, t, s. repeat split; auto.
          by rewrite <- remembered_cons. }
        rewrite Hrest.
        destruct (event_timestamp e), safe_ts; try reflexivity.
        by destruct (_ && _).
Qed.

(** Events whose timestamp does not parse leave the scan as it is. *)
Lemma rapid_scan_skips (thr : Q) (l : list pydict) (safe_ts : option Q) :
  rapid_scan thr safe_ts l = rapid_scan thr safe_ts (List.filter parses l).
Proof.
  revert safe_ts. induction l as [| e l IH]; intros safe_ts; [reflexivity |].
  cbn [List.filter]. unfold parses at 1.
  destruct (event_timestamp e) as [t |] eqn:Ht.
  - rewrite !rapid_scan_step, Ht.
    destruct safe_ts; rewrite <- ?IH; reflexivity.
  - rewrite rapid_scan_step, Ht.
    replace (remembered safe_ts [e]) with safe_ts; [apply IH |].
    rewrite remembered_one. unfold safe_time. rewrite Ht.
    by destruct (zone_is e "SAFE").
Qed.

Lemma event_timestamp_key (e : pydict) :
  event_timestamp e = fromisoformat_timestamp (replace_Z (py_str (timestamp_key e))).
Proof. reflexivity. Qed.

(** A SAFE event followed by an IN_DANGER event: the rule compares the
    gap with the threshold, bound included. *)
Lemma rapid_pair (safe danger : pydict) (t_safe t_danger thr : Q) :
  zone_is safe "SAFE" = true -> zone_is danger "IN_DANGER" = true ->
  has_text_timestamp safe -> has_text_timestamp danger ->
  String.leb (timestamp_text safe) (timestamp_text danger) = true ->
  event_timestamp safe = Some t_safe -> event_timestamp danger = Some t_danger ->
  _has_rapid_transition [safe; danger] thr = Ok (Qleb (t_danger - t_safe) thr).
Proof.
  intros Hs Hd Hts Htd Hle Ht1 Ht2. unfold _has_rapid_transition, Py.sorted.
  cbn [Py.sort_onto Py.insert_by Py.bind].
  rewrite (lt_text danger safe Htd Hts). cbn [Py.bind].
  apply ltb_false_leb in Hle. rewrite Hle. cbn [Py.bind]. f_equal.
  rewrite !rapid_scan_step, Ht1, Ht2.
  assert (Hr : remembered None [safe] = Some t_safe).
  { rewrite remembered_one. unfold safe_time. by rewrite Hs, Ht1. }
  rewrite Hr, Hd. simpl. by destruct (Qleb (t_danger - t_safe) thr).
Qed.


End RapidTransition.


(** The unit test of R3, and the two sides of the 10 s bound. *)
Example r3_fires_after_8s :
  RuleEngine._has_rapid_transition (H := Reference.platform)
    [Sample.safe_at_noon; Sample.danger_after "08"] 10 = Ok true.
Proof. vm_compute. reflexivity. Qed.

Example r3_fires_after_10s :
  RuleEngine._has_rapid_transition (H := Reference.platform)
    [Sample.safe_at_noon; Sample.danger_after "10"] 10 = Ok true.
Proof. vm_compute. reflexivity. Qed.

Example r3_silent_after_10_0001s :
  RuleEngine._has_rapid_transition (H := Reference.platform)
    [Sample.safe_at_noon; Sample.danger_after "10.0001"] 10 = Ok false.
Proof. vm_compute. reflexivity. Qed.

Example r3_skips_unreadable_timestamp :
  RuleEngine._has_rapid_transition (H := Reference.platform)
    [Sample.safe_at_noon; <["timestamp" := PStr "yesterday"]> Sample.safe_at_noon;
     Sample.danger_after "08"] 10 = Ok true.
Proof. vm_compute. reflexivity. Qed.

(* ===================================================================== *)
(** * Distance travelled and the feature vector                           *)
(* ===================================================================== *)

Section FeatureFacts.
Context `{Platform}.
Import FeatureEngineer Spec.

Lemma haversine_numeric (lat1 lng1 lat2 lng2 : pyval) (x1 y1 x2 y2 : Q) :
  as_number lat1 = Some x1 -> as_number lng1 = Some y1 ->
  as_number lat2 = Some x2 -> as_number lng2 = Some y2 ->
  haversine_meters lat1 lng1 lat2 lng2 = Ok (haversine x1 y1 x2 y2).
Proof.
  intros H1 H2 H3 H4.
  unfold haversine_meters, radians, py_sub, number.
  rewrite H1, H2, H3, H4. reflexivity.
Qed.

Lemma haversine_invalid (lat1 lng1 lat2 lng2 : pyval) :
  as_number lat1 = None \/ as_number lng1 = None
  \/ as_number lat2 = None \/ as_number lng2 = None ->
  haversine_meters lat1 lng1 lat2 lng2 = Raise TypeError.
Proof.
  intros Hbad. unfold haversine_meters, radians, py_sub, number.
  destruct (as_number lat1); [| reflexivity].
  destruct (as_number lat2); [| reflexivity].
  destruct (as_number lng2); [| reflexivity].
  destruct (as_number lng1); [| reflexivity].
  destruct Hbad as [? | [? | [? | ?]]]; discriminate.
Qed.

(** One turn of the loop: the segment is added, or skipped. *)
Lemma segment_added_or_skipped (total : Q) (prev curr : pydict) :
  exists total',
    try_except (let* d := segment prev curr in Ok (total + d))
               key_or_type_error (Ok total) = Ok total'
    /\ total' == total + segment_length prev curr.
Proof.
  unfold segment, segment_length, coordinates, dict_item.
  destruct (prev !! "latitude") as [lat1 |]; cbn [Py.bind];
    [| exists total; split; [reflexivity | lra]].
  destruct (prev !! "longitude") as [lng1 |]; cbn [Py.bind];
    [| exists total; split; [reflexivity | lra]].
  destruct (curr !! "latitude") as [lat2 |]; cbn [Py.bind];
    [| exists total; split; [reflexivity | destruct (as_number lat1), (as_number lng1); lra]].
  destruct (curr !! "longitude") as [lng2 |]; cbn [Py.bind];
    [| exists total; split; [reflexivity | destruct (as_number lat1), (as_number lng1); lra]].
  destruct (as_number lat1) as [x1 |] eqn:E1;
    [| rewrite haversine_invalid by auto; exists total; split; [reflexivity | lra]].
  destruct (as_number lng1) as [y1 |] eqn:E2;
    [| rewrite haversine_invalid by auto; exists total; split; [reflexivity | lra]].
  destruct (as_number lat2) as [x2 |] eqn:E3;
    [| rewrite haversine_invalid by auto; exists total; split; [reflexivity | lra]].
  destruct (as_number lng2) as [y2 |] eqn:E4;
    [| rewrite haversine_invalid by auto; exists total; split; [reflexivity | lra]].
  rewrite (haversine_numeric _ _ _ _ _ _ _ _ E1 E2 E3 E4). cbn [Py.bind try_except].
  eexists. split; [reflexivity | lra].
Qed.

Lemma add_segments_path (rest : list pydict) (total : Q) (prev : pydict) :
  exists d, add_segments total prev rest = Ok d
            /\ d == total + path_length (prev :: rest).
Proof.
  revert total prev. induction rest as [| curr rest IH]; intros total prev.
  - exists total. split; [reflexivity | simpl; lra].
  - cbn [add_segments].
    destruct (segment_added_or_skipped total prev curr) as (total' & -> & Htotal).
    cbn [Py.bind]. destruct (IH total' curr) as (d & -> & Hd).
    exists d. split; [reflexivity |].
    rewrite Hd, Htotal. cbn [path_length]. lra.
Qed.

(** On events with text timestamps the distance is computed, and is the
    length of the sorted path over its valid segments. *)
Lemma distance_is_path_length (events : list pydict) :
  Forall has_text_timestamp events ->
  exists ordered d,
    Py.sorted timestamp_key events = Ok ordered
    /\ ordered ≡ₚ events
    /\ ascending ordered
    /\ compute_distance_traveled events = Ok d
    /\ d == path_length ordered.
Proof.
  intros Hev. destruct (sorted_by_timestamp events Hev) as (ordered & Hsort & Hperm & Hasc).
  unfold compute_distance_traveled. rewrite Hsort. cbn [Py.bind].
  destruct ordered as [| first rest].
  - exists [], 0.0. repeat split; auto; simpl; lra.
  - destruct (add_segments_path rest 0.0 first) as (d & Hd & Heq).
    exists (first :: rest), d. repeat split; auto; rewrite Heq; lra.
Qed.


Lemma fill_features_spec (agg_row : pydict) (distance speed : Q)
    (cols : list string) (acc f : gmap string Q) :
  fill_features agg_row distance speed cols acc = Ok f ->
  forall col,
    (col ∈ cols ->
     exists v, column_value agg_row distance speed col = Ok v /\ f !! col = Some v)
    /\ (col ∉ cols -> f !! col = acc !! col).
Proof.
  revert acc. induction cols as [| c cols IH]; intros acc Hfill col.
  - injection Hfill as <-. split; [by intros ?%elem_of_nil | done].
  - cbn [fill_features] in Hfill. fold (column_value agg_row distance speed c) in Hfill.
    destruct (column_value agg_row distance speed c) as [v |] eqn:Hv; [| discriminate].
    cbn [Py.bind] in Hfill. destruct (IH _ Hfill col) as [Hin Hout].
    destruct (decide (col ∈ cols)) as [Hcol | Hcol].
    + split; [auto |]. intros Hnot. exfalso. apply Hnot. by right.
    + split.
      * intros [-> | ?]%elem_of_cons; [| done].
        exists v. split; [exact Hv |]. rewrite (Hout Hcol). apply lookup_insert_eq.
      * intros Hnot. rewrite (Hout Hcol). apply lookup_insert_ne.
        intros ->. apply Hnot. by left.
Qed.

Lemma fill_features_returns (agg_row : pydict) (distance speed : Q)
    (cols : list string) (acc : gmap string Q) :
  (forall col, col ∈ cols -> exists v, column_value agg_row distance speed col = Ok v) ->
  exists f, fill_features agg_row distance speed cols acc = Ok f.
Proof.
  revert acc. induction cols as [| c cols IH]; intros acc Hcols.
  - by exists acc.
  - cbn [fill_features]. fold (column_value agg_row distance speed c).
    destruct (Hcols c) as [v ->]; [by left |]. cbn [Py.bind].
    apply IH. intros col Hcol. apply Hcols. by right.
Qed.

Lemma canonical_columns (col : string) :
  In col FEATURE_COLUMNS
  <-> In col AGGREGATED \/ col = "distance_traveled" \/ col = "speed_estimate".
Proof. unfold FEATURE_COLUMNS, AGGREGATED. simpl. intuition auto. Qed.

Lemma aggregated_not_computed (col : string) :
  In col AGGREGATED ->
  String.eqb col "distance_traveled" = false /\ String.eqb col "speed_estimate" = false.
Proof.
  unfold AGGREGATED. simpl. intros Hcol.
  repeat (destruct Hcol as [<- | Hcol]; [split; reflexivity |]). contradiction.
Qed.

Lemma column_value_typed (agg_row : pydict) (distance speed : Q) (col : string) :
  well_typed_row agg_row -> In col FEATURE_COLUMNS ->
  exists v, column_value agg_row distance speed col = Ok v.
Proof.
  intros Hrow Hcol. unfold column_value.
  apply canonical_columns in Hcol as [Hagg | [-> | ->]]; [| by eexists | by eexists].
  destruct (aggregated_not_computed col Hagg) as [-> ->].
  unfold dict_get. destruct (agg_row !! col) as [v |] eqn:Hv; [| by eexists].
  specialize (Hrow col v Hagg Hv).
  destruct v as [| [] | q | s]; simpl in Hrow; try contradiction;
    unfold py_or; simpl; try (by eexists).
  destruct (Qeq_bool q 0); simpl; by eexists.
Qed.

Lemma column_value_missing (agg_row : pydict) (distance speed : Q) (col : string) :
  In col AGGREGATED -> agg_row !! col = None ->
  column_value agg_row distance speed col = Ok 0.
Proof.
  intros Hagg Hnone. unfold column_value, dict_get.
  destruct (aggregated_not_computed col Hagg) as [-> ->]. by rewrite Hnone.
Qed.

Lemma feature_columns_distinct : NoDup FEATURE_COLUMNS.
Proof. apply (bool_decide_unpack _). vm_compute. reflexivity. Qed.

Lemma enrich_features_returns (agg_row : pydict) (raw_events : list pydict)
    (window_seconds : Q) :
  well_typed_row agg_row -> Forall has_text_timestamp raw_events ->
  exists f, enrich_features agg_row raw_events window_seconds = Ok f.
Proof.
  intros Hrow Hev. unfold enrich_features.
  destruct (distance_is_path_length raw_events Hev) as (ordered & d & _ & _ & _ & -> & _).
  cbn [Py.bind]. apply fill_features_returns.
  intros col Hcol. apply column_value_typed; [exact Hrow | by apply list_elem_of_In].
Qed.

(** What the loop has filled in, column by column. *)
Lemma enrich_features_columns (agg_row : pydict) (raw_events : list pydict)
    (window_seconds : Q) (f : gmap string Q) :
  enrich_features agg_row raw_events window_seconds = Ok f ->
  exists distance,
    compute_distance_traveled raw_events = Ok distance
    /\ forall col,
         (col ∈ FEATURE_COLUMNS ->
          exists v,
            column_value agg_row distance
              (if Qgtb window_seconds 0 then distance / window_seconds else 0.0) col = Ok v
            /\ f !! col = Some v)
         /\ (col ∉ FEATURE_COLUMNS -> f !! col = None).
Proof.
  unfold enrich_features. intros Hf.
  destruct (compute_distance_traveled raw_events) as [distance |]; [| discriminate].
  cbn [Py.bind] in Hf. exists distance. split; [reflexivity |].
  intros col. destruct (fill_features_spec _ _ _ _ _ _ Hf col) as [Hin Hout].
  split; [exact Hin |]. intros Hnot. by rewrite (Hout Hnot).
Qed.

Lemma enrich_features_keys (agg_row : pydict) (raw_events : list pydict)
    (window_seconds : Q) (f : gmap string Q) :
  enrich_features agg_row raw_events window_seconds = Ok f ->
  forall col, is_Some (f !! col) <-> In col FEATURE_COLUMNS.
Proof.
  intros Hf col.
  destruct (enrich_features_columns _ _ _ _ Hf) as (distance & _ & Hspec).
  destruct (Hspec col) as [Hin Hout]. rewrite <- list_elem_of_In. split.
  - intros Hsome. destruct (decide (col ∈ FEATURE_COLUMNS)) as [| Hnot]; [done |].
    rewrite (Hout Hnot) in Hsome. by destruct Hsome.
  - intros Hcol. destruct (Hin Hcol) as (v & _ & ->). by eexists.
Qed.


End FeatureFacts.


Lemma sample_walk_text : Forall Spec.has_text_timestamp Sample.walk.
Proof.
  repeat constructor.
  - exists "2026-01-01T00:00:00Z". vm_compute. reflexivity.
  - exists "2026-01-01T00:00:30Z". vm_compute. reflexivity.
  - exists "2026-01-01T00:01:00Z". vm_compute. reflexivity.
Defined.


(** [TestDistanceTraveled]: no event and one event travel nothing; a pair
    with a null latitude is left out. *)
Example distance_of_no_event :
  FeatureEngineer.compute_distance_traveled (H := Reference.platform) [] = Ok 0.0.
Proof. reflexivity. Qed.

Example distance_of_null_latitude :
  FeatureEngineer.compute_distance_traveled (H := Reference.platform)
    [ Sample.located (PNum 12.97) (PNum 77.59) "2026-01-01T00:00:00Z";
      Sample.located PNone (PNum 77.60) "2026-01-01T00:00:30Z" ] = Ok 0.0.
Proof. vm_compute. reflexivity. Qed.

Lemma sample_row_typed : Spec.well_typed_row Sample.aggregated_row.
Proof.
  intros col v Hcol Hv. unfold Spec.AGGREGATED in Hcol. simpl in Hcol.
  repeat (destruct Hcol as [<- | Hcol];
          [vm_compute in Hv; injection Hv as <-; exact I |]).
  contradiction.
Defined.



(* ===================================================================== *)
(** * Rule R6 in the composed pipeline                                    *)
(* ===================================================================== *)

Section ComposedPipeline.
Context `{Platform}.
Import RuleEngine.

(** What holds of every answer of every rule holds of every result. *)
Lemma run_rules_Forall (P : RuleResult -> Prop) (features : pydict)
    (events : list pydict) (rules : list rule_fn) :
  Forall (fun rule => forall r, call_rule rule features events = Ok r -> P r) rules ->
  Forall P (run_rules rules features events []).
Proof.
  induction 1 as [| rule rules Hrule _ IH]; simpl; [constructor |].
  destruct (call_rule rule features events) as [r | e] eqn:Hcall; [| exact IH].
  rewrite run_rules_acc. constructor; [by apply Hrule | exact IH].
Qed.

(** Without a [latest_zone_state] among the features, whatever carries
    the identifier R6 is not triggered. *)
Lemma r6_silent_without_latest_zone (features : pydict) (events : list pydict) :
  features !! "latest_zone_state" = None ->
  Forall (fun r => r.(rule_id) = "R6" -> r.(triggered) = false)
         (run_rules ALL_RULES features events []).
Proof.
  intros Hnone. apply run_rules_Forall. unfold ALL_RULES.
  repeat match goal with
         | |- Forall _ (_ :: _) => constructor
         | |- Forall _ [] => constructor
         end;
    intros r Hr; cbn [call_rule] in Hr.
  - unfold _rule_r1_sustained_danger in Hr. invert_Ok Hr; discriminate.
  - unfold _rule_r2_panic in Hr. invert_Ok Hr; discriminate.
  - unfold _rule_r3_rapid_transition in Hr. invert_Ok Hr; discriminate.
  - unfold _rule_r4_erratic_movement in Hr. invert_Ok Hr; discriminate.
  - unfold _rule_r5_extended_danger in Hr. invert_Ok Hr; discriminate.
  - unfold _rule_r6_danger_no_exit, dict_get in Hr. rewrite Hnone in Hr.
    simpl in Hr. by injection Hr as <-.
Qed.

Lemma r6_absent_without_latest_zone (features : pydict) (events : option (list pydict)) :
  features !! "latest_zone_state" = None ->
  ~ In "R6" (evaluate_rules features events).(triggered_rules).
Proof.
  intros Hnone. unfold evaluate_rules.
  set (evs := default [] events).
  pose proof (r6_silent_without_latest_zone features evs Hnone) as Hsilent.
  set (results := run_rules ALL_RULES features evs []) in *.
  assert (Hnot : ~ In "R6" (List.map rule_id (List.filter (fun r => r.(triggered)) results))).
  { intros Hin. apply in_map_iff in Hin as (r & Hid & Hr).
    apply filter_In in Hr as [Hr Htrig].
    rewrite Forall_forall in Hsilent.
    rewrite (Hsilent r) in Htrig; [discriminate | by apply list_elem_of_In | exact Hid]. }
  destruct (List.filter (fun r => r.(triggered)) results); [by simpl | exact Hnot].
Qed.

(** C10.  The mapping [enrich_features] returns has no key
    [latest_zone_state], whatever the aggregated row supplies; so the
    rule engine run on it, as the live pipeline does, never lists R6 among
    the triggered rules, and no alert of the pipeline carries R6. *)
Theorem r6_never_triggers_in_pipeline (agg_row : pydict) (raw_events : list pydict)
    (window_seconds : Q) (f : gmap string Q) :
  FeatureEngineer.enrich_features agg_row raw_events window_seconds = Ok f ->
  f !! "latest_zone_state" = None
  /\ (forall events,
        ~ In "R6" (evaluate_rules (PNum <$> f) events).(triggered_rules))
  /\ (forall detector settings now alert,
        Main._analyze_single_tourist detector settings now agg_row raw_events
          = Ok (Some alert) ->
        ~ In "R6" alert.(Main.triggered_rules)).
Proof.
  intros Hf.
  assert (Hkey : forall w h,
             FeatureEngineer.enrich_features agg_row raw_events w = Ok h ->
             h !! "latest_zone_state" = None).
  { intros w h Hh.
    pose proof (enrich_features_keys agg_row raw_events w h Hh) as Hkeys.
    destruct (h !! "latest_zone_state") as [v |] eqn:Hv; [| reflexivity].
    exfalso. assert (Hin : In "latest_zone_state" FeatureEngineer.FEATURE_COLUMNS)
      by (apply Hkeys; rewrite Hv; by eexists).
    unfold FeatureEngineer.FEATURE_COLUMNS in Hin. simpl in Hin.
    repeat (destruct Hin as [Hin | Hin]; [discriminate Hin |]). contradiction. }
  split; [by apply (Hkey window_seconds) |]. split.
  - intros events. apply r6_absent_without_latest_zone.
    rewrite lookup_fmap, (Hkey _ _ Hf). reflexivity.
  - intros detector settings now alert Halert.
    unfold Main._analyze_single_tourist in Halert.
    apply bind_Ok in Halert as (tid & _ & Halert).
    apply bind_Ok in Halert as (g & Hg & Halert).
    apply bind_Ok in Halert as (fusion & _ & Halert).
    destruct (negb _); [discriminate |]. injection Halert as <-.
    cbn [Main.triggered_rules]. apply r6_absent_without_latest_zone.
    rewrite lookup_fmap, (Hkey _ _ Hg). reflexivity.
Qed.

End ComposedPipeline.

Lemma r6_never_triggers_in_pipeline_witness :
  exists f,
    FeatureEngineer.enrich_features (H := Reference.platform)
      Sample.trapped_row Sample.trapped_events 120.0 = Ok f
    /\ ~ In "R6" (RuleEngine.evaluate_rules (H := Reference.platform)
                    (PNum <$> f) (Some Sample.trapped_events)).(RuleEngine.triggered_rules).
Proof.
  set (enriched := FeatureEngineer.enrich_features (H := Reference.platform)
                     Sample.trapped_row Sample.trapped_events 120.0).
  assert (Hreturns : match enriched with Ok _ => True | Raise _ => False end)
    by (vm_compute; exact I).
  destruct enriched as [f |] eqn:Hf; [| contradiction].
  exists f. split; [reflexivity |].
  apply (r6_never_triggers_in_pipeline (H := Reference.platform)
           Sample.trapped_row Sample.trapped_events 120.0 f Hf).
Defined.

(** The unit test of R6 hands the rule engine a mapping that carries
    [latest_zone_state], and R6 triggers; the live pipeline hands it the
    enriched features of the same row, and nothing triggers. *)
Example r6_triggers_on_test_features :
  (RuleEngine.evaluate_rules (H := Reference.platform)
     Sample.trapped_row (Some Sample.trapped_events)).(RuleEngine.triggered_rules) = ["R6"].
Proof. vm_compute. reflexivity. Qed.

Example r6_silent_on_enriched_features :
  (fun f => (RuleEngine.evaluate_rules (H := Reference.platform)
               (PNum <$> f) (Some Sample.trapped_events)).(RuleEngine.triggered_rules))
    <$> (match FeatureEngineer.enrich_features (H := Reference.platform)
                 Sample.trapped_row Sample.trapped_events 120.0 with
         | Ok f => Some f
         | Raise _ => None
         end)
  = Some [].
Proof. vm_compute. reflexivity. Qed.

(* ===================================================================== *)
(** * The anomaly scorer                                                  *)
(* ===================================================================== *)

Section Scorer.
Context `{Platform}.
Import IsolationForest.

Lemma np_clip_is_clip (x : Q) : np_clip x 0.0 1.0 == Spec.clip x 0 1.
Proof.
  unfold np_clip, Spec.clip.
  destruct (Q.min_spec 1 x) as [[? E1] | [? E1]]; rewrite E1;
  destruct (Q.max_spec 0 1) as [[? E2] | [? E2]]; try rewrite E2;
  destruct (Q.max_spec 0 x) as [[? E3] | [? E3]]; try rewrite E3;
  compare_numbers; lra.
Qed.

Lemma np_clip_bounds (x : Q) : 0 <= np_clip x 0.0 1.0 /\ np_clip x 0.0 1.0 <= 1.
Proof. unfold np_clip. compare_numbers; lra. Qed.

(** C4.  Without a model, [predict] returns exactly 0.0 whatever the
    features.  With a model it returns [clip(1 / (1 + exp(5 r)), 0, 1)]
    for [r] the estimator's decision function on the row of the bundle's
    feature columns (0.0 for an absent feature), a value in [0, 1]. *)
Theorem predict_degrades_and_normalises (self : AnomalyDetector)
    (features : gmap string Q) :
  (self.(model) = None -> predict self features = 0.0)
  /\ (forall m, self.(model) = Some m ->
        let X := List.map (fun name => default 0.0 (features !! name))
                          self.(feature_columns) in
        let r := m.(decision_function) X in
        predict self features == Spec.sigmoid_normalize r
        /\ 0 <= predict self features
        /\ predict self features <= 1).
Proof.
  unfold predict. split.
  - by intros ->.
  - intros m ->. cbn zeta. unfold _sigmoid_normalise, Spec.sigmoid_normalize.
    split; [| apply np_clip_bounds].
    rewrite np_clip_is_clip.
    assert (E : 1.0 / (1.0 + np_exp (5.0 * decision_function m
                  (List.map (fun col => default 0.0 (features !! col)) (feature_columns self))))
                == 1 / (1 + np_exp (5.0 * decision_function m
                  (List.map (fun name => default 0.0 (features !! name)) (feature_columns self))))).
    { apply Qmult_comp; [reflexivity |]. apply Qinv_comp.
      apply Qplus_comp; reflexivity. }
    unfold Spec.clip. by rewrite E.
Qed.

(** The [try] block raises before its first assignment or not at all. *)
Lemma load_model_body_atomic (f : file) (self : AnomalyDetector) :
  (exists e, load_model_body f self = (Raise e, self))
  \/ (exists b m,
        f = Pickled b /\ b.(bundle_model) = Some m
        /\ load_model_body f self =
             (Ok true,
              {| model := Some m;
                 threshold := default 0.0 b.(bundle_threshold);
                 feature_columns :=
                   default FeatureEngineer.FEATURE_COLUMNS b.(bundle_feature_columns);
                 model_version := default "v1" b.(bundle_model_version);
                 training_samples := default 0%Z b.(bundle_training_samples);
                 _model_path := self.(_model_path) |})).
Proof.
  destruct f as [b | | e].
  - destruct (bundle_model b) as [m |] eqn:Hm.
    + right. exists b, m. repeat split; [exact Hm |].
      unfold load_model_body, seq, lift. cbn [joblib_load bundle_item_model].
      rewrite Hm. reflexivity.
    + left. exists KeyError.
      unfold load_model_body, seq, lift. cbn [joblib_load bundle_item_model].
      by rewrite Hm.
  - left. by exists TypeError.
  - left. by exists e.
Qed.


End Scorer.

Lemma predict_degrades_and_normalises_witness :
  let unloaded := IsolationForest.__init__ Sample.disk "models/missing.joblib" in
  let loaded := IsolationForest.__init__ Sample.disk "models/isolation_forest_v1.joblib" in
  unloaded.(IsolationForest.model) = None
  /\ IsolationForest.predict (H := Reference.platform) unloaded ∅ = 0.0
  /\ loaded.(IsolationForest.model) = Some Sample.estimator
  /\ 0 <= IsolationForest.predict (H := Reference.platform) loaded ∅
  /\ IsolationForest.predict (H := Reference.platform) loaded ∅ <= 1.
Proof.
  intros unloaded loaded.
  assert (Hnone : unloaded.(IsolationForest.model) = None) by reflexivity.
  assert (Hsome : loaded.(IsolationForest.model) = Some Sample.estimator) by reflexivity.
  destruct (predict_degrades_and_normalises (H := Reference.platform) unloaded ∅)
    as [Hzero _].
  destruct (predict_degrades_and_normalises (H := Reference.platform) loaded ∅)
    as [_ Hin].
  destruct (Hin Sample.estimator Hsome) as (_ & Hlo & Hhi).
  repeat split; auto.
Defined.


(* ===================================================================== *)
(** * The analysis driver                                                 *)
(* ===================================================================== *)

Section DriverFacts.
Context `{Platform}.
Import Main.

(** The loop has no handler: the exception of one tourist is the
    exception of the cycle, and the rows behind it are not analysed. *)
Lemma analyze_rows_propagates (detector : option IsolationForest.AnomalyDetector)
    (settings : Settings) (svc : SupabaseService) (clock : nat -> string) (i : nat)
    (agg_row : pydict) (rest : list pydict) (inserted : list Alert) (e : exn) :
  truthy (dict_get agg_row "tourist_id" PNone) = true ->
  _analyze_single_tourist detector settings (clock i) agg_row
    (svc.(get_recent_events) (dict_get agg_row "tourist_id" PNone)
       settings.(feature_window_minutes)) = Raise e ->
  analyze_rows detector settings svc clock i (agg_row :: rest) inserted
  = (Raise e, inserted).
Proof.
  intros Hid Hraise. cbn [analyze_rows]. rewrite Hid. cbn [negb]. by rewrite Hraise.
Qed.

End DriverFacts.

(** C3, at the failing input.  With the malformed row first the cycle
    ends in the [ValueError] of [float("n/a")] and writes nothing; the
    second tourist alone is analysed and alerted as HIGH. *)
Theorem analysis_cycle_aborts_on_malformed_row :
  fst (Sample.cycle [Sample.malformed_row; Sample.panic_row]) = Raise ValueError
  /\ snd (Sample.cycle [Sample.malformed_row; Sample.panic_row]) = []
  /\ fst (Sample.cycle [Sample.panic_row]) = Ok tt
  /\ List.map Main.tourist_id (snd (Sample.cycle [Sample.panic_row])) = [PStr "t2"]
  /\ List.map Main.severity (snd (Sample.cycle [Sample.panic_row])) = ["HIGH"].
Proof. repeat split; vm_compute; reflexivity. Qed.

(** Section 8, scenarios 1 and 2 through one tourist's analysis. *)
Example idle_tourist_raises_no_alert :
  fst (Sample.cycle [{[ "tourist_id" := PStr "t0" ]}]) = Ok tt
  /\ snd (Sample.cycle [{[ "tourist_id" := PStr "t0" ]}]) = [].
Proof. split; vm_compute; reflexivity. Qed.

Example panic_press_alerts :
  List.map (fun a => (a.(Main.rule_score), a.(Main.anomaly_score), a.(Main.hybrid_score),
                      a.(Main.triggered_rules)))
    (snd (Sample.cycle [Sample.panic_row]))
  = [(Py.round 1.0 4, Py.round 0.0 4, Py.round 0.6 4, ["R2"])].
Proof. vm_compute. reflexivity. Qed.

(* ===================================================================== *)
(** * Further properties of the rule engine                               *)
(* ===================================================================== *)

Section RuleTable.
Context `{Platform}.
Import RuleEngine.

Lemma all_rules_score (features : pydict) (events : list pydict) :
  Forall2 (scores_as features events) ALL_RULES RULE_TABLE.
Proof.
  unfold ALL_RULES, RULE_TABLE.
  repeat match goal with
         | |- Forall2 _ (_ :: _) (_ :: _) => constructor
         | |- Forall2 _ [] [] => constructor
         end;
    unfold scores_as; intros r Hr; cbn [call_rule] in Hr.
  - unfold _rule_r1_sustained_danger in Hr. invert_Ok Hr; by split.
  - unfold _rule_r2_panic in Hr. invert_Ok Hr; by split.
  - unfold _rule_r3_rapid_transition in Hr. invert_Ok Hr; by split.
  - unfold _rule_r4_erratic_movement in Hr. invert_Ok Hr; by split.
  - unfold _rule_r5_extended_danger in Hr. invert_Ok Hr; by split.
  - unfold _rule_r6_danger_no_exit in Hr. invert_Ok Hr; by split.
Qed.

Lemma triggered_rules_of_results (features : pydict) (events : option (list pydict)) :
  (evaluate_rules features events).(triggered_rules)
  = List.map rule_id (triggered_results features (default [] events)).
Proof.
  unfold evaluate_rules, triggered_results.
  by destruct (List.filter _ _).
Qed.

(** In a run of rules that answer under distinct identifiers, an
    identifier is listed exactly when its own rule fires. *)
Lemma listed_iff_fires (features : pydict) (events : list pydict)
    (rules : list rule_fn) (table : list (string * Q)) :
  Forall2 (scores_as features events) rules table ->
  NoDup (List.map fst table) ->
  forall k rule entry,
    rules !! k = Some rule -> table !! k = Some entry ->
    In (fst entry)
       (List.map rule_id (List.filter (fun r => r.(triggered))
                                      (run_rules rules features events [])))
    <-> fires features events rule.
Proof.
  induction 1 as [| rule0 entry0 rules table Hrule0 Hrest IH]; intros Hnodup k rule entry Hk Hk'.
  - by rewrite lookup_nil in Hk.
  - cbn [List.map] in Hnodup. apply NoDup_cons in Hnodup as [Hfresh Hnodup].
    assert (Hothers : forall id,
               In id (List.map rule_id (List.filter (fun r => r.(triggered))
                                         (run_rules rules features events []))) ->
               In id (List.map fst table)).
    { clear -Hrest. intros id.
      induction Hrest as [| rule1 entry1 rules table Hrule1 _ IH']; simpl; [done |].
      destruct (call_rule rule1 features events) as [r |] eqn:Hcall; [| by right; auto].
      rewrite run_rules_acc. simpl. destruct (triggered r) eqn:Htrig; simpl.
      - intros [<- | Hin]; [left; symmetry; apply (Hrule1 r Hcall) | right; auto].
      - right; auto. }
    cbn [run_rules].
    destruct k as [| k]; simpl in Hk, Hk'.
    + injection Hk as <-. injection Hk' as <-. unfold fires.
      destruct (call_rule rule0 features events) as [r |] eqn:Hcall.
      * rewrite run_rules_acc. simpl. destruct (Hrule0 r Hcall) as [Hid _].
        destruct (triggered r) eqn:Htrig; simpl.
        -- split; [by exists r | by left].
        -- split.
           ++ intros Hin. exfalso. apply Hfresh, list_elem_of_In. by apply Hothers.
           ++ intros (r' & [= <-] & Htrig'). congruence.
      * split.
        -- intros Hin. exfalso. apply Hfresh, list_elem_of_In. by apply Hothers.
        -- intros (r' & Hr' & _). discriminate.
    + assert (Hne : fst entry <> fst entry0).
      { intros Heq. apply Hfresh. rewrite <- Heq. apply list_elem_of_In, in_map_iff.
        exists entry. split; [done |]. apply list_elem_of_In. by eapply list_elem_of_lookup_2. }
      rewrite <- (IH Hnodup k rule entry Hk Hk').
      destruct (call_rule rule0 features events) as [r |] eqn:Hcall; [| done].
      rewrite run_rules_acc. simpl. destruct (Hrule0 r Hcall) as [Hid _].
      destruct (triggered r); simpl; [| done].
      split; [intros [Heq | Hin]; [congruence | done] | by right].
Qed.

Lemma rule_table_distinct : NoDup (List.map fst RULE_TABLE).
Proof. apply (bool_decide_unpack _). vm_compute. reflexivity. Qed.

Lemma listed_iff_rule_fires (features : pydict) (events : option (list pydict))
    (k : nat) (rule : rule_fn) (entry : string * Q) :
  ALL_RULES !! k = Some rule -> RULE_TABLE !! k = Some entry ->
  In (fst entry) (evaluate_rules features events).(triggered_rules)
  <-> fires features (default [] events) rule.
Proof.
  intros Hk Hk'. rewrite triggered_rules_of_results. unfold triggered_results.
  eapply listed_iff_fires; eauto using all_rules_score, rule_table_distinct.
Qed.

(** When each feature rule fires. *)
Lemma r1_fires (features : pydict) (events : list pydict) :
  fires features events (OnFeatures _rule_r1_sustained_danger)
  <-> exists t d, number_at features "max_risk_timer" = Some t /\ 60 <= t
                  /\ number_at features "danger_ratio" = Some d /\ 0.5 < d.
Proof.
  unfold fires, number_at. cbn [call_rule].
  unfold _rule_r1_sustained_danger, ge_num, gt_num. split.
  - intros (r & Hr & Htrig).
    destruct (as_number (dict_get features "max_risk_timer" (PNum 0))) as [t |];
      [| discriminate]. cbn [Py.bind] in Hr.
    destruct (Qgeb_spec t 60) as [Ht | Ht].
    + destruct (as_number (dict_get features "danger_ratio" (PNum 0))) as [d |];
        [| discriminate]. cbn [Py.bind] in Hr. injection Hr as <-. simpl in Htrig.
      exists t, d. repeat split; auto. by destruct (Qgtb_spec d 0.5).
    + cbn [Py.bind] in Hr. injection Hr as <-. discriminate.
  - intros (t & d & -> & Ht & -> & Hd). cbn [Py.bind].
    destruct (Qgeb_spec t 60); [| contradiction]. cbn [Py.bind].
    eexists. split; [reflexivity |]. simpl. by destruct (Qgtb_spec d 0.5).
Qed.

Lemma threshold_rule_fires (features : pydict) (key id description : string)
    (bound s : Q) :
  (exists r,
     (let* triggered := ge_num (dict_get features key (PNum 0)) bound in
      Ok {| rule_id := id; triggered := triggered;
            score := if triggered : bool then s else 0.0;
            description := description |}) = Ok r
     /\ r.(triggered) = true)
  <-> exists x, number_at features key = Some x /\ bound <= x.
Proof.
  unfold number_at, ge_num. split.
  - intros (r & Hr & Htrig).
    destruct (as_number (dict_get features key (PNum 0))) as [x |]; [| discriminate].
    cbn [Py.bind] in Hr. injection Hr as <-. simpl in Htrig.
    exists x. split; [done |]. by destruct (Qgeb_spec x bound).
  - intros (x & -> & Hx). cbn [Py.bind]. eexists. split; [reflexivity |].
    simpl. by destruct (Qgeb_spec x bound).
Qed.

Lemma r2_fires (features : pydict) (events : list pydict) :
  fires features events (OnFeatures _rule_r2_panic)
  <-> exists p, number_at features "panic_count" = Some p /\ 0 < p.
Proof.
  unfold fires, number_at. cbn [call_rule]. unfold _rule_r2_panic, gt_num. split.
  - intros (r & Hr & Htrig).
    destruct (as_number (dict_get features "panic_count" (PNum 0))) as [p |];
      [| discriminate].
    cbn [Py.bind] in Hr. injection Hr as <-. simpl in Htrig.
    exists p. split; [done |]. by destruct (Qgtb_spec p 0).
  - intros (p & -> & Hp). cbn [Py.bind]. eexists. split; [reflexivity |].
    simpl. by destruct (Qgtb_spec p 0).
Qed.

Lemma r3_fires (features : pydict) (events : list pydict) :
  fires features events (OnFeaturesAndEvents _rule_r3_rapid_transition)
  <-> _has_rapid_transition events 10 = Ok true.
Proof.
  unfold fires. cbn [call_rule]. unfold _rule_r3_rapid_transition. split.
  - intros (r & Hr & Htrig).
    destruct (_has_rapid_transition events 10) as [b |]; [| discriminate].
    cbn [Py.bind] in Hr. injection Hr as <-. simpl in Htrig. by subst.
  - intros ->. cbn [Py.bind]. by eexists.
Qed.

Lemma r6_fires (features : pydict) (events : list pydict) :
  fires features events (OnFeaturesAndEvents _rule_r6_danger_no_exit)
  <-> dict_get features "latest_zone_state" (PStr "") = PStr "IN_DANGER"
      /\ (exists t, number_at features "max_risk_timer" = Some t /\ 30 <= t)
      /\ Forall (fun e => dict_get e "event_type" PNone <> PStr "ZONE_EXIT") events.
Proof.
  assert (Hzone : forall v, eq_str v "IN_DANGER" = true <-> v = PStr "IN_DANGER").
  { intros v. destruct v; simpl; try (split; [discriminate | congruence]).
    rewrite String.eqb_eq. split; congruence. }
  assert (Hexit : existsb (fun e => eq_str (dict_get e "event_type" PNone) "ZONE_EXIT") events
                  = false
                  <-> Forall (fun e => dict_get e "event_type" PNone <> PStr "ZONE_EXIT") events).
  { induction events as [| e events IH]; simpl.
    - split; [constructor | done].
    - rewrite orb_false_iff, IH, Forall_cons. apply and_iff_compat_r.
      destruct (dict_get e "event_type" PNone); simpl;
        try (split; [congruence | done]).
      rewrite String.eqb_neq. split; congruence. }
  unfold fires, number_at. cbn [call_rule]. unfold _rule_r6_danger_no_exit, ge_num.
  set (has_exit := existsb _ events) in *. split.
  - intros (r & Hr & Htrig).
    destruct (eq_str (dict_get features "latest_zone_state" (PStr "")) "IN_DANGER")
      eqn:Hz; cbn [Py.bind] in Hr.
    + destruct (as_number (dict_get features "max_risk_timer" (PNum 0))) as [t |];
        [| discriminate]. cbn [Py.bind] in Hr. injection Hr as <-. simpl in Htrig.
      destruct (Qgeb_spec t 30); [| discriminate].
      split; [by apply Hzone |]. split; [by exists t |].
      apply Hexit. by destruct has_exit.
    + injection Hr as <-. discriminate.
  - intros (Hz & (t & -> & Ht) & Hno). apply Hzone in Hz. rewrite Hz. cbn [Py.bind].
    eexists. split; [reflexivity |]. simpl.
    destruct (Qgeb_spec t 30); [| contradiction]. apply Hexit in Hno. by rewrite Hno.
Qed.

(** X1.  Whatever the types of the other fields and whatever the other
    rules do, each identifier is in [triggered_rules] exactly when the
    predicate of its own rule holds of the fields it reads. *)
Theorem triggered_rules_characterised (features : pydict)
    (events : option (list pydict)) :
  let listed := (evaluate_rules features events).(triggered_rules) in
  (In "R1" listed <->
     exists t d, number_at features "max_risk_timer" = Some t /\ 60 <= t
                 /\ number_at features "danger_ratio" = Some d /\ 0.5 < d)
  /\ (In "R2" listed <-> exists p, number_at features "panic_count" = Some p /\ 0 < p)
  /\ (In "R3" listed <-> _has_rapid_transition (default [] events) 10 = Ok true)
  /\ (In "R4" listed <->
        exists z, number_at features "zone_transitions" = Some z /\ 3 <= z)
  /\ (In "R5" listed <->
        exists t, number_at features "max_risk_timer" = Some t /\ 120 <= t)
  /\ (In "R6" listed <->
        dict_get features "latest_zone_state" (PStr "") = PStr "IN_DANGER"
        /\ (exists t, number_at features "max_risk_timer" = Some t /\ 30 <= t)
        /\ Forall (fun e => dict_get e "event_type" PNone <> PStr "ZONE_EXIT")
                  (default [] events)).
Proof.
  cbn zeta. split; [| split; [| split; [| split; [| split]]]].
  - rewrite (listed_iff_rule_fires features events 0 _ ("R1", 0.8) eq_refl eq_refl).
    apply r1_fires.
  - rewrite (listed_iff_rule_fires features events 1 _ ("R2", 1.0) eq_refl eq_refl).
    apply r2_fires.
  - rewrite (listed_iff_rule_fires features events 2 _ ("R3", 0.7) eq_refl eq_refl).
    apply r3_fires.
  - rewrite (listed_iff_rule_fires features events 3 _ ("R4", 0.6) eq_refl eq_refl).
    apply threshold_rule_fires.
  - rewrite (listed_iff_rule_fires features events 4 _ ("R5", 0.9) eq_refl eq_refl).
    apply threshold_rule_fires.
  - rewrite (listed_iff_rule_fires features events 5 _ ("R6", 0.75) eq_refl eq_refl).
    apply r6_fires.
Qed.

Lemma run_rules_contains (features : pydict) (events : list pydict)
    (rules : list rule_fn) (rule : rule_fn) (r : RuleResult) :
  In rule rules -> call_rule rule features events = Ok r ->
  In r (run_rules rules features events []).
Proof.
  induction rules as [| rule0 rules IH]; [done |]. intros [-> | Hin] Hcall; cbn [run_rules].
  - rewrite Hcall, run_rules_acc. by left.
  - destruct (call_rule rule0 features events); [| by apply IH].
    rewrite run_rules_acc. right. by apply IH.
Qed.

(** Every result of a run carries the score of its table entry when
    triggered. *)
Lemma results_scored (features : pydict) (events : list pydict) :
  Forall (fun r => exists entry, In entry RULE_TABLE /\ r.(rule_id) = fst entry
                                 /\ r.(score) = (if r.(triggered) then snd entry else 0.0))
         (run_rules ALL_RULES features events []).
Proof.
  apply run_rules_Forall.
  pose proof (all_rules_score features events) as Hall.
  induction Hall as [| rule entry rules table Hrule _ IH]; constructor.
  - intros r Hr. exists entry. split; [by left | by apply Hrule].
  - eapply Forall_impl; [exact IH |]. intros rule' Hrule' r Hr.
    destruct (Hrule' r Hr) as (entry' & Hin & Hrest). exists entry'. split; [by right | done].
Qed.

Lemma table_score_bounds (entry : string * Q) :
  In entry RULE_TABLE -> 0.6 <= snd entry /\ snd entry <= 1.
Proof.
  unfold RULE_TABLE. simpl.
  intros Hin. repeat (destruct Hin as [<- | Hin]; [simpl; lra |]). contradiction.
Qed.

Lemma triggered_score_bounds (features : pydict) (events : list pydict) (r : RuleResult) :
  In r (triggered_results features events) -> 0.6 <= r.(score) /\ r.(score) <= 1.
Proof.
  unfold triggered_results. intros [Hin Htrig]%filter_In.
  pose proof (results_scored features events) as Hall. rewrite Forall_forall in Hall.
  destruct (Hall r) as (entry & Hentry & _ & Hscore); [by apply list_elem_of_In |].
  rewrite Hscore, Htrig. by apply table_score_bounds.
Qed.

(** The composite score in terms of the triggered results. *)
Lemma rule_score_of_results (features : pydict) (events : option (list pydict)) :
  (evaluate_rules features events).(rule_score)
  = match triggered_results features (default [] events) with
    | [] => 0.0
    | first :: others =>
        let m := max_of first.(score) (List.map score others) in
        if (2 <=? length (first :: others))%nat
        then py_min 1.0 (m + 0.1 * inject_Z (Z.of_nat (length (first :: others)) - 1))
        else m
    end.
Proof.
  unfold evaluate_rules, triggered_results. by destruct (List.filter _ _).
Qed.

Lemma severity_of_rule_score (features : pydict) (events : option (list pydict)) :
  (evaluate_rules features events).(severity)
  = classify_severity (evaluate_rules features events).(rule_score).
Proof.
  unfold evaluate_rules. by destruct (List.filter _ _).
Qed.

Lemma boost_nonnegative (n : nat) : 0 <= 0.1 * inject_Z (Z.of_nat (S n) - 1).
Proof.
  apply Qmult_le_0_compat; [lra |].
  change 0 with (inject_Z 0). rewrite <- Zle_Qle. lia.
Qed.

Lemma boost_positive (n : nat) : 0.1 <= 0.1 * inject_Z (Z.of_nat (S (S n)) - 1).
Proof.
  assert (H1 : 1 <= inject_Z (Z.of_nat (S (S n)) - 1)).
  { change 1 with (inject_Z 1). rewrite <- Zle_Qle. lia. }
  nra.
Qed.

(** With something triggered the composite score lies between the
    largest triggered score and 1. *)
Lemma composite_score_bounds (first : RuleResult) (others : list RuleResult) :
  (forall r, In r (first :: others) -> 0.6 <= r.(score) /\ r.(score) <= 1) ->
  forall c,
    c = (let m := max_of first.(score) (List.map score others) in
         if (2 <=? length (first :: others))%nat
         then py_min 1.0 (m + 0.1 * inject_Z (Z.of_nat (length (first :: others)) - 1))
         else m) ->
    0.6 <= c /\ c <= 1
    /\ forall r, In r (first :: others) -> r.(score) <= c \/ c == 1.
Proof.
  intros Hbounds c ->. cbn zeta.
  destruct (max_of_is_max first.(score) (List.map score others)) as [Hin Hub].
  set (m := max_of _ _) in *.
  assert (Hm : 0.6 <= m /\ m <= 1).
  { change (first.(score) :: List.map score others)
      with (List.map score (first :: others)) in Hin.
    apply in_map_iff in Hin as (r & <- & Hr). by apply Hbounds. }
  assert (Hle : forall r, In r (first :: others) -> r.(score) <= m).
  { intros r Hr. apply Hub.
    change (first.(score) :: List.map score others)
      with (List.map score (first :: others)). by apply in_map. }
  destruct others as [| second others]; cbn [length Nat.leb].
  - repeat split; try tauto. intros r Hr. left. by apply Hle.
  - pose proof (boost_positive (length others)) as Hboost.
    cbn [length] in Hle. unfold py_min.
    destruct (Qltb_spec (m + 0.1 * inject_Z (Z.of_nat (S (S (length others))) - 1)) 1.0).
    + repeat split; try lra. intros r Hr. left. specialize (Hle r Hr). lra.
    + repeat split; try lra. intros r Hr. right. reflexivity.
Qed.

(** Nothing triggered and score 0.0, or something triggered and a score
    in [0.6, 1]. *)
Lemma rule_score_cases (features : pydict) (events : option (list pydict)) :
  let out := evaluate_rules features events in
  (out.(triggered_rules) = [] /\ out.(rule_score) = 0.0)
  \/ (out.(triggered_rules) <> [] /\ 0.6 <= out.(rule_score) /\ out.(rule_score) <= 1).
Proof.
  cbn zeta. rewrite rule_score_of_results, triggered_rules_of_results.
  pose proof (triggered_score_bounds features (default [] events)) as Hbounds.
  destruct (triggered_results features (default [] events)) as [| first others].
  - by left.
  - right. split; [discriminate |].
    destruct (composite_score_bounds first others Hbounds _ eq_refl) as (Hlo & Hhi & _).
    by split.
Qed.

(** X2.  The composite rule score is 0 with severity LOW when nothing
    is triggered, and otherwise lies in [0.6, 1] with severity HIGH or
    CRITICAL: the rule engine never reports MEDIUM.  No identifier is
    listed twice. *)
Theorem rule_score_range (features : pydict) (events : option (list pydict)) :
  let out := evaluate_rules features events in
  NoDup out.(triggered_rules)
  /\ ((out.(triggered_rules) = [] /\ out.(rule_score) == 0 /\ out.(severity) = "LOW")
      \/ (out.(triggered_rules) <> []
          /\ 0.6 <= out.(rule_score) /\ out.(rule_score) <= 1
          /\ (out.(severity) = "HIGH" \/ out.(severity) = "CRITICAL"))).
Proof.
  cbn zeta. split.
  - rewrite triggered_rules_of_results. unfold triggered_results.
    destruct (run_rules_in_order features (default [] events) _ _
                (all_rules_answer features (default [] events))) as [Horder _].
    apply (sublist_NoDup _ Spec.RULE_ORDER).
    + apply (bool_decide_unpack _). vm_compute. reflexivity.
    + etrans; [apply filter_map_sublist | exact Horder].
  - rewrite severity_of_rule_score.
    destruct (rule_score_cases features events) as [[Hnone Hzero] | (Hsome & Hlo & Hhi)].
    + left. rewrite Hzero. repeat split; auto.
    + right. repeat split; auto.
      unfold classify_severity. compare_numbers; try lra; auto.
Qed.

(** X3.  A pressed panic button decides the rule engine: whatever the
    other fields and rules, the score is 1 and the severity CRITICAL. *)
Theorem panic_scores_critical (features : pydict) (events : option (list pydict)) (p : Q) :
  number_at features "panic_count" = Some p -> 0 < p ->
  let out := evaluate_rules features events in
  In "R2" out.(triggered_rules)
  /\ out.(rule_score) == 1
  /\ out.(severity) = "CRITICAL".
Proof.
  intros Hp Hpos. cbn zeta.
  assert (Hfires : fires features (default [] events) (OnFeatures _rule_r2_panic))
    by (apply r2_fires; eauto).
  split.
  { rewrite (listed_iff_rule_fires features events 1 _ ("R2", 1.0) eq_refl eq_refl).
    exact Hfires. }
  destruct Hfires as (r & Hcall & Htrig).
  assert (Hin : In r (triggered_results features (default [] events))).
  { unfold triggered_results. apply filter_In. split; [| exact Htrig].
    eapply run_rules_contains; [| exact Hcall]. unfold ALL_RULES. simpl. tauto. }
  assert (Hscore : r.(score) = 1.0).
  { pose proof Hcall as Hc. cbn [call_rule] in Hc. unfold _rule_r2_panic in Hc.
    apply bind_Ok in Hc as (b & _ & Hc). injection Hc as Hc. subst r.
    simpl in Htrig. simpl. by rewrite Htrig. }
  assert (Hone : (evaluate_rules features events).(rule_score) == 1).
  { rewrite rule_score_of_results.
    pose proof (triggered_score_bounds features (default [] events)) as Hbounds.
    destruct (triggered_results features (default [] events)) as [| first others];
      [contradiction |].
    destruct (composite_score_bounds first others Hbounds _ eq_refl) as (Hlo & Hhi & Hmax).
    cbn zeta in *. destruct (Hmax r Hin) as [Hle | Heq]; [| exact Heq].
    rewrite Hscore in Hle. lra. }
  split; [exact Hone |].
  rewrite severity_of_rule_score. unfold classify_severity.
  destruct (Qgeb_spec (evaluate_rules features events).(rule_score) 0.8); [done | lra].
Qed.

End RuleTable.

Lemma panic_scores_critical_witness :
  let features : pydict := {[ "panic_count" := PNum 1 ]} in
  number_at features "panic_count" = Some 1 /\ 0 < 1
  /\ (RuleEngine.evaluate_rules (H := Reference.platform) features None).(RuleEngine.severity)
     = "CRITICAL".
Proof.
  intros features.
  assert (Hp : number_at features "panic_count" = Some 1) by reflexivity.
  assert (Hpos : 0 < 1) by reflexivity.
  split; [exact Hp |]. split; [exact Hpos |].
  apply (panic_scores_critical (H := Reference.platform) features None 1 Hp Hpos).
Defined.


(* ===================================================================== *)
(** * Further properties of the fusion and of one tourist's analysis      *)
(* ===================================================================== *)

(** X4.  The four conditions of the concordance exclude one another, so
    each label holds on its own region of the two scores whatever the
    order of the tests, and CONFLICT on the rest: a rule score between
    0.2 and 0.5, or an anomaly score between the bounds of the labels. *)
Theorem concordance_regions (rule_score anomaly_score : Q) :
  let label := HybridFusion._determine_concordance rule_score anomaly_score in
  (label = "AGREE_HIGH" <-> 0.5 < rule_score /\ 0.5 < anomaly_score)
  /\ (label = "AGREE_LOW" <-> rule_score < 0.2 /\ anomaly_score < 0.3)
  /\ (label = "RULE_ONLY" <-> 0.5 < rule_score /\ anomaly_score < 0.3)
  /\ (label = "ML_ONLY" <-> rule_score < 0.2 /\ 0.7 < anomaly_score)
  /\ (label = "CONFLICT" <->
        (0.2 <= rule_score /\ rule_score <= 0.5)
        \/ (rule_score < 0.2 /\ 0.3 <= anomaly_score /\ anomaly_score <= 0.7)
        \/ (0.5 < rule_score /\ 0.3 <= anomaly_score /\ anomaly_score <= 0.5)).
Proof.
  cbn zeta. unfold HybridFusion._determine_concordance.
  compare_numbers; cbn [andb];
    (split; [| split; [| split; [| split]]]);
    (split; [try discriminate; intros _; try lra | intros Hregion; try reflexivity; try lra]).
  all: try (exfalso; lra).
  all: try (left; lra).
  all: try (right; left; lra).
  all: try (right; right; lra).
Qed.

(** Case analysis on the comparisons of the goal from the inside out:
    a comparison is decided once its operands hold no conditional. *)
Ltac plain t :=
  lazymatch t with
  | context [if _ then _ else _] => fail
  | _ => idtac
  end.

Ltac compare_inside_out :=
  repeat match goal with
  | |- context [Qgeb ?a ?b] => plain a; plain b; destruct (Qgeb_spec a b)
  | |- context [Qgtb ?a ?b] => plain a; plain b; destruct (Qgtb_spec a b)
  | |- context [Qltb ?a ?b] => plain a; plain b; destruct (Qltb_spec a b)
  | |- context [Qleb ?a ?b] => plain a; plain b; destruct (Qleb_spec a b)
  end.

(** The alert decision at the default threshold. *)
Lemma meets_medium (h : Q) :
  HybridFusion.severity_meets_threshold (HybridFusion.classify_severity h) "MEDIUM"
  = Ok (Qgeb h 0.3).
Proof.
  unfold HybridFusion.classify_severity.
  compare_numbers; try reflexivity; exfalso; lra.
Qed.

Lemma fusion_at_defaults (rule_score anomaly_score : Q) :
  exists r,
    HybridFusion.compute_hybrid_score rule_score anomaly_score 0.6 0.4 "MEDIUM" = Ok r
    /\ r.(HybridFusion.rule_score) = rule_score
    /\ r.(HybridFusion.anomaly_score) = anomaly_score
    /\ r.(HybridFusion.severity) = HybridFusion.classify_severity r.(HybridFusion.hybrid_score)
    /\ r.(HybridFusion.should_alert) = Qgeb r.(HybridFusion.hybrid_score) 0.3
    /\ (0 <= anomaly_score -> 0.5 <= rule_score -> 0.3 <= r.(HybridFusion.hybrid_score))
    /\ (anomaly_score <= 1 -> rule_score == 0 -> r.(HybridFusion.hybrid_score) < 0.3)
    /\ (anomaly_score == 0 -> rule_score <= 1 -> r.(HybridFusion.hybrid_score) <= 0.6).
Proof.
  unfold HybridFusion.compute_hybrid_score. rewrite meets_medium. cbn [Py.bind].
  eexists. split; [reflexivity |]. cbn. repeat split.
  - intros Hms Hrs. unfold HybridFusion._determine_concordance.
    compare_numbers; cbn [andb String.eqb Ascii.eqb Bool.eqb];
      unfold py_max, py_min; compare_inside_out; lra.
  - intros Hms Hrs. unfold HybridFusion._determine_concordance.
    compare_numbers; cbn [andb String.eqb Ascii.eqb Bool.eqb];
      unfold py_max, py_min; compare_inside_out; lra.
  - intros Hms Hrs. unfold HybridFusion._determine_concordance.
    compare_numbers; cbn [andb String.eqb Ascii.eqb Bool.eqb];
      unfold py_max, py_min; compare_inside_out; lra.
Qed.

(** X5.  With the default weights 0.6 and 0.4 and the default threshold
    MEDIUM, the anomaly score in [0, 1] neither raises an alert on its own
    nor takes one away: a rule score of at least 0.5 always alerts, a rule
    score of 0 never does. *)
Theorem rules_decide_alert (rule_score anomaly_score : Q) :
  0 <= anomaly_score -> anomaly_score <= 1 ->
  exists r,
    HybridFusion.compute_hybrid_score rule_score anomaly_score 0.6 0.4 "MEDIUM" = Ok r
    /\ (0.5 <= rule_score -> r.(HybridFusion.should_alert) = true)
    /\ (rule_score == 0 ->
        r.(HybridFusion.should_alert) = false /\ r.(HybridFusion.severity) = "LOW").
Proof.
  intros Hlo Hhi.
  destruct (fusion_at_defaults rule_score anomaly_score)
    as (r & Hr & _ & _ & Hsev & Halert & Hfloor & Hquiet & _).
  exists r. split; [exact Hr |]. rewrite Halert, Hsev. split.
  - intros Hrs. specialize (Hfloor Hlo Hrs). by destruct (Qgeb_spec r.(HybridFusion.hybrid_score) 0.3).
  - intros Hrs. specialize (Hquiet Hhi Hrs). unfold HybridFusion.classify_severity.
    compare_numbers; try lra. by split.
Qed.

Lemma rules_decide_alert_witness :
  0 <= 0.9 /\ 0.9 <= 1
  /\ exists r,
       HybridFusion.compute_hybrid_score 0 0.9 0.6 0.4 "MEDIUM" = Ok r
       /\ r.(HybridFusion.should_alert) = false.
Proof.
  assert (Hlo : 0 <= 0.9) by (vm_compute; discriminate).
  assert (Hhi : 0.9 <= 1) by (vm_compute; discriminate).
  split; [exact Hlo |]. split; [exact Hhi |].
  destruct (rules_decide_alert 0 0.9 Hlo Hhi) as (r & Hr & _ & Hquiet).
  exists r. split; [exact Hr |]. apply Hquiet. reflexivity.
Defined.

Lemma index_unknown (t : string) :
  ~ In t HybridFusion.SEVERITY_LEVELS ->
  Py.index t HybridFusion.SEVERITY_LEVELS = Raise ValueError.
Proof.
  intros Hnot. unfold HybridFusion.SEVERITY_LEVELS in *. cbn [Py.index].
  destruct (String.eqb_spec "LOW" t); [exfalso; apply Hnot; simpl; tauto |].
  destruct (String.eqb_spec "MEDIUM" t); [exfalso; apply Hnot; simpl; tauto |].
  destruct (String.eqb_spec "HIGH" t); [exfalso; apply Hnot; simpl; tauto |].
  destruct (String.eqb_spec "CRITICAL" t); [exfalso; apply Hnot; simpl; tauto |].
  reflexivity.
Qed.

Lemma fusion_unknown_threshold (rule_score anomaly_score w_r w_m : Q) (t : string) :
  ~ In t HybridFusion.SEVERITY_LEVELS ->
  HybridFusion.compute_hybrid_score rule_score anomaly_score w_r w_m t = Raise ValueError.
Proof.
  intros Hnot. unfold HybridFusion.compute_hybrid_score, HybridFusion.severity_meets_threshold.
  destruct (index_is_rank _ (classify_is_level
              (py_max 0.0 (py_min 1.0
                 (if String.eqb (HybridFusion._determine_concordance rule_score anomaly_score)
                                "AGREE_HIGH"
                  then py_min 1.0 (w_r * rule_score + w_m * anomaly_score + 0.1)
                  else if String.eqb (HybridFusion._determine_concordance rule_score anomaly_score)
                                     "ML_ONLY"
                  then (w_r * rule_score + w_m * anomaly_score) * 0.7
                  else w_r * rule_score + w_m * anomaly_score)))))
    as (i & -> & _).
  cbn [Py.bind]. by rewrite (index_unknown t Hnot).
Qed.

Section OneTourist.
Context `{Platform}.

(** X6.  An [alert_severity_threshold] that is not one of the four
    labels (a lower-case "medium", say) is found only when a score is
    compared with it: the fusion raises [ValueError] for every pair of
    scores, and so does the analysis of every tourist whose features
    could be enriched. *)
Theorem unknown_threshold_raises (t : string) :
  ~ In t HybridFusion.SEVERITY_LEVELS ->
  (forall rule_score anomaly_score w_r w_m,
     HybridFusion.compute_hybrid_score rule_score anomaly_score w_r w_m t
     = Raise ValueError)
  /\ (forall detector window w_r w_m now agg_row raw_events tid f,
        dict_item agg_row "tourist_id" = Ok tid ->
        FeatureEngineer.enrich_features agg_row raw_events 120.0 = Ok f ->
        Main._analyze_single_tourist detector
          {| Main.feature_window_minutes := window;
             Main.rule_weight := w_r;
             Main.ml_weight := w_m;
             Main.alert_severity_threshold := t |} now agg_row raw_events
        = Raise ValueError).
Proof.
  intros Hnot. split.
  - intros. by apply fusion_unknown_threshold.
  - intros detector window w_r w_m now agg_row raw_events tid f Htid Hf.
    unfold Main._analyze_single_tourist. rewrite Htid, Hf. cbn [Py.bind].
    cbn [Main.rule_weight Main.ml_weight Main.alert_severity_threshold].
    by rewrite fusion_unknown_threshold.
Qed.

End OneTourist.

Lemma unknown_threshold_raises_witness :
  ~ In "medium" HybridFusion.SEVERITY_LEVELS
  /\ HybridFusion.compute_hybrid_score 1.0 0.0 0.6 0.4 "medium" = Raise ValueError.
Proof.
  assert (Hnot : ~ In "medium" HybridFusion.SEVERITY_LEVELS).
  { unfold HybridFusion.SEVERITY_LEVELS. simpl.
    intros [Heq | [Heq | [Heq | [Heq | []]]]]; discriminate Heq. }
  split; [exact Hnot |].
  apply (proj1 (unknown_threshold_raises (H := Reference.platform) "medium" Hnot)).
Defined.

Section OneTouristAtDefaults.
Context `{Platform}.

Lemma predict_bounds (d : IsolationForest.AnomalyDetector) (features : gmap string Q) :
  0 <= IsolationForest.predict d features /\ IsolationForest.predict d features <= 1.
Proof.
  unfold IsolationForest.predict. destruct (IsolationForest.model d); [| lra].
  apply np_clip_bounds.
Qed.

Lemma ml_score_bounds (detector : option IsolationForest.AnomalyDetector)
    (features : gmap string Q) :
  let ml_score := match detector with
                  | Some d => IsolationForest.predict d features
                  | None => 0.0
                  end in
  0 <= ml_score /\ ml_score <= 1.
Proof. cbn zeta. destruct detector; [apply predict_bounds | lra]. Qed.

(** What an alert of one tourist's analysis was made from. *)
Lemma analysis_alert (detector : option IsolationForest.AnomalyDetector)
    (settings : Main.Settings) (now : string) (agg_row : pydict)
    (raw_events : list pydict) (alert : Main.Alert) :
  Main._analyze_single_tourist detector settings now agg_row raw_events = Ok (Some alert) ->
  exists tid f fusion,
    agg_row !! "tourist_id" = Some tid
    /\ FeatureEngineer.enrich_features agg_row raw_events 120.0 = Ok f
    /\ HybridFusion.compute_hybrid_score
         (RuleEngine.evaluate_rules (PNum <$> f) (Some raw_events)).(RuleEngine.rule_score)
         (match detector with
          | Some d => IsolationForest.predict d f
          | None => 0.0
          end)
         settings.(Main.rule_weight) settings.(Main.ml_weight)
         settings.(Main.alert_severity_threshold) = Ok fusion
    /\ fusion.(HybridFusion.should_alert) = true
    /\ alert.(Main.tourist_id) = tid
    /\ alert.(Main.severity) = fusion.(HybridFusion.severity)
    /\ alert.(Main.anomaly_score) = Py.round fusion.(HybridFusion.anomaly_score) 4
    /\ alert.(Main.triggered_rules)
       = (RuleEngine.evaluate_rules (PNum <$> f) (Some raw_events)).(RuleEngine.triggered_rules).
Proof.
  unfold Main._analyze_single_tourist, dict_item. intros Halert.
  destruct (agg_row !! "tourist_id") as [tid |]; [| discriminate].
  cbn [Py.bind] in Halert.
  apply bind_Ok in Halert as (f & Hf & Halert).
  apply bind_Ok in Halert as (fusion & Hfusion & Halert).
  destruct (HybridFusion.should_alert fusion) eqn:Hshould; [| discriminate].
  injection Halert as <-. exists tid, f, fusion. repeat split; auto.
Qed.

(** X7.  With the default settings the rules alone decide whether a
    tourist is alerted, with or without a model: the analysis of a row
    whose features could be enriched returns an alert exactly when some
    rule triggered, and the alert lists those rules. *)
Theorem alert_iff_rule_triggered (detector : option IsolationForest.AnomalyDetector)
    (now : string) (agg_row : pydict) (raw_events : list pydict)
    (tid : pyval) (f : gmap string Q) :
  agg_row !! "tourist_id" = Some tid ->
  FeatureEngineer.enrich_features agg_row raw_events 120.0 = Ok f ->
  let listed :=
    (RuleEngine.evaluate_rules (PNum <$> f) (Some raw_events)).(RuleEngine.triggered_rules) in
  exists result,
    Main._analyze_single_tourist detector Main.settings now agg_row raw_events = Ok result
    /\ (listed = [] -> result = None)
    /\ (listed <> [] ->
        exists alert, result = Some alert
                      /\ alert.(Main.tourist_id) = tid
                      /\ alert.(Main.triggered_rules) = listed).
Proof.
  intros Htid Hf. cbn zeta.
  unfold Main._analyze_single_tourist, dict_item. rewrite Htid, Hf. cbn [Py.bind].
  cbn [Main.settings Main.rule_weight Main.ml_weight Main.alert_severity_threshold].
  set (out := RuleEngine.evaluate_rules (PNum <$> f) (Some raw_events)).
  set (ml_score := match detector with
                   | Some d => IsolationForest.predict d f
                   | None => 0.0
                   end).
  destruct (ml_score_bounds detector f) as [Hlo Hhi]. fold ml_score in Hlo, Hhi.
  destruct (fusion_at_defaults out.(RuleEngine.rule_score) ml_score)
    as (r & -> & _ & _ & _ & Halert & Hfloor & Hquiet & _).
  cbn [Py.bind]. rewrite Halert.
  pose proof (rule_score_cases (PNum <$> f) (Some raw_events)) as Hcases.
  cbn zeta in Hcases. fold out in Hcases.
  destruct Hcases as [[Hnone Hzero] | (Hsome & Hrs & _)].
  - assert (Hh : r.(HybridFusion.hybrid_score) < 0.3)
      by (apply Hquiet; [exact Hhi | rewrite Hzero; reflexivity]).
    destruct (Qgeb_spec r.(HybridFusion.hybrid_score) 0.3); [lra |].
    cbn [negb]. exists None. split; [reflexivity |]. split; [done | congruence].
  - assert (Hh : 0.3 <= r.(HybridFusion.hybrid_score)) by (apply Hfloor; lra).
    destruct (Qgeb_spec r.(HybridFusion.hybrid_score) 0.3); [| lra].
    cbn [negb]. eexists. split; [reflexivity |]. split; [congruence |].
    intros _. eexists. split; [reflexivity |]. by split.
Qed.

(** X8.  Without a loaded model and with the default settings no alert
    is CRITICAL: the fused score is 0.6 times the rule score, so an alert
    is MEDIUM or HIGH and carries an anomaly score of 0. *)
Theorem no_model_caps_severity (detector : option IsolationForest.AnomalyDetector)
    (now : string) (agg_row : pydict) (raw_events : list pydict) (alert : Main.Alert) :
  match detector with
  | Some d => d.(IsolationForest.model) = None
  | None => True
  end ->
  Main._analyze_single_tourist detector Main.settings now agg_row raw_events
    = Ok (Some alert) ->
  (alert.(Main.severity) = "MEDIUM" \/ alert.(Main.severity) = "HIGH")
  /\ alert.(Main.anomaly_score) == 0.
Proof.
  intros Hmodel Halert.
  apply analysis_alert in Halert
    as (tid & f & fusion & _ & _ & Hfusion & Hshould & _ & -> & -> & _).
  cbn [Main.settings Main.rule_weight Main.ml_weight Main.alert_severity_threshold]
    in Hfusion.
  assert (Hml : match detector with
                | Some d => IsolationForest.predict d f
                | None => 0.0
                end = 0.0).
  { destruct detector as [d |]; [| reflexivity].
    unfold IsolationForest.predict. by rewrite Hmodel. }
  rewrite Hml in Hfusion.
  set (out := RuleEngine.evaluate_rules (PNum <$> f) (Some raw_events)) in *.
  destruct (fusion_at_defaults out.(RuleEngine.rule_score) 0.0)
    as (r & Hr & _ & Hanomaly & Hsev & Halert & _ & _ & Hcap).
  rewrite Hr in Hfusion. injection Hfusion as <-.
  rewrite Halert in Hshould.
  assert (Hrs : out.(RuleEngine.rule_score) <= 1).
  { pose proof (rule_score_cases (PNum <$> f) (Some raw_events)) as Hcases.
    cbn zeta in Hcases. fold out in Hcases.
    destruct Hcases as [[_ Hzero] | (_ & _ & Hle)]; [rewrite Hzero |]; lra. }
  assert (Hh : r.(HybridFusion.hybrid_score) <= 0.6) by (apply Hcap; [reflexivity | exact Hrs]).
  split.
  - rewrite Hsev. unfold HybridFusion.classify_severity.
    destruct (Qgeb_spec r.(HybridFusion.hybrid_score) 0.3); [| discriminate].
    compare_numbers; try lra; auto.
  - rewrite Hanomaly. reflexivity.
Qed.

End OneTouristAtDefaults.

(* ===================================================================== *)
(** * Further properties of the analysis driver                           *)
(* ===================================================================== *)

Section CycleFacts.
Context `{Platform}.
Context (detector : option IsolationForest.AnomalyDetector).
Context (cfg : Main.Settings).
Context (svc : Main.SupabaseService) (clock : nat -> string).
Import Main.

(** The loop only appends to what the cycle has written. *)
Lemma analyze_rows_appends (rows : list pydict) (i : nat) (inserted : list Alert) :
  exists new,
    snd (analyze_rows detector cfg svc clock i rows inserted) = (inserted ++ new)%list
    /\ (length new <= length (List.filter has_tourist_id rows))%nat
    /\ Forall (fun alert => exists row, In row rows /\ has_tourist_id row = true
                                        /\ row !! "tourist_id" = Some alert.(tourist_id))
              new.
Proof.
  revert i inserted. induction rows as [| row rows IH]; intros i inserted.
  - exists []. by rewrite app_nil_r.
  - cbn [analyze_rows List.filter]. fold (has_tourist_id row).
    assert (Hweaken : forall new : list Alert,
               Forall (fun alert => exists row', In row' rows /\ has_tourist_id row' = true
                                                 /\ row' !! "tourist_id" = Some alert.(tourist_id)) new ->
               Forall (fun alert => exists row', In row' (row :: rows)
                                                 /\ has_tourist_id row' = true
                                                 /\ row' !! "tourist_id" = Some alert.(tourist_id)) new).
    { intros new Hall. eapply Forall_impl; [exact Hall |]. intros alert (row' & Hin & Hrest).
      exists row'. split; [by right | done]. }
    destruct (has_tourist_id row) eqn:Hid; cbn [negb].
    + destruct (_analyze_single_tourist _ _ _ _ _) as [[alert |] | e] eqn:Hanalysis.
      * destruct (IH (S i) (inserted ++ [alert])%list) as (new & -> & Hlen & Hall).
        exists (alert :: new). rewrite <- app_assoc. split; [done |]. split; [simpl; lia |].
        constructor; [| by apply Hweaken].
        apply analysis_alert in Hanalysis as (tid & _ & _ & Htid & _ & _ & _ & <- & _).
        exists row. repeat split; auto. by left.
      * destruct (IH (S i) inserted) as (new & -> & Hlen & Hall).
        exists new. split; [done |]. split; [simpl; lia | by apply Hweaken].
      * exists []. rewrite app_nil_r. split; [done |]. split; [simpl; lia | constructor].
    + destruct (IH (S i) inserted) as (new & -> & Hlen & Hall).
      exists new. split; [done |]. split; [lia | by apply Hweaken].
Qed.

(** X9.  Whatever happens in a cycle, what it writes comes from the rows
    of the store: at most one alert for each row that has a tourist
    identifier, none for the others, each under the identifier of its
    row.  Without a service or with no rows the cycle returns at once
    and writes nothing. *)
Theorem cycle_alerts_come_from_rows :
  let written := snd (analyze_all_tourists detector cfg (Some svc) clock) in
  (length written <= length (List.filter has_tourist_id svc.(get_aggregated_features)))%nat
  /\ Forall (fun alert =>
               exists row, In row svc.(get_aggregated_features)
                           /\ has_tourist_id row = true
                           /\ row !! "tourist_id" = Some alert.(tourist_id))
            written
  /\ analyze_all_tourists detector cfg None clock = (Ok tt, [])
  /\ (svc.(get_aggregated_features) = [] ->
      analyze_all_tourists detector cfg (Some svc) clock = (Ok tt, [])).
Proof.
  cbn zeta. unfold analyze_all_tourists.
  destruct (analyze_rows_appends svc.(get_aggregated_features) 0 [])
    as (new & Hnew & Hlen & Hall).
  destruct (get_aggregated_features svc) as [| row rows] eqn:Hrows.
  - simpl. repeat split; auto.
  - rewrite Hnew. simpl. repeat split; auto. discriminate.
Qed.

Lemma analyze_rows_app (before after : list pydict) (i : nat) (inserted : list Alert) :
  analyze_rows detector cfg svc clock i (before ++ after) inserted
  = match analyze_rows detector cfg svc clock i before inserted with
    | (Ok _, inserted') =>
        analyze_rows detector cfg svc clock (i + length before) after inserted'
    | (Raise e, inserted') => (Raise e, inserted')
    end.
Proof.
  revert i inserted. induction before as [| row before IH]; intros i inserted.
  - simpl. by rewrite Nat.add_0_r.
  - cbn [app analyze_rows length]. rewrite Nat.add_succ_r, <- Nat.add_succ_l.
    destruct (negb _); [apply IH |].
    destruct (_analyze_single_tourist _ _ _ _ _) as [[alert |] | e]; [apply IH | apply IH | done].
Qed.

(** X10.  The loop has no handler.  When the rows before a tourist are
    analysed without an exception and the analysis of that tourist
    raises, the cycle raises the same exception: the alerts written so
    far stay, and the rows after it are not analysed, whatever they
    are. *)
Theorem cycle_stops_at_first_failure (before after : list pydict) (bad : pydict)
    (e : exn) (written : list Alert) :
  svc.(get_aggregated_features) = (before ++ bad :: after)%list ->
  analyze_rows detector cfg svc clock 0 before [] = (Ok tt, written) ->
  has_tourist_id bad = true ->
  _analyze_single_tourist detector cfg (clock (length before)) bad
    (svc.(get_recent_events) (dict_get bad "tourist_id" PNone)
       cfg.(feature_window_minutes)) = Raise e ->
  analyze_all_tourists detector cfg (Some svc) clock = (Raise e, written).
Proof.
  intros Hrows Hbefore Hid Hraise. unfold analyze_all_tourists. rewrite Hrows.
  assert (Hloop : analyze_rows detector cfg svc clock 0 (before ++ bad :: after) []
                  = (Raise e, written)).
  { rewrite analyze_rows_app, Hbefore. cbn [Nat.add analyze_rows].
    fold (has_tourist_id bad). rewrite Hid. cbn [negb]. by rewrite Hraise. }
  rewrite <- Hloop. by destruct before.
Qed.

End CycleFacts.

Section CycleAtDefaults.
Context `{Platform}.
Context (detector : option IsolationForest.AnomalyDetector).
Context (svc : Main.SupabaseService) (clock : nat -> string).
Import Main.

(** What holds of every alert of an analysis holds of every alert the
    loop writes. *)
Lemma analyze_rows_Forall (cfg : Settings) (P : Alert -> Prop) (rows : list pydict)
    (i : nat) (inserted : list Alert) :
  (forall now agg_row raw_events alert,
      _analyze_single_tourist detector cfg now agg_row raw_events = Ok (Some alert) ->
      P alert) ->
  Forall P inserted ->
  Forall P (analyze_rows detector cfg svc clock i rows inserted).2.
Proof.
  intros Hanalysis. revert i inserted.
  induction rows as [| row rows IH]; intros i inserted Hinserted; [done |].
  cbn [analyze_rows]. destruct (negb _); [by apply IH |].
  destruct (_analyze_single_tourist _ _ _ _ _) as [[alert |] | e] eqn:Halert.
  - apply IH. apply Forall_app. split; [done |]. constructor; [| constructor].
    by eapply Hanalysis.
  - by apply IH.
  - done.
Qed.

(** X21.  With the default settings no cycle alerts a tourist without
    cause, with or without a model and whatever the model says: every
    alert written lists at least one triggered rule, and its severity is
    MEDIUM, HIGH or CRITICAL. *)
Theorem cycle_alerts_have_cause :
  Forall (fun alert =>
            alert.(triggered_rules) <> []
            /\ (alert.(severity) = "MEDIUM" \/ alert.(severity) = "HIGH"
                \/ alert.(severity) = "CRITICAL"))
         (analyze_all_tourists detector Main.settings (Some svc) clock).2.
Proof.
  unfold analyze_all_tourists.
  assert (Hloop : forall rows,
             Forall (fun alert =>
                       alert.(triggered_rules) <> []
                       /\ (alert.(severity) = "MEDIUM" \/ alert.(severity) = "HIGH"
                           \/ alert.(severity) = "CRITICAL"))
                    (analyze_rows detector Main.settings svc clock 0 rows []).2).
  { intros rows. apply analyze_rows_Forall; [| constructor].
    intros now agg_row raw_events alert Halert.
    apply analysis_alert in Halert
      as (tid & f & fusion & _ & _ & Hfusion & Hshould & _ & -> & _ & ->).
    cbn [Main.settings rule_weight ml_weight alert_severity_threshold] in Hfusion.
    set (out := RuleEngine.evaluate_rules (PNum <$> f) (Some raw_events)) in *.
    set (ml_score := match detector with
                     | Some d => IsolationForest.predict d f
                     | None => 0.0
                     end) in *.
    destruct (ml_score_bounds detector f) as [_ Hhi]. fold ml_score in Hhi.
    destruct (fusion_at_defaults out.(RuleEngine.rule_score) ml_score)
      as (r & Hr & _ & _ & Hsev & Hmeets & _ & Hquiet & _).
    rewrite Hr in Hfusion. injection Hfusion as <-.
    rewrite Hmeets in Hshould.
    destruct (Qgeb_spec r.(HybridFusion.hybrid_score) 0.3) as [Hh |]; [| discriminate].
    split.
    - pose proof (rule_score_cases (PNum <$> f) (Some raw_events)) as Hcases.
      cbn zeta in Hcases. fold out in Hcases.
      destruct Hcases as [[_ Hzero] | [Hsome _]]; [| exact Hsome].
      assert (r.(HybridFusion.hybrid_score) < 0.3)
        by (apply Hquiet; [exact Hhi | rewrite Hzero; reflexivity]).
      lra.
    - rewrite Hsev. unfold HybridFusion.classify_severity.
      compare_numbers; try lra; auto. }
  destruct (get_aggregated_features svc) as [| row rows]; [constructor |]. apply Hloop.
Qed.

End CycleAtDefaults.

Lemma alert_iff_rule_triggered_witness :
  exists f result,
    Sample.panic_row !! "tourist_id" = Some (PStr "t2")
    /\ FeatureEngineer.enrich_features (H := Reference.platform) Sample.panic_row [] 120.0 = Ok f
    /\ Main._analyze_single_tourist (H := Reference.platform) None Main.settings
         "2026-01-01T12:00:30+00:00" Sample.panic_row [] = Ok result.
Proof.
  assert (Htid : Sample.panic_row !! "tourist_id" = Some (PStr "t2")) by reflexivity.
  set (enriched := FeatureEngineer.enrich_features (H := Reference.platform)
                     Sample.panic_row [] 120.0).
  assert (Hreturns : match enriched with Ok _ => True | Raise _ => False end)
    by (vm_compute; exact I).
  destruct enriched as [f |] eqn:Hf; [| contradiction].
  destruct (alert_iff_rule_triggered (H := Reference.platform) None
              "2026-01-01T12:00:30+00:00" Sample.panic_row [] (PStr "t2") f Htid Hf)
    as (result & Hresult & _).
  exists f, result. auto.
Defined.

Lemma no_model_caps_severity_witness :
  exists alert,
    Main._analyze_single_tourist (H := Reference.platform) None Main.settings
      "2026-01-01T12:00:30+00:00" Sample.panic_row [] = Ok (Some alert)
    /\ (alert.(Main.severity) = "MEDIUM" \/ alert.(Main.severity) = "HIGH").
Proof.
  set (analysis := Main._analyze_single_tourist (H := Reference.platform) None Main.settings
                     "2026-01-01T12:00:30+00:00" Sample.panic_row []).
  assert (Halerts : match analysis with Ok (Some _) => True | _ => False end)
    by (vm_compute; exact I).
  destruct analysis as [[alert |] |] eqn:Hanalysis; try contradiction.
  exists alert. split; [reflexivity |].
  apply (no_model_caps_severity (H := Reference.platform) None
           "2026-01-01T12:00:30+00:00" Sample.panic_row [] alert I Hanalysis).
Defined.

Lemma cycle_stops_at_first_failure_witness :
  Main.analyze_all_tourists (H := Reference.platform) None Main.settings
    (Some (Sample.store [Sample.panic_row; Sample.malformed_row; Sample.panic_row]))
    Sample.clock
  = (Raise ValueError,
     snd (Main.analyze_rows (H := Reference.platform) None Main.settings
            (Sample.store [Sample.panic_row; Sample.malformed_row; Sample.panic_row])
            Sample.clock 0 [Sample.panic_row] [])).
Proof.
  apply (cycle_stops_at_first_failure (H := Reference.platform) None Main.settings
           (Sample.store [Sample.panic_row; Sample.malformed_row; Sample.panic_row])
           Sample.clock [Sample.panic_row] [Sample.panic_row] Sample.malformed_row).
  - reflexivity.
  - set (loop := Main.analyze_rows _ _ _ _ _ _ _).
    assert (Hok : fst loop = Ok tt) by (vm_compute; reflexivity).
    destruct loop as [outcome written]. simpl in *. by subst.
  - reflexivity.
  - vm_compute. reflexivity.
Defined.

(* ===================================================================== *)
(** * Batch inference and the endpoints                                   *)
(* ===================================================================== *)

Section BatchFacts.
Context `{Platform}.
Import IsolationForest IsolationForestBatch.

Lemma sigmoid_bounds (raw_score steepness : Q) :
  0 <= _sigmoid_normalise raw_score steepness /\ _sigmoid_normalise raw_score steepness <= 1.
Proof. unfold _sigmoid_normalise. apply np_clip_bounds. Qed.


End BatchFacts.

Section EndpointFacts.
Context `{Platform}.
Context (detector : option IsolationForest.AnomalyDetector).
Context (cfg : Main.Settings).
Import Endpoints.

Lemma eq_str_tourist (tourist : string) (agg_row : pydict) :
  eq_str (dict_get agg_row "tourist_id" PNone) tourist = true
  <-> row_of_tourist tourist agg_row.
Proof.
  unfold row_of_tourist, dict_get.
  destruct (agg_row !! "tourist_id") as [[| b | q | s] |]; simpl; try (split; [discriminate | congruence]).
  destruct (String.eqb_spec s tourist) as [-> | Hne]; split; try done; congruence.
Qed.

Lemma find_tourist_none (tourist : string) (agg_rows : list pydict) :
  List.find (fun r => eq_str (dict_get r "tourist_id" PNone) tourist) agg_rows = None
  <-> Forall (fun r => ~ row_of_tourist tourist r) agg_rows.
Proof.
  induction agg_rows as [| r rows IH]; simpl.
  - split; [constructor | done].
  - destruct (eq_str _ _) eqn:Hr.
    + split; [discriminate |]. intros Hall. apply Forall_cons in Hall as [Hno _].
      by apply eq_str_tourist in Hr.
    + rewrite IH. split.
      * intros Hall. constructor; [| done]. intros Hyes.
        apply eq_str_tourist in Hyes. congruence.
      * intros Hall. by apply Forall_cons in Hall as [_ Hall].
Qed.

Lemma find_tourist_first (tourist : string) (before after : list pydict) (agg_row : pydict) :
  Forall (fun r => ~ row_of_tourist tourist r) before ->
  row_of_tourist tourist agg_row ->
  List.find (fun r => eq_str (dict_get r "tourist_id" PNone) tourist)
            (before ++ agg_row :: after)
  = Some agg_row.
Proof.
  intros Hbefore Hrow. induction Hbefore as [| r before Hr _ IH]; simpl.
  - apply eq_str_tourist in Hrow. by rewrite Hrow.
  - destruct (eq_str _ _) eqn:Hyes; [| done]. by apply eq_str_tourist in Hyes.
Qed.

Lemma row_of_tourist_not_empty (tourist : string) (agg_row : pydict) :
  row_of_tourist tourist agg_row -> bool_decide (agg_row = ∅) = false.
Proof.
  intros Hrow. apply bool_decide_eq_false. intros ->.
  unfold row_of_tourist in Hrow. by rewrite lookup_empty in Hrow.
Qed.

(** X12.  The status codes of the on-demand analysis.  Without a
    service the answer is 503.  With one, the answer is 404 exactly when
    no aggregated row carries the requested identifier as a string, and
    no other status code is ever raised: once a row is found the handler
    returns a body or lets an exception of the pipeline through. *)
Theorem analyze_tourist_status (svc : Main.SupabaseService) (tourist : string) :
  analyze_tourist detector cfg None tourist = HTTPException 503
  /\ (analyze_tourist detector cfg (Some svc) tourist = HTTPException 404
      <-> Forall (fun r => ~ row_of_tourist tourist r) svc.(Main.get_aggregated_features))
  /\ (forall code, analyze_tourist detector cfg (Some svc) tourist = HTTPException code ->
                   code = 404%Z).
Proof.
  split; [reflexivity |]. unfold analyze_tourist.
  destruct (List.find _ _) as [agg_row |] eqn:Hfind.
  - assert (Hrow : row_of_tourist tourist agg_row).
    { apply find_some in Hfind as [_ Hyes]. by apply eq_str_tourist. }
    rewrite (row_of_tourist_not_empty _ _ Hrow).
    assert (Hsome : ~ Forall (fun r => ~ row_of_tourist tourist r)
                             svc.(Main.get_aggregated_features)).
    { intros Hall. apply find_tourist_none in Hall. congruence. }
    split.
    + split; [| done]. by destruct (Py.bind _ _).
    + intros code. by destruct (Py.bind _ _).
  - split.
    + split; [| done]. intros _. by apply find_tourist_none.
    + congruence.
Qed.

(** X13.  The on-demand analysis and the periodic one run the same
    pipeline.  For the first aggregated row of the requested tourist and
    the events of the default two-minute window, the handler lets
    through exactly the exception that [_analyze_single_tourist] raises
    on that row; otherwise its body says [should_alert] exactly when
    [_analyze_single_tourist] returns an alert, and that alert has the
    identifier, scores, severity, rules and features of the body. *)
Theorem endpoint_agrees_with_cycle (svc : Main.SupabaseService) (tourist now : string)
    (before after : list pydict) (agg_row : pydict) :
  svc.(Main.get_aggregated_features) = (before ++ agg_row :: after)%list ->
  Forall (fun r => ~ row_of_tourist tourist r) before ->
  row_of_tourist tourist agg_row ->
  let raw_events := svc.(Main.get_recent_events) (PStr tourist) 2 in
  match analyze_tourist detector cfg (Some svc) tourist,
        Main._analyze_single_tourist detector cfg now agg_row raw_events with
  | Returned body, Ok result =>
      (body.(should_alert) = true <-> is_Some result)
      /\ forall alert, result = Some alert ->
           alert.(Main.tourist_id) = PStr body.(tourist_id)
           /\ body.(tourist_id) = tourist
           /\ alert.(Main.rule_score) = body.(rule_score)
           /\ alert.(Main.anomaly_score) = body.(anomaly_score)
           /\ alert.(Main.hybrid_score) = body.(hybrid_score)
           /\ alert.(Main.severity) = body.(severity)
           /\ alert.(Main.triggered_rules) = body.(triggered_rules)
           /\ alert.(Main.feature_vector) = body.(features)
  | Uncaught e, Raise e' => e = e'
  | _, _ => False
  end.
Proof.
  intros Hrows Hbefore Hrow raw_events. unfold analyze_tourist.
  rewrite Hrows, (find_tourist_first _ _ _ _ Hbefore Hrow),
    (row_of_tourist_not_empty _ _ Hrow).
  fold raw_events. unfold Main._analyze_single_tourist, dict_item.
  unfold row_of_tourist in Hrow. rewrite Hrow. cbn [Py.bind].
  destruct (FeatureEngineer.enrich_features agg_row raw_events 120.0) as [f | e];
    cbn [Py.bind]; [| done].
  destruct (HybridFusion.compute_hybrid_score _ _ _ _ _) as [fusion | e];
    cbn [Py.bind]; [| done].
  destruct (HybridFusion.should_alert fusion) eqn:Halert; cbn [negb].
  - split.
    + simpl. split; [by eexists | done].
    + by intros alert [= <-].
  - split.
    + simpl. split; [discriminate | by intros [? ?]].
    + discriminate.
Qed.

End EndpointFacts.

Lemma endpoint_agrees_with_cycle_witness :
  exists body,
    Endpoints.analyze_tourist (H := Reference.platform) None Main.settings
      (Some (Sample.store [Sample.malformed_row; Sample.panic_row])) "t2" = Endpoints.Returned body
    /\ body.(Endpoints.should_alert) = true.
Proof.
  pose proof (endpoint_agrees_with_cycle (H := Reference.platform) None Main.settings
                (Sample.store [Sample.malformed_row; Sample.panic_row]) "t2"
                "2026-01-01T12:00:30+00:00" [Sample.malformed_row] [] Sample.panic_row
                eq_refl) as Hagree.
  assert (Hbefore : Forall (fun r => ~ row_of_tourist "t2" r) [Sample.malformed_row]).
  { constructor; [| constructor]. unfold row_of_tourist. vm_compute. discriminate. }
  assert (Hrow : row_of_tourist "t2" Sample.panic_row) by reflexivity.
  specialize (Hagree Hbefore Hrow). cbn zeta in Hagree.
  set (analysis := Main._analyze_single_tourist (H := Reference.platform) None Main.settings
                     "2026-01-01T12:00:30+00:00" Sample.panic_row
                     (Main.get_recent_events
                        (Sample.store [Sample.malformed_row; Sample.panic_row])
                        (PStr "t2") 2)) in Hagree.
  assert (Halerts : match analysis with Ok (Some _) => True | _ => False end)
    by (vm_compute; exact I).
  destruct (Endpoints.analyze_tourist _ _ _ _) as [body | code | e];
    destruct analysis as [[alert |] | e']; try contradiction.
  exists body. split; [reflexivity |]. apply Hagree. by eexists.
Defined.

(* ===================================================================== *)
(** * The training path                                                   *)
(* ===================================================================== *)

Section AggregationFacts.
Context `{Platform}.
Import Training.

Lemma add_distances_returns (distance : Q) (prev : EventRow) (rest : list EventRow) :
  exists total, add_distances distance prev rest = Ok total.
Proof.
  revert distance prev. induction rest as [| curr rest IH]; intros distance prev.
  - by eexists.
  - cbn [add_distances].
    rewrite (haversine_numeric _ _ _ _ prev.(latitude) prev.(longitude)
               curr.(latitude) curr.(longitude)) by reflexivity.
    cbn [Py.bind try_except]. apply IH.
Qed.

(** The dictionary literal of [_aggregate_window]: its cells, its keys,
    and the selection of the canonical columns, which changes nothing. *)
Lemma literal_cells (tourist : string) (v1 v2 v3 v4 v5 v6 v7 v8 v9 v10 v11 v12 : Q) :
  let agg : gmap string Q :=
    {[ "event_count" := v1; "unique_zones" := v2; "danger_ratio" := v3;
       "caution_ratio" := v4; "panic_count" := v5; "zone_transitions" := v6;
       "max_risk_timer" := v7; "avg_risk_timer" := v8; "lat_std" := v9;
       "lng_std" := v10; "distance_traveled" := v11; "speed_estimate" := v12 ]} in
  (forall column, is_Some (agg !! column) <-> In column FeatureEngineer.FEATURE_COLUMNS)
  /\ select_row FeatureEngineer.FEATURE_COLUMNS (tourist, agg) = Value (tourist, agg)
  /\ agg !! "event_count" = Some v1 /\ agg !! "unique_zones" = Some v2
  /\ agg !! "danger_ratio" = Some v3 /\ agg !! "caution_ratio" = Some v4
  /\ agg !! "panic_count" = Some v5 /\ agg !! "zone_transitions" = Some v6
  /\ agg !! "max_risk_timer" = Some v7 /\ agg !! "avg_risk_timer" = Some v8
  /\ agg !! "distance_traveled" = Some v11 /\ agg !! "speed_estimate" = Some v12.
Proof.
  intros agg. split; [| split; [| repeat split; reflexivity]].
  - intros column. rewrite <- elem_of_dom. subst agg.
    rewrite !dom_insert_L, dom_singleton_L, !elem_of_union, !elem_of_singleton.
    unfold FeatureEngineer.FEATURE_COLUMNS. simpl. intuition auto.
  - reflexivity.
Qed.

Lemma inject_nat_succ (n : nat) :
  inject_Z (Z.of_nat (S n)) == inject_Z (Z.of_nat n) + 1.
Proof. rewrite Nat2Z.inj_succ. unfold Z.succ. by rewrite inject_Z_plus. Qed.

Lemma inject_nat_le (a b : nat) :
  (a <= b)%nat -> inject_Z (Z.of_nat a) <= inject_Z (Z.of_nat b).
Proof. intros Hle. rewrite <- Zle_Qle. lia. Qed.

Lemma count_bounds (mask : EventRow -> bool) (window_df : list EventRow) :
  0 <= inject_Z (count mask window_df)
  /\ inject_Z (count mask window_df) <= inject_Z (Z.of_nat (length window_df)).
Proof.
  unfold count. split.
  - change 0 with (inject_Z (Z.of_nat 0)). apply inject_nat_le. lia.
  - apply inject_nat_le, filter_length_le.
Qed.

Lemma count_disjoint (p q : EventRow -> bool) (window_df : list EventRow) :
  (forall r, p r = true -> q r = false) ->
  inject_Z (count p window_df) + inject_Z (count q window_df)
  <= inject_Z (Z.of_nat (length window_df)).
Proof.
  intros Hdisjoint. unfold count. rewrite <- inject_Z_plus, <- Nat2Z.inj_add.
  apply inject_nat_le.
  induction window_df as [| r rows IH]; simpl; [lia |].
  destruct (p r) eqn:Hp.
  - rewrite (Hdisjoint r Hp). simpl. lia.
  - destruct (q r); simpl; lia.
Qed.

Lemma nunique_bounds (first : string) (rest : list string) :
  1 <= inject_Z (nunique (first :: rest))
  /\ inject_Z (nunique (first :: rest)) <= inject_Z (Z.of_nat (length (first :: rest))).
Proof.
  unfold nunique. split.
  - change 1 with (inject_Z (Z.of_nat 1)). apply inject_nat_le.
    assert (Hin : first ∈ remove_dups (first :: rest))
      by (apply elem_of_remove_dups; left).
    destruct (remove_dups (first :: rest)); [by apply elem_of_nil in Hin | simpl; lia].
  - apply inject_nat_le. generalize (first :: rest). intros l.
    induction l as [| x l IH]; simpl; [lia |].
    destruct (decide_rel elem_of x l); simpl; lia.
Qed.

Lemma series_max_ge (first : Q) (rest : list Q) :
  first <= series_max first rest /\ Forall (fun x => x <= series_max first rest) rest.
Proof.
  unfold series_max. revert first. induction rest as [| x rest IH]; intros first; simpl.
  - split; [lra | constructor].
  - destruct (IH (Qmax first x)) as [Hacc Hrest].
    pose proof (Q.le_max_l first x). pose proof (Q.le_max_r first x).
    split; [lra |]. constructor; [lra | done].
Qed.

Lemma series_sum_le (series : list Q) (bound : Q) :
  Forall (fun x => x <= bound) series ->
  series_sum series <= bound * inject_Z (Z.of_nat (length series)).
Proof.
  induction 1 as [| x series Hx _ IH]; simpl.
  - change (inject_Z (Z.of_nat 0)) with 0. lra.
  - change (length (x :: series)) with (S (length series)).
    rewrite inject_nat_succ. lra.
Qed.

Lemma mean_le_max (first : Q) (rest : list Q) :
  series_mean (first :: rest) <= series_max first rest.
Proof.
  unfold series_mean. destruct (series_max_ge first rest) as [Hfirst Hrest].
  apply Qle_shift_div_r.
  - change 0 with (inject_Z 0). rewrite <- Zlt_Qlt. simpl. lia.
  - apply series_sum_le. by constructor.
Qed.

Lemma ratio_nonnegative (a n : Q) : 0 <= a -> 0 < n -> 0 <= a / n.
Proof. intros Ha Hn. apply Qle_shift_div_l; [done | lra]. Qed.

Lemma ratios_at_most_one (a b n : Q) : a + b <= n -> 0 < n -> a / n + b / n <= 1.
Proof.
  intros Hsum Hn.
  assert (E : a / n + b / n == (a + b) / n) by (field; lra).
  rewrite E. apply Qle_shift_div_r; [done | lra].
Qed.

Lemma danger_not_caution (r : EventRow) :
  isin danger_states r.(zone_state) = true -> isin caution_states r.(zone_state) = false.
Proof.
  unfold isin, danger_states, caution_states. simpl.
  generalize (zone_state r). intros state.
  destruct (String.eqb_spec state "IN_DANGER") as [-> | ?]; [reflexivity |].
  destruct (String.eqb_spec state "NEAR_DANGER") as [-> | ?]; [reflexivity |].
  discriminate.
Qed.

Lemma panic_not_transition (r : EventRow) :
  String.eqb r.(event_type) "PANIC" = true -> isin transition_types r.(event_type) = false.
Proof. intros Hpanic. apply String.eqb_eq in Hpanic. by rewrite Hpanic. Qed.

(** A window of three events or more aggregates to a well-formed row
    that the selection of the canonical columns leaves as it is. *)
Lemma aggregate_window_well_formed (tourist : string) (window_df : list EventRow) :
  (3 <= length window_df)%nat ->
  exists agg,
    _aggregate_window window_df = Value agg
    /\ select_row FeatureEngineer.FEATURE_COLUMNS (tourist, agg) = Value (tourist, agg)
    /\ well_formed (tourist, agg)
    /\ agg !! "event_count" = Some (inject_Z (Z.of_nat (length window_df))).
Proof.
  intros Hlen. unfold _aggregate_window.
  destruct window_df as [| a [| b rest]] eqn:Hw; simpl in Hlen; try lia.
  destruct (add_distances_returns 0.0 a (b :: rest)) as [distance ->].
  cbn [of_py run_bind].
  change (List.map risk_timer_value (a :: b :: rest))
    with (risk_timer_value a :: risk_timer_value b :: List.map risk_timer_value rest).
  cbv iota beta. rewrite <- Hw.
  edestruct (literal_cells tourist)
    as (Hdom & Hsel & H1 & H2 & H3 & H4 & H5 & H6 & H7 & H8 & H11 & H12).
  eexists. split; [reflexivity |]. split; [exact Hsel |]. split; [| exact H1].
  assert (Hn : 0 < inject_Z (Z.of_nat (length window_df))).
  { change 0 with (inject_Z 0). rewrite <- Zlt_Qlt. rewrite Hw. simpl. lia. }
  unfold well_formed, cell. cbn [snd].
  split; [exact Hdom |].
  rewrite H1, H2, H3, H4, H5, H6, H7, H8, H11, H12. cbn [from_option id].
  pose proof (count_bounds (fun r => isin danger_states r.(zone_state)) window_df) as [? ?].
  pose proof (count_bounds (fun r => isin caution_states r.(zone_state)) window_df) as [? ?].
  pose proof (count_bounds (fun r => String.eqb r.(event_type) "PANIC") window_df) as [? ?].
  pose proof (count_bounds (fun r => isin transition_types r.(event_type)) window_df) as [? ?].
  split; [| split; [| split; [| split; [| split; [| split; [| split; [| split;
    [| split; [| split]]]]]]]]].
  - change 3 with (inject_Z (Z.of_nat 3)). apply inject_nat_le. rewrite Hw. simpl. lia.
  - rewrite Hw. apply (nunique_bounds a.(zone_state)).
  - pose proof (nunique_bounds a.(zone_state) (List.map zone_state (b :: rest))) as [_ Hle].
    change (zone_state a :: List.map zone_state (b :: rest))
      with (List.map zone_state (a :: b :: rest)) in Hle.
    rewrite length_map, <- Hw in Hle. exact Hle.
  - by apply ratio_nonnegative.
  - by apply ratio_nonnegative.
  - apply ratios_at_most_one; [| done].
    apply count_disjoint. intros r. apply danger_not_caution.
  - done.
  - done.
  - apply count_disjoint. intros r. apply panic_not_transition.
  - apply mean_le_max.
  - field.
Qed.

End AggregationFacts.

Section WindowFacts.
Context `{Platform}.
Import Training.

Lemma instants_succ (start : Z) (n : nat) :
  instants start (S n) = start :: instants (start + nanoseconds 30) n.
Proof.
  unfold instants. cbn [seq List.map]. f_equal; [lia |].
  rewrite <- seq_shift, List.map_map. apply map_ext. intros i. lia.
Qed.

(** One turn of the loop adds the row of its window, if there is one. *)
Lemma window_step (tourist : string) (group : list EventRow) (window_ns current : Z)
    (rows : list FeatureRow) :
  let window_df :=
    List.filter (fun r => (current <=? r.(timestamp))%Z
                          && (r.(timestamp) <? current + window_ns)%Z) group in
  (if (3 <=? length window_df)%nat
   then let! agg := _aggregate_window window_df in
        Value (rows ++ [(tourist, agg)])%list
   else Value rows)
  = Value (rows ++ window_rows tourist group window_ns current)%list.
Proof.
  intros window_df. unfold window_rows, window_at. fold window_df.
  destruct (3 <=? length window_df)%nat eqn:Hlen; [| by rewrite app_nil_r].
  apply Nat.leb_le in Hlen.
  destruct (aggregate_window_well_formed tourist window_df Hlen) as (agg & -> & _).
  reflexivity.
Qed.

(** The loop of one group, for any number of turns: it opens [n]
    windows when it is given that many turns, and runs out otherwise. *)
Lemma slide_closed (n : nat) :
  forall (fuel : nat) (tourist : string) (group : list EventRow)
         (window_ns end_ current : Z) (rows : list FeatureRow),
    (end_ < current + nanoseconds 30 * Z.of_nat n)%Z ->
    (n <> 0%nat -> current + nanoseconds 30 * (Z.of_nat n - 1) <= end_)%Z ->
    slide fuel tourist group window_ns end_ current rows
    = if (n <=? fuel)%nat
      then Value (rows ++ flat_map (window_rows tourist group window_ns)
                                   (instants current n))%list
      else Fails OutOfFuel.
Proof.
  induction n as [| n IH]; intros fuel tourist group window_ns end_ current rows Hend Hlast.
  - assert (Hdone : (current <=? end_)%Z = false) by (apply Z.leb_gt; lia).
    cbn [Nat.leb instants seq List.map flat_map]. rewrite app_nil_r.
    destruct fuel; cbn [slide]; by rewrite Hdone.
  - assert (Hturn : (current <=? end_)%Z = true).
    { apply Z.leb_le. specialize (Hlast ltac:(done)). unfold nanoseconds in *. lia. }
    destruct fuel as [| fuel]; cbn [slide]; rewrite Hturn; [reflexivity |].
    rewrite window_step. cbn [run_bind].
    rewrite IH.
    + cbn [Nat.leb]. destruct (n <=? fuel)%nat; [| reflexivity].
      rewrite instants_succ. cbn [flat_map]. by rewrite app_assoc.
    + unfold nanoseconds in *. lia.
    + intros _. unfold nanoseconds in *. lia.
Qed.

Lemma turns_remaining (start end_ : Z) :
  (end_ < start + nanoseconds 30 * Z.of_nat (turns start end_))%Z
  /\ (turns start end_ <> 0%nat ->
      start + nanoseconds 30 * (Z.of_nat (turns start end_) - 1) <= end_)%Z.
Proof.
  unfold turns. destruct (start <=? end_)%Z eqn:Hle.
  - apply Z.leb_le in Hle.
    assert (Hstride : (0 < nanoseconds 30)%Z) by (unfold nanoseconds; lia).
    pose proof (Z.mul_div_le (end_ - start) _ Hstride).
    pose proof (Z.mul_succ_div_gt (end_ - start) _ Hstride).
    assert (0 <= (end_ - start) / nanoseconds 30)%Z by (apply Z.div_pos; lia).
    rewrite Nat2Z.inj_succ, Z2Nat.id by done. split; [lia |]. intros _. lia.
  - apply Z.leb_gt in Hle. split; [lia | done].
Qed.

Lemma each_group_closed (fuel : nat) (groups : list (string * list EventRow))
    (window_ns : Z) (rows : list FeatureRow) :
  Forall (fun g => g.2 <> []) groups ->
  each_group fuel groups window_ns rows
  = if (fold_right Nat.max 0%nat (List.map group_turns groups) <=? fuel)%nat
    then Value (rows ++ flat_map (group_rows window_ns) groups)%list
    else Fails OutOfFuel.
Proof.
  intros Hgroups. revert rows.
  induction Hgroups as [| [tourist group] groups Hgroup _ IH]; intros rows.
  - cbn. by rewrite app_nil_r.
  - cbn [each_group List.map fold_right flat_map]. unfold group_rows at 1, group_turns at 1.
    cbn [fst snd] in *.
    destruct (head group) as [first |] eqn:Hfirst; [| by destruct group].
    destruct (last group) as [final |] eqn:Hfinal;
      [| apply last_None in Hfinal; contradiction].
    destruct (turns_remaining first.(timestamp) final.(timestamp)) as [Hend Hlast].
    rewrite (slide_closed _ _ _ _ _ _ _ _ Hend Hlast).
    set (n := turns _ _). set (m := fold_right _ _ _).
    destruct (n <=? fuel)%nat eqn:Hn.
    + cbn [run_bind]. rewrite IH. fold m. apply Nat.leb_le in Hn.
      destruct (m <=? fuel)%nat eqn:Hm.
      * apply Nat.leb_le in Hm.
        assert (Hmax : (Nat.max n m <=? fuel)%nat = true) by (apply Nat.leb_le; lia).
        by rewrite Hmax, app_assoc.
      * apply Nat.leb_gt in Hm.
        assert (Hmax : (Nat.max n m <=? fuel)%nat = false) by (apply Nat.leb_gt; lia).
        by rewrite Hmax.
    + apply Nat.leb_gt in Hn.
      assert (Hmax : (Nat.max n m <=? fuel)%nat = false) by (apply Nat.leb_gt; lia).
      by rewrite Hmax.
Qed.

Lemma insert_key_In (key key' : string) (keys : list string) :
  In key (insert_key key' keys) -> key = key' \/ In key keys.
Proof.
  induction keys as [| k keys IH]; simpl.
  - intros [<- | []]. by left.
  - destruct (String.compare key' k) eqn:Hcmp; simpl.
    + auto.
    + intros [<- | Hin]; auto.
    + intros [<- | Hin]; [auto |]. destruct (IH Hin); auto.
Qed.

Lemma group_keys_In (key : string) (frame : list EventRow) :
  In key (group_keys frame) -> exists r, In r frame /\ r.(tourist_id) = key.
Proof.
  unfold group_keys. induction frame as [| r frame IH]; simpl; [done |].
  intros Hin. apply insert_key_In in Hin as [-> | Hin].
  - exists r. auto.
  - destruct (IH Hin) as (r' & Hr' & Hkey). exists r'. auto.
Qed.

Lemma groupby_spec (frame : list EventRow) (g : string * list EventRow) :
  In g (groupby frame) -> g.2 = events_of g.1 frame /\ g.2 <> [].
Proof.
  unfold groupby. intros Hin. apply in_map_iff in Hin as (key & <- & Hkey).
  split; [reflexivity |]. cbn [snd].
  apply group_keys_In in Hkey as (r & Hr & <-).
  intros Hempty.
  assert (Hin : In r (List.filter (fun r' => String.eqb r'.(tourist_id) r.(tourist_id)) frame)).
  { apply filter_In. split; [done | apply String.eqb_refl]. }
  rewrite Hempty in Hin. contradiction.
Qed.

(** Where a row of the closed form comes from. *)
Lemma training_windows_rows (events_df : list EventRow) (window_seconds : Z)
    (row : FeatureRow) :
  In row (training_windows events_df window_seconds) ->
  exists current,
    let window_df :=
      window_at (events_of row.1 (sort_values events_df))
                (nanoseconds window_seconds) current in
    (3 <= length window_df)%nat /\ _aggregate_window window_df = Value row.2.
Proof.
  unfold training_windows. intros Hin.
  apply in_flat_map in Hin as ([tourist group] & Hg & Hin).
  apply groupby_spec in Hg as [Hgroup _]. cbn [fst snd] in Hgroup.
  unfold group_rows in Hin. cbn [fst snd] in Hin.
  destruct (head group); [| contradiction]. destruct (last group); [| contradiction].
  apply in_flat_map in Hin as (current & _ & Hin).
  unfold window_rows in Hin.
  destruct (3 <=? _)%nat eqn:Hlen; [| contradiction]. apply Nat.leb_le in Hlen.
  destruct (_aggregate_window _) as [agg |] eqn:Hagg; [| contradiction].
  destruct Hin as [<- | []]. cbn [fst snd]. exists current. rewrite <- Hgroup. auto.
Qed.

Lemma select_rows_unchanged (frame : list FeatureRow) :
  Forall (fun row => select_row FeatureEngineer.FEATURE_COLUMNS row = Value row) frame ->
  select_rows FeatureEngineer.FEATURE_COLUMNS frame = Value frame.
Proof.
  induction 1 as [| row frame Hrow _ IH]; [reflexivity |].
  cbn [select_rows]. by rewrite Hrow, IH.
Qed.

Lemma training_windows_selected (events_df : list EventRow) (window_seconds : Z) :
  select_columns FeatureEngineer.FEATURE_COLUMNS (training_windows events_df window_seconds)
  = Value (training_windows events_df window_seconds).
Proof.
  assert (Hrows : Forall (fun row : FeatureRow =>
                            select_row FeatureEngineer.FEATURE_COLUMNS row = Value row
                            /\ forall column, In column FeatureEngineer.FEATURE_COLUMNS ->
                                              is_Some (row.2 !! column))
                         (training_windows events_df window_seconds)).
  { apply Forall_forall. intros [tourist agg] Hin. apply list_elem_of_In in Hin.
    apply training_windows_rows in Hin as (current & Hlen & Hagg). cbn [fst snd] in *.
    destruct (aggregate_window_well_formed tourist _ Hlen) as (agg' & Hagg' & Hsel & Hwf & _).
    rewrite Hagg in Hagg'. injection Hagg' as <-.
    split; [exact Hsel |]. intros column Hcolumn. by apply Hwf. }
  unfold select_columns.
  destruct (training_windows events_df window_seconds) as [| row frame]; [reflexivity |].
  assert (Hcolumns : forallb (has_column (row :: frame)) FeatureEngineer.FEATURE_COLUMNS = true).
  { apply forallb_forall. intros column Hcolumn. unfold has_column. cbn [existsb].
    apply Forall_cons in Hrows as [[_ Hhas] _].
    by rewrite (bool_decide_eq_true_2 _ (Hhas column Hcolumn)). }
  rewrite Hcolumns. apply select_rows_unchanged.
  eapply Forall_impl; [exact Hrows |]. by intros ? [? _].
Qed.

(** [build_feature_dataframe] without its loops. *)
Lemma build_feature_dataframe_closed (fuel : nat) (events_df : list EventRow)
    (window_seconds : Z) :
  build_feature_dataframe fuel events_df window_seconds
  = if (turns_needed events_df <=? fuel)%nat
    then Value (training_windows events_df window_seconds)
    else Fails OutOfFuel.
Proof.
  unfold build_feature_dataframe.
  destruct events_df as [| r events] eqn:Hevents; [reflexivity |]. rewrite <- Hevents.
  rewrite each_group_closed.
  - unfold turns_needed.
    destruct (_ <=? fuel)%nat; [| reflexivity].
    cbn [run_bind app]. fold (training_windows events_df window_seconds).
    pose proof (training_windows_selected events_df window_seconds) as Hsel.
    by destruct (training_windows events_df window_seconds).
  - apply Forall_forall. intros g Hg. apply list_elem_of_In in Hg.
    by apply groupby_spec in Hg as [_ ?].
Qed.

(** X14.  The training frame in closed form.  Given at least the turns
    that the longest-lived tourist needs, the two loops of
    [build_feature_dataframe] return, for each group of [groupby] and
    each instant from the first event of the group in steps of 30 s up
    to its last, the aggregate of the events of the group in the window
    opening there, when they are three or more; with fewer turns the
    loop is cut short.  Nothing else can happen: the guard of three
    events keeps every division and deviation defined, no group is
    empty, and the final selection of the canonical columns finds them
    all. *)
Theorem training_frame_closed_form (fuel : nat) (events_df : list EventRow)
    (window_seconds : Z) :
  build_feature_dataframe fuel events_df window_seconds
  = if (turns_needed events_df <=? fuel)%nat
    then Value (training_windows events_df window_seconds)
    else Fails OutOfFuel.
Proof. apply build_feature_dataframe_closed. Qed.

End WindowFacts.

Section FrameFacts.
Context `{Platform}.
Import Training.

Lemma insert_row_count (mask : EventRow -> bool) (x : EventRow) (frame : list EventRow) :
  length (List.filter mask (insert_row x frame)) = length (List.filter mask (x :: frame)).
Proof.
  induction frame as [| y frame IH]; [reflexivity |].
  cbn [insert_row]. destruct (row_le x y); [reflexivity |].
  cbn [List.filter] in *. destruct (mask y), (mask x); simpl in *; lia.
Qed.

(** Sorting moves rows, it neither adds nor drops any. *)
Lemma sort_values_count (mask : EventRow -> bool) (frame : list EventRow) :
  length (List.filter mask (sort_values frame)) = length (List.filter mask frame).
Proof.
  unfold sort_values. induction frame as [| x frame IH]; [reflexivity |].
  cbn [fold_right]. rewrite insert_row_count. cbn [List.filter].
  destruct (mask x); simpl; lia.
Qed.


(** X16.  Every row of a training frame counts events of its own
    tourist: its [event_count] is a number of events between three and
    the number of events the tourist has in the frame of events.  So a
    tourist with fewer than three events has no row, and no row at all
    comes from a window that is not wider than zero seconds. *)
Theorem training_rows_provenance (fuel : nat) (events_df : list EventRow)
    (window_seconds : Z) (rows : list FeatureRow) :
  build_feature_dataframe fuel events_df window_seconds = Value rows ->
  Forall (fun row : FeatureRow =>
            exists n : nat,
              row.2 !! "event_count" = Some (inject_Z (Z.of_nat n))
              /\ (3 <= n)%nat /\ (n <= length (events_of row.1 events_df))%nat)
         rows
  /\ ((window_seconds <= 0)%Z -> rows = []).
Proof.
  rewrite build_feature_dataframe_closed. destruct (_ <=? _)%nat; [| discriminate].
  intros [= <-]. split.
  - apply Forall_forall. intros [tourist agg] Hin.
    apply list_elem_of_In, training_windows_rows in Hin as (current & Hlen & Hagg).
    cbn [fst snd] in *.
    destruct (aggregate_window_well_formed tourist _ Hlen) as (agg' & Hagg' & _ & _ & Hcount).
    rewrite Hagg in Hagg'. injection Hagg' as <-.
    eexists. split; [exact Hcount |]. split; [done |].
    unfold window_at. etransitivity; [apply filter_length_le |].
    unfold events_of. by rewrite sort_values_count.
  - intros Hwidth. destruct (training_windows events_df window_seconds) as [| row rest] eqn:Hrows;
      [reflexivity |].
    assert (Hin : In row (training_windows events_df window_seconds))
      by (rewrite Hrows; by left).
    apply training_windows_rows in Hin as (current & Hlen & _). cbn zeta in Hlen.
    assert (Hempty : window_at (events_of row.1 (sort_values events_df))
                               (nanoseconds window_seconds) current = []).
    { unfold window_at. generalize (events_of row.1 (sort_values events_df)). intros l.
      induction l as [| r l IH]; [reflexivity |]. cbn [List.filter].
      assert (Hout : (current <=? timestamp r)%Z
                     && (timestamp r <? current + nanoseconds window_seconds)%Z = false).
      { apply andb_false_iff. unfold nanoseconds.
        destruct (Z.leb_spec current (timestamp r)); [right | by left].
        apply Z.ltb_ge. lia. }
      by rewrite Hout. }
    rewrite Hempty in Hlen. simpl in Hlen. lia.
Qed.

End FrameFacts.


Lemma training_rows_provenance_witness :
  exists rows,
    Training.build_feature_dataframe (H := Reference.platform) 3 Archive.glimpse 60
    = Training.Value rows
    /\ Forall (fun row : Training.FeatureRow =>
                 exists n : nat,
                   row.2 !! "event_count" = Some (inject_Z (Z.of_nat n))
                   /\ (3 <= n)%nat /\ (n <= length (events_of row.1 Archive.glimpse))%nat)
              rows.
Proof.
  set (outcome := Training.build_feature_dataframe (H := Reference.platform) 3
                    Archive.glimpse 60).
  assert (Hvalue : match outcome with Training.Value _ => True | _ => False end)
    by (vm_compute; exact I).
  destruct outcome as [rows |] eqn:Hrows; [| contradiction].
  exists rows. split; [reflexivity |].
  exact (proj1 (training_rows_provenance (H := Reference.platform) 3 Archive.glimpse 60
                  rows Hrows)).
Defined.

(** The frame of the stroll: eleven windows of tourist "t1", the last
    ones with the events of its final minute, and none of tourist "t0",
    who has two events.  With a turn too few the loop is cut short. *)
Example stroll_windows :
  match Training.build_feature_dataframe (H := Reference.platform) 12 Archive.stroll 120 with
  | Training.Value rows =>
      List.map (fun row : Training.FeatureRow => (row.1, row.2 !! "event_count")) rows
      = List.map (fun n => ("t1", Some (inject_Z n)))
                 [12; 12; 12; 12; 12; 12; 12; 12; 10; 7; 4]%Z
  | Training.Fails _ => False
  end
  /\ Training.build_feature_dataframe (H := Reference.platform) 2 Archive.glimpse 120
     = Training.Fails Training.OutOfFuel.
Proof. split; vm_compute; reflexivity. Qed.

Section TrainFacts.
Context `{Platform} `{Training.Learner}.
Context (model_path : string).
Import Training.

Lemma feature_matrix_of_windows (events_df : list EventRow) (window_seconds : Z) :
  feature_matrix (training_windows events_df window_seconds)
  = Value (matrix_of (training_windows events_df window_seconds)).
Proof. unfold feature_matrix. by rewrite training_windows_selected. Qed.

(** [train] without its loops: it refuses with [ValueError] and writes
    nothing, or writes the bundle of the fitted model. *)
Lemma train_closed (fuel : nat) (fs : gmap string IsolationForest.file)
    (training_data : list EventRow) (n_estimators : Z) (contamination : Q)
    (version : string) (output_path : option string) :
  (turns_needed training_data <= fuel)%nat ->
  let rows := training_windows training_data 120 in
  let X := matrix_of rows in
  let model := fit n_estimators contamination X in
  let threshold := np_percentile (List.map model.(IsolationForest.decision_function) X) 5 in
  train model_path fuel fs training_data n_estimators contamination version output_path
  = if (length rows <? 10)%nat
       || ((n_estimators <? 1)%Z || Qleb contamination 0 || Qltb 0.5 contamination)
    then (Fails (Exception ValueError), fs)
    else (Value {| result_model_version := version;
                   result_training_samples := Z.of_nat (length rows);
                   result_threshold := threshold;
                   result_output_path := default model_path output_path |},
          <[default model_path output_path :=
              IsolationForest.Pickled
                {| IsolationForest.bundle_model := Some model;
                   IsolationForest.bundle_threshold := Some threshold;
                   IsolationForest.bundle_feature_columns :=
                     Some FeatureEngineer.FEATURE_COLUMNS;
                   IsolationForest.bundle_model_version := Some version;
                   IsolationForest.bundle_training_samples :=
                     Some (Z.of_nat (length rows)) |}]> fs).
Proof.
  intros Hfuel. unfold train.
  destruct training_data as [| r data] eqn:Hdata; [reflexivity |]. rewrite <- Hdata in *.
  cbn zeta. set (rows := training_windows training_data 120).
  set (X := matrix_of rows).
  rewrite build_feature_dataframe_closed.
  apply Nat.leb_le in Hfuel. rewrite Hfuel. fold rows.
  destruct (length rows <? 10)%nat eqn:Hrows; [reflexivity |]. cbn [orb].
  unfold train_and_save. unfold rows at 1. rewrite feature_matrix_of_windows.
  fold rows. fold X. cbn [run_bind]. unfold model_fit.
  destruct ((n_estimators <? 1)%Z || Qleb contamination 0 || Qltb 0.5 contamination);
    [reflexivity |].
  assert (Hlength : length X = length rows) by (unfold X, matrix_of; apply length_map).
  apply Nat.ltb_ge in Hrows.
  destruct X as [| x X'] eqn:HX; [simpl in Hlength; lia |].
  cbn [run_bind]. rewrite <- Hlength. reflexivity.
Qed.



End TrainFacts.



(* ===================================================================== *)
(** * Null timestamps, and the life cycle of the scorer                   *)
(* ===================================================================== *)

Section NullKeys.
Context {A : Type} (key : A -> pyval).

Lemma lt_raises_type_error (a b : pyval) (e : exn) : lt a b = Raise e -> e = TypeError.
Proof.
  unfold lt. destruct a, b; simpl; try congruence;
    repeat match goal with |- context [if ?c then _ else _] => destruct c end; congruence.
Qed.

Lemma lt_null_left (b : pyval) : lt PNone b = Raise TypeError.
Proof. by destruct b. Qed.

Lemma lt_null_right (a : pyval) : lt a PNone = Raise TypeError.
Proof. by destruct a as [| [] | |]. Qed.

Lemma insert_by_outcome (x : A) (placed : list A) :
  match insert_by key x placed with
  | Ok placed' => placed' <> []
  | Raise e => e = TypeError
  end.
Proof.
  induction placed as [| y rest IH]; cbn [insert_by]; [done |].
  destruct (lt (key x) (key y)) as [[] |] eqn:Hlt; cbn [Py.bind].
  - done.
  - destruct (insert_by key x rest); cbn [Py.bind]; done.
  - by apply lt_raises_type_error in Hlt.
Qed.

Lemma insert_by_null (x : A) (placed : list A) :
  key x = PNone -> placed <> [] -> insert_by key x placed = Raise TypeError.
Proof.
  intros Hx Hplaced. destruct placed as [| y rest]; [done |].
  cbn [insert_by]. by rewrite Hx, lt_null_left.
Qed.

Lemma sort_onto_null (xs placed : list A) :
  placed <> [] -> Exists (fun x => key x = PNone) xs ->
  sort_onto key placed xs = Raise TypeError.
Proof.
  revert placed. induction xs as [| x xs IH]; intros placed Hplaced Hnull.
  - by apply Exists_nil in Hnull.
  - cbn [sort_onto]. pose proof (insert_by_outcome x placed) as Houtcome.
    destruct (insert_by key x placed) as [placed' | e] eqn:Hinsert; cbn [Py.bind];
      [| by subst].
    apply Exists_cons in Hnull as [Hx | Hrest]; [| by apply IH].
    rewrite (insert_by_null x placed Hx Hplaced) in Hinsert. discriminate.
Qed.

(** Sorting two or more elements one of whose keys is null raises
    [TypeError]. *)
Lemma sorted_null (xs : list A) :
  (2 <= length xs)%nat -> Exists (fun x => key x = PNone) xs ->
  Py.sorted key xs = Raise TypeError.
Proof.
  unfold Py.sorted. destruct xs as [| x [| y xs]]; simpl length; try lia.
  intros _ Hnull. cbn [sort_onto insert_by Py.bind].
  apply Exists_cons in Hnull as [Hx | Hrest].
  - by rewrite Hx, lt_null_right.
  - pose proof (insert_by_outcome y [x]) as Houtcome.
    cbn [insert_by] in Houtcome.
    destruct (lt (key y) (key x)) as [before |] eqn:Hlt; cbn [Py.bind] in *; [| by subst].
    apply Exists_cons in Hrest as [Hy | Hrest].
    + rewrite Hy, lt_null_left in Hlt. discriminate.
    + destruct before; cbn [Py.bind]; by apply sort_onto_null.
Qed.

End NullKeys.

Section NullTimestamp.
Context `{Platform}.

(** X19.  A null timestamp is fatal to the feature engineer and silent
    in the rule engine.  When two or more events are given and one of
    them carries a null timestamp, [sorted] cannot order them:
    [compute_distance_traveled] and [enrich_features] raise [TypeError],
    and so does the analysis of the tourist.  The rule engine, given the
    same events, returns as ever, but rule R3 has raised inside it and
    is not among the triggered rules, whatever the other events show. *)
Theorem null_timestamp_breaks_ordering (agg_row features : pydict)
    (raw_events : list pydict) (window_seconds : Q) :
  (2 <= length raw_events)%nat ->
  Exists (fun e => e !! "timestamp" = Some PNone) raw_events ->
  FeatureEngineer.compute_distance_traveled raw_events = Raise TypeError
  /\ FeatureEngineer.enrich_features agg_row raw_events window_seconds = Raise TypeError
  /\ RuleEngine._has_rapid_transition raw_events 10 = Raise TypeError
  /\ ~ In "R3" (RuleEngine.evaluate_rules features (Some raw_events)).(RuleEngine.triggered_rules)
  /\ forall detector cfg now tourist,
       agg_row !! "tourist_id" = Some tourist ->
       Main._analyze_single_tourist detector cfg now agg_row raw_events = Raise TypeError.
Proof.
  intros Hlen Hnull.
  assert (Hsorted : Py.sorted timestamp_key raw_events = Raise TypeError).
  { apply sorted_null; [done |]. eapply Exists_impl; [exact Hnull |].
    intros e He. unfold timestamp_key, dict_get. by rewrite He. }
  assert (Hdistance : FeatureEngineer.compute_distance_traveled raw_events = Raise TypeError).
  { unfold FeatureEngineer.compute_distance_traveled. by rewrite Hsorted. }
  assert (Henrich : FeatureEngineer.enrich_features agg_row raw_events window_seconds
                    = Raise TypeError).
  { unfold FeatureEngineer.enrich_features. by rewrite Hdistance. }
  assert (Hrapid : RuleEngine._has_rapid_transition raw_events 10 = Raise TypeError).
  { unfold RuleEngine._has_rapid_transition. by rewrite Hsorted. }
  repeat split; auto.
  - rewrite (listed_iff_rule_fires features (Some raw_events) 2 _ ("R3", 0.7) eq_refl eq_refl).
    rewrite r3_fires. cbn [default from_option id]. rewrite Hrapid. discriminate.
  - intros detector cfg now tourist Htourist.
    unfold Main._analyze_single_tourist, dict_item. rewrite Htourist. cbn [Py.bind].
    unfold FeatureEngineer.enrich_features. by rewrite Hdistance.
Qed.

End NullTimestamp.

Section LifeCycle.
Context `{Platform}.
Import IsolationForest.

(** The two outcomes of [load_model]. *)
Lemma load_model_outcome (fs : gmap string file) (path : string) (self : AnomalyDetector) :
  (load_model fs path self = (Ok false, self)
   /\ ~ exists b m, fs !! path = Some (Pickled b) /\ b.(bundle_model) = Some m)
  \/ (exists b m,
        fs !! path = Some (Pickled b) /\ b.(bundle_model) = Some m
        /\ load_model fs path self
           = (Ok true,
              {| model := Some m;
                 threshold := default 0.0 b.(bundle_threshold);
                 feature_columns :=
                   default FeatureEngineer.FEATURE_COLUMNS b.(bundle_feature_columns);
                 model_version := default "v1" b.(bundle_model_version);
                 training_samples := default 0%Z b.(bundle_training_samples);
                 _model_path := self.(_model_path) |})).
Proof.
  unfold load_model. destruct (fs !! path) as [f |] eqn:Hfile.
  - destruct (load_model_body_atomic f self) as [[e He] | (b & m & -> & Hm & Hbody)].
    + left. rewrite He. split; [reflexivity |]. intros (b & m & [= ->] & Hm).
      unfold load_model_body, seq, lift in He.
      cbn [joblib_load bundle_item_model] in He. rewrite Hm in He. discriminate.
    + right. exists b, m. by rewrite Hbody.
  - left. split; [reflexivity |]. by intros (b & m & ? & _).
Qed.

Lemma load_model_idempotent (fs : gmap string file) (path : string) (self : AnomalyDetector) :
  load_model fs path (load_model fs path self).2 = load_model fs path self.
Proof.
  destruct (load_model_outcome fs path self) as [[Hload _] | (b & m & Hfile & Hm & ->)].
  - rewrite Hload. exact Hload.
  - cbn [snd].
    destruct (load_model_outcome fs path
                {| model := Some m;
                   threshold := default 0.0 (bundle_threshold b);
                   feature_columns :=
                     default FeatureEngineer.FEATURE_COLUMNS (bundle_feature_columns b);
                   model_version := default "v1" (bundle_model_version b);
                   training_samples := default 0%Z (bundle_training_samples b);
                   _model_path := _model_path self |})
      as [[_ Hno] | (b' & m' & Hfile' & Hm' & ->)].
    + exfalso. apply Hno. by exists b, m.
    + rewrite Hfile in Hfile'. injection Hfile' as <-.
      rewrite Hm in Hm'. by injection Hm' as <-.
Qed.


End LifeCycle.

Lemma null_timestamp_breaks_ordering_witness :
  let events := [Sample.safe_at_noon; <["timestamp" := PNone]> (Sample.danger_after "08")] in
  FeatureEngineer.enrich_features (H := Reference.platform) Sample.panic_row events 120.0
  = Raise TypeError
  /\ RuleEngine._has_rapid_transition (H := Reference.platform) Sample.rapid_events 10 = Ok true
  /\ ~ In "R3" (RuleEngine.evaluate_rules (H := Reference.platform) Sample.panic_row
                  (Some events)).(RuleEngine.triggered_rules).
Proof.
  intros events.
  assert (Hlen : (2 <= length events)%nat) by (simpl; lia).
  assert (Hnull : Exists (fun e => e !! "timestamp" = Some PNone) events).
  { apply Exists_cons_tl, Exists_cons_hd. reflexivity. }
  destruct (null_timestamp_breaks_ordering (H := Reference.platform) Sample.panic_row
              Sample.panic_row events 120.0 Hlen Hnull)
    as (_ & Henrich & _ & Hsilent & _).
  split; [exact Henrich |]. split; [vm_compute; reflexivity | exact Hsilent].
Defined.
